(** * HabitTrackerApp: streak engine and trend aggregator

    A shallow embedding of [habit.py], [analyse.py] and the parts of
    [tracker.py] they rest on, with the properties of the streak state
    machine and of the three trend aggregations; then the rest of
    [tracker.py], the views of [analyse.py] and the commands of [main.py]
    that change the database, with the properties of the stored data.

    Conventions of the embedding.
    - Python integers are [Z].
    - [date.today()] is an explicit argument [today] of every operation
      that reads the clock.
    - A [datetime.date] is the record of its three fields; ordinals,
      [timedelta] arithmetic, comparison and [weekday] follow the
      algorithms of the standard [datetime] module.  The values of the
      Python type are the well-formed records of the years [MINYEAR] to
      [MAXYEAR]; arithmetic that leaves this range raises, as in Python.
    - Code that can raise returns a [result]: the value, or the
      exception raised.
    - [print] is modelled by returning the message printed.
    - A [dict] is an association list in insertion order.
    - A table is the list of its rows in insertion order; the constraints
      of the schema ([db.py]) are checked by the statements that can
      violate them.  A query returns the rows in the order in which
      SQLite reads them: in table order on a scan, in index order when
      it is answered from an index.
    - Column [completion_date] holds the text YYYY-MM-DD; the model
      keeps the date, and orders the rows of the index by date, which
      is the order of these texts. *)

From Stdlib Require Import ZArith List Bool Lia String Sorted FinFun
  Permutation.
Import ListNotations.

#[local] Open Scope Z_scope.

(* ================================================================== *)
(** * Exceptions *)
(* ================================================================== *)

Module Exceptions.

Inductive exn : Type :=
| OverflowError
| ValueError.

(** The outcome of code that can raise. *)
Inductive result (A : Type) : Type :=
| Ok (a : A)
| Raise (e : exn).

Arguments Ok {A} a.
Arguments Raise {A} e.

Definition bind {A B : Type} (r : result A) (f : A -> result B) : result B :=
  match r with
  | Ok a => f a
  | Raise e => Raise e
  end.

Notation "x <- r ;; k" := (bind r (fun x => k))
  (at level 61, r at next level, right associativity).

(** A [for] loop over a list whose body can raise. *)
Fixpoint for_each {A S : Type} (body : S -> A -> result S) (l : list A)
    (s : S) : result S :=
  match l with
  | [] => Ok s
  | a :: r => s <- body s a ;; for_each body r s
  end.

End Exceptions.

(* ================================================================== *)
(** * The [datetime] module *)
(* ================================================================== *)

Module Datetime.
Import Exceptions.

Record date : Type := mkdate { year : Z; month : Z; day : Z }.

(** [timedelta] objects only ever carry whole days here. *)
Definition timedelta : Type := Z.

(** The constant periods of [habit.py]. *)
Definition timedelta_days (n : Z) : timedelta := n.
Definition timedelta_weeks (n : Z) : timedelta := 7 * n.

(** [timedelta(days=d, weeks=w)] for computed arguments: the weeks are
    turned into days, and more than 999999999 days either way raise. *)
Definition timedelta_new (d w : Z) : result timedelta :=
  let days := d + 7 * w in
  if Z.abs days <=? 999999999 then Ok days else Raise OverflowError.

Definition MINYEAR : Z := 1.
Definition MAXYEAR : Z := 9999.

(** [date(9999, 12, 31).toordinal()]. *)
Definition _MAXORDINAL : Z := 3652059.

Definition DAYS_IN_MONTH : list Z :=
  [-1; 31; 28; 31; 30; 31; 30; 31; 31; 30; 31; 30; 31].

Definition DAYS_BEFORE_MONTH : list Z :=
  [-1; 0; 31; 59; 90; 120; 151; 181; 212; 243; 273; 304; 334].

Definition table (t : list Z) (i : Z) : Z := nth (Z.to_nat i) t (-1).

Definition is_leap (y : Z) : bool :=
  (y mod 4 =? 0) && (negb (y mod 100 =? 0) || (y mod 400 =? 0)).

Definition days_before_year (y : Z) : Z :=
  let y := y - 1 in y * 365 + y / 4 - y / 100 + y / 400.

Definition days_in_month (y m : Z) : Z :=
  if (m =? 2) && is_leap y then 29 else table DAYS_IN_MONTH m.

Definition days_before_month (y m : Z) : Z :=
  table DAYS_BEFORE_MONTH m + (if (2 <? m) && is_leap y then 1 else 0).

Definition ymd2ord (y m d : Z) : Z :=
  days_before_year y + days_before_month y m + d.

Definition DI400Y : Z := 146097.
Definition DI100Y : Z := 36524.
Definition DI4Y : Z := 1461.

Definition ord2ymd (n : Z) : Z * Z * Z :=
  let n := n - 1 in
  let n400 := n / DI400Y in
  let n := n mod DI400Y in
  let y := n400 * 400 + 1 in
  let n100 := n / DI100Y in
  let n := n mod DI100Y in
  let n4 := n / DI4Y in
  let n := n mod DI4Y in
  let n1 := n / 365 in
  let n := n mod 365 in
  let y := y + n100 * 100 + n4 * 4 + n1 in
  if (n1 =? 4) || (n100 =? 4) then (y - 1, 12, 31)
  else
    let leapyear := (n1 =? 3) && (negb (n4 =? 24) || (n100 =? 3)) in
    let m := Z.shiftr (n + 50) 5 in
    let preceding :=
      table DAYS_BEFORE_MONTH m + (if (2 <? m) && leapyear then 1 else 0) in
    if n <? preceding then
      let m := m - 1 in
      let preceding :=
        preceding
        - (table DAYS_IN_MONTH m + (if (m =? 2) && leapyear then 1 else 0)) in
      (y, m, n - preceding + 1)
    else (y, m, n - preceding + 1).

(** The well-formedness that Python's constructor enforces on the fields. *)
Definition valid_date (d : date) : bool :=
  (1 <=? month d) && (month d <=? 12)
  && (1 <=? day d) && (day d <=? days_in_month (year d) (month d)).

Definition toordinal (d : date) : Z := ymd2ord (year d) (month d) (day d).

Definition fromordinal (n : Z) : date :=
  let '(y, m, d) := ord2ymd n in mkdate y m d.

(** The values of the type [date]: what [_check_date_fields] accepts. *)
Definition is_date (d : date) : bool :=
  (MINYEAR <=? year d) && (year d <=? MAXYEAR) && valid_date d.

(** The constructor [date(year, month, day)], and [date.replace]. *)
Definition date_new (y m d : Z) : result date :=
  if is_date (mkdate y m d) then Ok (mkdate y m d) else Raise ValueError.

(** [date + timedelta]: the ordinal of the result must be a date's. *)
Definition date_add (d : date) (t : timedelta) : result date :=
  let o := toordinal d + t in
  if (0 <? o) && (o <=? _MAXORDINAL) then Ok (fromordinal o)
  else Raise OverflowError.

(** [date - timedelta] is [date + timedelta(-days)]. *)
Definition date_sub (d : date) (t : timedelta) : result date :=
  date_add d (- t).

(** [date - date]. *)
Definition date_diff (d1 d2 : date) : timedelta := toordinal d1 - toordinal d2.

(** [weekday()]: Monday is 0. *)
Definition weekday (d : date) : Z := (toordinal d + 6) mod 7.

(** Comparison is comparison of the triples (year, month, day). *)
Definition date_eqb (a b : date) : bool :=
  (year a =? year b) && (month a =? month b) && (day a =? day b).

Definition date_ltb (a b : date) : bool :=
  (year a <? year b)
  || ((year a =? year b)
      && ((month a <? month b)
          || ((month a =? month b) && (day a <? day b)))).

Definition date_leb (a b : date) : bool := date_ltb a b || date_eqb a b.

End Datetime.

(* ================================================================== *)
(** * [dateutil.relativedelta], restricted to years and months *)
(* ================================================================== *)

Module Relativedelta.
Import Exceptions Datetime.

Record relativedelta : Type := mkrd { years : Z; months : Z }.

(** [_sign]: [copysign(1, x)], so the sign of 0 is 1. *)
Definition sign (x : Z) : Z := if x <? 0 then -1 else 1.

(** The constructor, with the normalisation done by [_fix]. *)
Definition new (ys ms : Z) : relativedelta :=
  if 11 <? Z.abs ms then
    let s := sign ms in
    let div := (ms * s) / 12 in
    let rem := (ms * s) mod 12 in
    mkrd (ys + div * s) (rem * s)
  else mkrd ys ms.

Definition neg (r : relativedelta) : relativedelta :=
  new (- years r) (- months r).

(** [calendar.monthrange(year, month)[1]]: any year is accepted, a month
    outside 1..12 raises [IllegalMonthError], a [ValueError]. *)
Definition monthrange_days (y m : Z) : result Z :=
  if (1 <=? m) && (m <=? 12) then Ok (days_in_month y m)
  else Raise ValueError.

(** [relativedelta.__add__] / [__radd__] on a date: the new fields are
    computed on integers and handed to [date.replace], which raises
    [ValueError] for a year outside [MINYEAR]..[MAXYEAR]. *)
Definition radd (r : relativedelta) (dt : date) : result date :=
  let y := year dt + years r in
  let m := month dt in
  let '(y, m) :=
    if months r =? 0 then (y, m)
    else
      let m := m + months r in
      if 12 <? m then (y + 1, m - 12)
      else if m <? 1 then (y - 1, m + 12)
      else (y, m) in
  days <- monthrange_days y m ;;
  let d := Z.min days (day dt) in
  ret <- date_new y m d ;;
  date_add ret (timedelta_days 0).

(** [relativedelta.__rsub__]: [dt - r]. *)
Definition rsub (r : relativedelta) (dt : date) : result date :=
  radd (neg r) dt.

End Relativedelta.

(* ================================================================== *)
(** * habit.py *)
(* ================================================================== *)

Module HabitPy.
Import Datetime.

Record Habit : Type := mkHabit {
  name : string;
  periodicity : string;
  streak : Z;
  last_completed : option date;
  streak_saves : Z;
  longest_streak : Z
}.

(** The lines a method prints. *)
Inductive output : Type :=
| PeriodicityUpdated (n p : string)
| InvalidPeriodicity
| StreakReset (n : string) (last : date)
| StreakUpdated (n : string) (s : Z) (today : date)
| AlreadyCompleted (n : string)
| StreakSaved (n : string) (s saves : Z)
| NoStreakSaves (n : string).

Definition PERIODICITIES : list string := ["daily"; "weekly"; "monthly"]%string.

Definition str_in (s : string) (l : list string) : bool :=
  existsb (String.eqb s) l.

Definition set_periodicity (p : string) (h : Habit) : Habit :=
  mkHabit (name h) p (streak h) (last_completed h) (streak_saves h)
          (longest_streak h).

Definition set_streak (s : Z) (h : Habit) : Habit :=
  mkHabit (name h) (periodicity h) s (last_completed h) (streak_saves h)
          (longest_streak h).

Definition set_last_completed (d : option date) (h : Habit) : Habit :=
  mkHabit (name h) (periodicity h) (streak h) d (streak_saves h)
          (longest_streak h).

Definition set_streak_saves (s : Z) (h : Habit) : Habit :=
  mkHabit (name h) (periodicity h) (streak h) (last_completed h) s
          (longest_streak h).

Definition set_longest_streak (s : Z) (h : Habit) : Habit :=
  mkHabit (name h) (periodicity h) (streak h) (last_completed h)
          (streak_saves h) s.

Definition set_name (n : string) (h : Habit) : Habit :=
  mkHabit n (periodicity h) (streak h) (last_completed h) (streak_saves h)
          (longest_streak h).

Definition change_periodicity (h : Habit) (new_periodicity : string)
  : Habit * list output :=
  if str_in new_periodicity PERIODICITIES then
    (set_periodicity new_periodicity h,
     [PeriodicityUpdated (name h) new_periodicity])
  else (h, [InvalidPeriodicity]).

Definition get_period_delta (h : Habit) : timedelta :=
  if String.eqb (periodicity h) "daily" then timedelta_days 1
  else if String.eqb (periodicity h) "weekly" then timedelta_weeks 1
  else if String.eqb (periodicity h) "monthly" then timedelta_days 30
  else timedelta_days 1.

Definition streak_reset (today : date) (h : Habit) : Habit * list output :=
  match last_completed h with
  | Some last =>
      let time_elapsed := date_diff today last in
      let period_delta := get_period_delta h in
      if period_delta <? time_elapsed then
        (set_streak 0 h, [StreakReset (name h) last])
      else (h, [])
  | None => (h, [])
  end.

Definition increment (today : date) (h : Habit) : Habit * list output :=
  let eligible :=
    match last_completed h with
    | None => true
    | Some last => get_period_delta h <=? date_diff today last
    end in
  if eligible then
    let h := set_streak (streak h + 1) h in
    let h := set_last_completed (Some today) h in
    let h :=
      if longest_streak h <? streak h then set_longest_streak (streak h) h
      else h in
    (h, [StreakUpdated (name h) (streak h) today])
  else (h, [AlreadyCompleted (name h)]).

Definition streak_save (today : date) (h : Habit) : Habit * list output :=
  if 0 <? streak_saves h then
    let h := set_streak_saves (streak_saves h - 1) h in
    let h := set_last_completed (Some today) h in
    (h, [StreakSaved (name h) (streak h) (streak_saves h)])
  else (h, [NoStreakSaves (name h)]).

End HabitPy.

(* ================================================================== *)
(** * tracker.py: the two tables and the operations on them *)
(* ================================================================== *)

Module TrackerPy.
Import Exceptions Datetime HabitPy.

(** Table [habits] holds rows (id, habit fields); table [completions]
    holds rows (habit_id, completion_date). *)
Record Tracker : Type := mkTracker {
  habits : list (Z * Habit);
  completions : list (Z * date)
}.

(** An optional argument of Python: [None], an [int], or a value of
    another type. *)
Inductive pyarg : Type :=
| PyNone
| PyInt (z : Z)
| PyOther.

Inductive output : Type :=
| HabitNotFound (n : string)
| NameUpdated (n : string)
| NameExists (n : string)
| PeriodicityUpdated (n p : string)
| InvalidPeriodicity
| LongestStreakUpdated (n : string) (s : Z)
| InvalidLongestStreak
| HabitUpdated (n : string).

Definition has_name (n : string) (row : Z * Habit) : bool :=
  String.eqb (name (snd row)) n.

(** [SELECT * FROM habits WHERE name=?] followed by [fetchone]. *)
Definition get_habit (t : Tracker) (n : string) : option Habit :=
  option_map snd (find (has_name n) (habits t)).

(** [SELECT id FROM habits WHERE name=?] followed by [fetchone]. *)
Definition _get_habit_id (t : Tracker) (n : string) : option Z :=
  option_map fst (find (has_name n) (habits t)).

(** [UPDATE habits SET ... WHERE name=?]. *)
Definition sql_update (n : string) (f : Habit -> Habit) (t : Tracker)
  : Tracker :=
  mkTracker
    (map (fun row => if has_name n row then (fst row, f (snd row)) else row)
         (habits t))
    (completions t).

Definition update_habit (t : Tracker) (h : Habit) : Tracker * list output :=
  (sql_update (name h)
     (fun r =>
        set_longest_streak (longest_streak h)
          (set_streak_saves (streak_saves h)
             (set_last_completed (last_completed h)
                (set_streak (streak h) r))))
     t,
   [HabitUpdated (name h)]).

Definition _save_habit (t : Tracker) (h : Habit) : Tracker * list output :=
  update_habit t h.

(** Truth value of an optional string argument. *)
Definition truthy (s : option string) : bool :=
  match s with
  | Some s => negb (String.eqb s "")
  | None => false
  end.

Definition arg (s : option string) : string :=
  match s with Some s => s | None => ""%string end.

(** The column [name] is UNIQUE: renaming to a name held by another row
    raises [IntegrityError] and leaves the table as it was. *)
Definition rename_conflicts (t : Tracker) (old new : string) : bool :=
  negb (String.eqb old new) && existsb (has_name new) (habits t).

(** The largest value of an SQLite INTEGER: binding a larger [int] to a
    statement raises [OverflowError] before the statement runs. *)
Definition SQLITE_MAX_INTEGER : Z := 9223372036854775807.

(** The tables in the result are what the connection sees when the
    method ends.  When the last UPDATE raises, the rename and the change
    of periodicity have already run (nothing is committed, and the
    habit is neither saved nor returned). *)
Definition edit_habit (t : Tracker) (n : string)
    (new_name new_periodicity : option string) (new_longest_streak : pyarg)
  : Tracker * result (option Habit) * list output :=
  match get_habit t n with
  | None => (t, Ok None, [HabitNotFound n])
  | Some habit =>
      if truthy new_name && rename_conflicts t n (arg new_name) then
        (t, Ok None, [NameExists (arg new_name)])
      else
        let '(t, habit, out1) :=
          if truthy new_name then
            (sql_update n (set_name (arg new_name)) t,
             set_name (arg new_name) habit,
             [NameUpdated (arg new_name)])
          else (t, habit, []) in
        let '(t, habit, out2) :=
          if truthy new_periodicity
             && str_in (arg new_periodicity) PERIODICITIES then
            (sql_update (name habit) (set_periodicity (arg new_periodicity)) t,
             set_periodicity (arg new_periodicity) habit,
             [PeriodicityUpdated (name habit) (arg new_periodicity)])
          else if truthy new_periodicity then (t, habit, [InvalidPeriodicity])
          else (t, habit, []) in
        let longest_streak_update :=
          match new_longest_streak with
          | PyNone => Ok (t, habit, [])
          | PyInt z =>
              if 0 <=? z then
                if z <=? SQLITE_MAX_INTEGER then
                  Ok (sql_update (name habit) (set_longest_streak z) t,
                      set_longest_streak z habit,
                      [LongestStreakUpdated (name habit) z])
                else Raise OverflowError
              else Ok (t, habit, [InvalidLongestStreak])
          | PyOther => Ok (t, habit, [InvalidLongestStreak])
          end in
        match longest_streak_update with
        | Raise e => (t, Raise e, out1 ++ out2)
        | Ok (t, habit, out3) =>
            let '(t, out4) := _save_habit t habit in
            (t, Ok (Some habit), out1 ++ out2 ++ out3 ++ out4)
        end
  end.

(** The rows of an index on [completion_date], in the order of the
    index. *)
Fixpoint insert_date (x : date) (l : list date) : list date :=
  match l with
  | [] => [x]
  | y :: r => if date_leb x y then x :: y :: r else y :: insert_date x r
  end.

Definition order_by_date (l : list date) : list date :=
  fold_right insert_date [] l.

(** [SELECT completion_date FROM completions WHERE habit_id=?]; an id
    that is [None] or 0 is false and gives the empty list.  The query
    has no ORDER BY; SQLite answers it from the index that the
    constraint UNIQUE(habit_id, completion_date) creates, which holds
    both columns, so the rows of one habit come back in ascending order
    of [completion_date], whatever the order of the table is. *)
Definition get_completion_history (t : Tracker) (n : string) : list date :=
  match _get_habit_id t n with
  | Some habit_id =>
      if habit_id =? 0 then []
      else
        order_by_date
          (map snd (filter (fun c => fst c =? habit_id) (completions t)))
  | None => []
  end.

End TrackerPy.

(* ================================================================== *)
(** * analyse.py *)
(* ================================================================== *)

Module AnalysePy.
Import Exceptions Datetime Relativedelta HabitPy TrackerPy.

(** A [dict] from dates to integers, in insertion order. *)
Definition dict : Type := list (date * Z).

(** [d[k] = v]: an existing key keeps its place. *)
Fixpoint dict_set (k : date) (v : Z) (d : dict) : dict :=
  match d with
  | [] => [(k, v)]
  | (k', v') :: r =>
      if date_eqb k' k then (k', v) :: r else (k', v') :: dict_set k v r
  end.

(** Lookup in a [defaultdict(int)]. *)
Fixpoint dict_get (k : date) (d : dict) : Z :=
  match d with
  | [] => 0
  | (k', v') :: r => if date_eqb k' k then v' else dict_get k r
  end.

(** [d[k] += 1] on a [defaultdict(int)]. *)
Definition dict_incr (k : date) (d : dict) : dict :=
  dict_set k (dict_get k d + 1) d.

(** [dict(items)]. *)
Definition dict_of_items (items : list (date * Z)) : dict :=
  fold_left (fun d kv => dict_set (fst kv) (snd kv) d) items [].

(** [x in l] for a list or a set of dates. *)
Definition date_in (x : date) (l : list date) : bool :=
  existsb (date_eqb x) l.

(** [s.add(x)] on a [set]. *)
Definition set_add (x : date) (s : list date) : list date :=
  if date_in x s then s else s ++ [x].

(** [range(n)]. *)
Definition range (n : Z) : list Z := map Z.of_nat (seq 0 (Z.to_nat n)).

(** Order of the tuples (key, value) that [sorted] compares. *)
Definition item_ltb (a b : date * Z) : bool :=
  if date_eqb (fst a) (fst b) then snd a <? snd b
  else date_ltb (fst a) (fst b).

Fixpoint insert_item (x : date * Z) (l : list (date * Z)) : list (date * Z) :=
  match l with
  | [] => [x]
  | y :: r => if item_ltb x y then x :: y :: r else y :: insert_item x r
  end.

(** [sorted(items)]: a stable sort. *)
Definition sorted (items : list (date * Z)) : list (date * Z) :=
  fold_right insert_item [] (rev items).

Definition calculate_daily_trend (t : Tracker) (today : date)
    (habit_name : string) (num_days : Z) : result dict :=
  match get_habit t habit_name with
  | None => Ok []
  | Some _ =>
      let history := get_completion_history t habit_name in
      let end_date := today in
      delta <- timedelta_new (num_days - 1) 0 ;;
      start_date <- date_sub end_date delta ;;
      for_each
        (fun trend n =>
           delta <- timedelta_new n 0 ;;
           day <- date_add start_date delta ;;
           Ok (dict_set day (if date_in day history then 1 else 0) trend))
        (range num_days) []
  end.

Definition calculate_weekly_trend (t : Tracker) (today : date)
    (habit_name : string) (num_weeks : Z) : result dict :=
  match get_habit t habit_name with
  | None => Ok []
  | Some _ =>
      let history := get_completion_history t habit_name in
      let end_date := today in
      delta <- timedelta_new 0 num_weeks ;;
      start_date <- date_sub end_date delta ;;
      for_each
        (fun trend completion_date =>
           if date_leb start_date completion_date
              && date_leb completion_date end_date
           then
             delta <- timedelta_new (weekday completion_date) 0 ;;
             week_start <- date_sub completion_date delta ;;
             Ok (dict_incr week_start trend)
           else Ok trend)
        history []
  end.

(** The [while] loop that seeds the months; [None] when [fuel] runs out.
    The loop test adds a month to the first day of the current month
    each time it is evaluated. *)
Fixpoint seed_months (fuel : nat)
    (current_month_start first_day_current_month : date)
    (expected_month_starts : list date) (trend : dict)
  : option (result (list date * dict)) :=
  match radd (new 0 1) first_day_current_month with
  | Raise e => Some (Raise e)
  | Ok limit =>
      if date_ltb current_month_start limit then
        match fuel with
        | O => None
        | S fuel =>
            match radd (new 0 1) current_month_start with
            | Raise e => Some (Raise e)
            | Ok next =>
                seed_months fuel next first_day_current_month
                  (set_add current_month_start expected_month_starts)
                  (dict_set current_month_start 0 trend)
            end
        end
      else Some (Ok (expected_month_starts, trend))
  end.

Definition calculate_monthly_trend (fuel : nat) (t : Tracker) (today : date)
    (habit_name : string) (num_months : Z) : option (result dict) :=
  match get_habit t habit_name with
  | None => Some (Ok [])
  | Some _ =>
      let history := get_completion_history t habit_name in
      let end_date := today in
      match date_new (year end_date) (month end_date) 1 with
      | Raise e => Some (Raise e)
      | Ok first_day_current_month =>
          match rsub (new 0 num_months) first_day_current_month with
          | Raise e => Some (Raise e)
          | Ok start_date =>
              match seed_months fuel start_date first_day_current_month
                      [] [] with
              | None => None
              | Some (Raise e) => Some (Raise e)
              | Some (Ok (expected_month_starts, trend)) =>
                  Some
                    (trend <-
                       for_each
                         (fun trend completion_date =>
                            if date_leb start_date completion_date
                               && date_leb completion_date end_date
                            then
                              month_start <-
                                date_new (year completion_date)
                                         (month completion_date) 1 ;;
                              if date_in month_start expected_month_starts
                              then Ok (dict_incr month_start trend)
                              else Ok trend
                            else Ok trend)
                         history trend ;;
                     Ok (dict_of_items (sorted trend)))
              end
          end
      end
  end.

End AnalysePy.

(* ================================================================== *)
(** * Vocabulary of the properties *)
(* ================================================================== *)

Module Props.
Import Exceptions Datetime HabitPy TrackerPy AnalysePy.

(** A completion is due: nothing recorded yet, or the last completion is
    at least one period old. *)
Definition due (today : date) (h : Habit) : Prop :=
  last_completed h = None
  \/ exists last, last_completed h = Some last
                  /\ get_period_delta h <= date_diff today last.

(** The habit has lapsed: the last completion is more than one period old. *)
Definition lapsed (today : date) (h : Habit) : Prop :=
  exists last, last_completed h = Some last
               /\ get_period_delta h < date_diff today last.

Definition streak_le_longest (h : Habit) : Prop :=
  streak h <= longest_streak h.

(** Every row of table [habits] satisfies the streak invariant. *)
Definition rows_ok (t : Tracker) : Prop :=
  Forall (fun row => streak_le_longest (snd row)) (habits t).

(** The habit that [edit_habit] returns, when the rename goes through. *)
Definition edited (h : Habit) (new_name new_periodicity : option string)
    (new_longest_streak : pyarg) : Habit :=
  let h := if truthy new_name then set_name (arg new_name) h else h in
  let h :=
    if truthy new_periodicity && str_in (arg new_periodicity) PERIODICITIES
    then set_periodicity (arg new_periodicity) h else h in
  match new_longest_streak with
  | PyInt z => if 0 <=? z then set_longest_streak z h else h
  | _ => h
  end.

(** The new longest streak is an [int] too large for SQLite. *)
Definition overflows (new_longest_streak : pyarg) : bool :=
  match new_longest_streak with
  | PyInt z => SQLITE_MAX_INTEGER <? z
  | _ => false
  end.

(** Bounded universal quantification over [z, z + k), for checking a
    whole cycle of the calendar by computation. *)
Fixpoint forall_from (k : nat) (z : Z) (f : Z -> bool) : bool :=
  match k with
  | O => true
  | S k => f z && forall_from k (z + 1) f
  end.

Definition ymd_eqb (a b : Z * Z * Z) : bool :=
  let '(y1, m1, d1) := a in
  let '(y2, m2, d2) := b in
  (y1 =? y2) && (m1 =? m2) && (d1 =? d2).

(** Going from an ordinal to the fields and back. *)
Definition check_ordinal (n : Z) : bool :=
  let '(y, m, d) := ord2ymd n in
  (ymd2ord y m d =? n) && valid_date (mkdate y m d).

(** Going from the fields of a well-formed date to the ordinal and back. *)
Definition check_day (y m d : Z) : bool :=
  implb (valid_date (mkdate y m d))
        (ymd_eqb (ord2ymd (ymd2ord y m d)) (y, m, d)).

Definition check_month (y m : Z) : bool := forall_from 31 1 (check_day y m).

Definition check_fields (y : Z) : bool := forall_from 12 1 (check_month y).

(** Months counted from month 1 of year 0. *)
Definition month_index (d : date) : Z := 12 * year d + (month d - 1).

(** The first day of the month with a given index. *)
Definition month_of_index (i : Z) : date := mkdate (i / 12) (i mod 12 + 1) 1.

(** The first days of [n] consecutive months, from index [i] on. *)
Definition months_from (i : Z) (n : nat) : list date :=
  map (fun k => month_of_index (i + Z.of_nat k)) (seq 0 n).

(** A completion date lies in the window [start, stop]. *)
Definition in_window (start stop c : date) : bool :=
  date_leb start c && date_leb c stop.

(** [date(c.year, c.month, 1)]. *)
Definition month_start (c : date) : date := mkdate (year c) (month c) 1.

(** The date [c.weekday()] days before [c]: the Monday on or before it. *)
Definition week_start (c : date) : date :=
  fromordinal (toordinal c - weekday c).

(** One round of a loop that counts the dates selected by [p] into the
    bucket of each. *)
Definition count_step (p : date -> bool) (bucket : date -> date)
    (d : dict) (c : date) : dict :=
  if p c then dict_incr (bucket c) d else d.

(** Number of dates of the history that [p] selects and that fall into
    the bucket [k]. *)
Definition hits (p : date -> bool) (bucket : date -> date)
    (history : list date) (k : date) : Z :=
  Z.of_nat
    (List.length (filter (fun c => p c && date_eqb (bucket c) k) history)).

(** Keys in strictly ascending order. *)
Definition ascending (keys : list date) : Prop :=
  StronglySorted (fun a b => date_ltb a b = true) keys.

End Props.

(* ================================================================== *)
(** * tracker.py: creating, deleting, listing and recording *)
(* ================================================================== *)

Module TrackerOps.
Import Datetime HabitPy TrackerPy.

(** The database file: the two tables and the row of [sqlite_sequence]
    that AUTOINCREMENT keeps for table [habits], the largest id that
    table has ever held. *)
Record Db : Type := mkDb {
  tables : Tracker;
  habits_seq : Z
}.

Inductive output : Type :=
| HabitOut (m : HabitPy.output)
| TrackerOut (m : TrackerPy.output)
| HabitCreated (p n : string)
| HabitExists (n : string)
| HabitDeleted (n : string)
| HabitNotFound (n : string)
| CompletionRecorded (n : string) (d : date)
| CompletionAlreadyLogged (n : string) (d : date)
| InvalidPeriodicityWarning (p : string).

(** The id AUTOINCREMENT gives to the next row of [habits]: one more
    than the largest id the table holds or has ever held. *)
Definition next_rowid (db : Db) : Z :=
  1 + fold_right Z.max (habits_seq db) (map fst (habits (tables db))).

(** [INSERT INTO habits (name, periodicity, longest_streak)]: the other
    columns take their defaults; a name that is already there violates
    UNIQUE, the statement changes nothing and raises [IntegrityError]. *)
Definition create_habit (db : Db) (n : string) (p : string)
  : Db * option Habit * list output :=
  if existsb (has_name n) (habits (tables db)) then
    (db, get_habit (tables db) n, [HabitExists n])
  else
    let id := next_rowid db in
    let db :=
      mkDb (mkTracker (habits (tables db) ++ [(id, mkHabit n p 0 None 0 0)])
                      (completions (tables db)))
           id in
    (db, get_habit (tables db) n, [HabitCreated p n]).

(** [DELETE FROM habits WHERE name=?]; [rowcount] is the number of rows
    the statement removed.  The foreign key of [completions] has no ON
    DELETE action and the connection never sets [PRAGMA foreign_keys],
    so (with SQLite's default, enforcement off) the statement touches
    table [habits] only. *)
Definition delete_habit (t : Tracker) (n : string) : Tracker * list output :=
  let rowcount := Z.of_nat (List.length (filter (has_name n) (habits t))) in
  let t :=
    mkTracker (filter (fun row => negb (has_name n row)) (habits t))
              (completions t) in
  if 0 <? rowcount then (t, [HabitDeleted n]) else (t, [HabitNotFound n]).

(** A row of [completions] for this habit and date: the pair is UNIQUE. *)
Definition logged (habit_id : Z) (d : date) (row : Z * date) : bool :=
  (fst row =? habit_id) && date_eqb (snd row) d.

(** [today] is what [date.today()] returns during the call: the clock
    is read by [increment] and again for the INSERT, and the model takes
    both readings to be the same day.  [if habit_id:] is false for
    [None] and for the id 0.  The INSERT of a pair that is already there
    violates UNIQUE and raises [IntegrityError], which is caught. *)
Definition record_completion (t : Tracker) (today : date) (n : string)
  : Tracker * list output :=
  match get_habit t n with
  | Some habit =>
      let '(habit, out1) := increment today habit in
      let '(t, out2) := update_habit t habit in
      let out := map HabitOut out1 ++ map TrackerOut out2 in
      match _get_habit_id t n with
      | Some habit_id =>
          if habit_id =? 0 then (t, out)
          else if existsb (logged habit_id today) (completions t) then
            (t, out ++ [CompletionAlreadyLogged n today])
          else
            (mkTracker (habits t) (completions t ++ [(habit_id, today)]),
             out ++ [CompletionRecorded n today])
      | None => (t, out)
      end
  | None => (t, [HabitNotFound n])
  end.

(** [SELECT * FROM habits WHERE periodicity=?], in table order. *)
Definition list_habits_by_periodicity (t : Tracker) (p : string)
  : list Habit * list output :=
  if negb (str_in p PERIODICITIES) then ([], [InvalidPeriodicityWarning p])
  else
    (map snd (filter (fun row => String.eqb (periodicity (snd row)) p)
                     (habits t)),
     []).

(** [ORDER BY name]: the names in ascending order of their bytes. *)
Fixpoint insert_name (x : string) (l : list string) : list string :=
  match l with
  | [] => [x]
  | y :: r => if String.leb x y then x :: y :: r else y :: insert_name x r
  end.

Definition order_by_name (l : list string) : list string :=
  fold_right insert_name [] l.

Definition list_all_habit_names (t : Tracker) : list string :=
  order_by_name (map (fun row => name (snd row)) (habits t)).

End TrackerOps.

(* ================================================================== *)
(** * analyse.py: what the three views show *)
(* ================================================================== *)

Module VisualizePy.
Import Exceptions Datetime HabitPy TrackerPy AnalysePy.

(** What a [visualize_*] method does: it prints that there is no data,
    or it hands the keys and the values of the trend to the plot; an
    exception of the trend computation is not caught. *)
Inductive view : Type :=
| NoDailyData (habit_name : string)
| NoWeeklyData (habit_name : string)
| NoMonthlyData (habit_name : string)
| DailyLinePlot (dates : list date) (completions : list Z)
    (habit_name : string) (num_days : Z)
| WeeklyBarPlot (week_starts : list date) (completion_counts : list Z)
    (habit_name : string) (num_weeks : Z)
| MonthlyBarPlot (month_starts : list date) (completion_counts : list Z)
    (habit_name : string) (num_months : Z).

(** Truth value of a [dict]: false exactly when it is empty. *)
Definition nonempty (d : dict) : bool :=
  match d with [] => false | _ :: _ => true end.

Definition visualize_daily_trend (t : Tracker) (today : date)
    (habit_name : string) (num_days : Z) : result view :=
  trend_data <- calculate_daily_trend t today habit_name num_days ;;
  Ok (if negb (nonempty trend_data) then NoDailyData habit_name
      else DailyLinePlot (map fst trend_data) (map snd trend_data)
                         habit_name num_days).

Definition visualize_weekly_trend (t : Tracker) (today : date)
    (habit_name : string) (num_weeks : Z) : result view :=
  trend_data <- calculate_weekly_trend t today habit_name num_weeks ;;
  Ok (if negb (nonempty trend_data) then NoWeeklyData habit_name
      else WeeklyBarPlot (map fst trend_data) (map snd trend_data)
                         habit_name num_weeks).

Definition visualize_monthly_trend (fuel : nat) (t : Tracker) (today : date)
    (habit_name : string) (num_months : Z) : option (result view) :=
  match calculate_monthly_trend fuel t today habit_name num_months with
  | None => None
  | Some trend_data =>
      Some
        (trend_data <- trend_data ;;
         Ok (if negb (nonempty trend_data) then NoMonthlyData habit_name
             else MonthlyBarPlot (map fst trend_data) (map snd trend_data)
                                 habit_name num_months))
  end.

End VisualizePy.

(* ================================================================== *)
(** * main.py: the commands that change the database *)
(* ================================================================== *)

Module MainPy.
Import Exceptions Datetime HabitPy TrackerPy TrackerOps.

(** A command line: the command with its arguments; [record-completion]
    also carries the date the clock shows when it runs. *)
Inductive command : Type :=
| Create (name periodicity : string)
| EditName (name new_name : string)
| EditPeriodicity (name new_periodicity : string)
| Delete (name : string)
| RecordCompletion (today : date) (name : string).

Inductive echo : Type :=
| Printed (m : TrackerOps.output)
| PrintedByEdit (m : TrackerPy.output)
| BadChoice (value : string)
| EchoCreated (name periodicity : string)
| EchoRenamed (name new_name : string)
| EchoPeriodicityUpdated (name periodicity : string)
| EchoNotFound (name : string)
| Uncaught (e : exn).

(** [type=click.Choice(['daily', 'weekly', 'monthly'])]: another value
    ends the command before its body runs. *)
Definition choice_ok (p : string) : bool := str_in p PERIODICITIES.

Definition create (db : Db) (n p : string) : Db * list echo :=
  if negb (choice_ok p) then (db, [BadChoice p])
  else
    let '(db, habit, out) := create_habit db n p in
    (db,
     map Printed out
     ++ match habit with
        | Some habit => [EchoCreated (name habit) (periodicity habit)]
        | None => []
        end).

(** An exception that leaves [edit_habit] ends the command: nothing was
    committed, so the database file is as before. *)
Definition edit_name (db : Db) (n new_name : string) : Db * list echo :=
  let '(t, updated_habit, out) :=
    edit_habit (tables db) n (Some new_name) None PyNone in
  match updated_habit with
  | Ok updated_habit =>
      (mkDb t (habits_seq db),
       map PrintedByEdit out
       ++ match updated_habit with
          | Some habit => [EchoRenamed n (name habit)]
          | None => []
          end)
  | Raise e => (db, map PrintedByEdit out ++ [Uncaught e])
  end.

Definition edit_periodicity (db : Db) (n new_periodicity : string)
  : Db * list echo :=
  if negb (choice_ok new_periodicity) then (db, [BadChoice new_periodicity])
  else
    let '(t, updated_habit, out) :=
      edit_habit (tables db) n None (Some new_periodicity) PyNone in
    match updated_habit with
    | Ok updated_habit =>
        (mkDb t (habits_seq db),
         map PrintedByEdit out
         ++ match updated_habit with
            | Some habit =>
                [EchoPeriodicityUpdated (name habit) (periodicity habit)]
            | None => []
            end)
    | Raise e => (db, map PrintedByEdit out ++ [Uncaught e])
    end.

Definition delete (db : Db) (n : string) : Db * list echo :=
  let '(t, out) := delete_habit (tables db) n in
  (mkDb t (habits_seq db), map Printed out).

Definition record_completion (db : Db) (today : date) (n : string)
  : Db * list echo :=
  match get_habit (tables db) n with
  | None => (db, [EchoNotFound n])
  | Some _ =>
      let '(t, out) := TrackerOps.record_completion (tables db) today n in
      (mkDb t (habits_seq db), map Printed out)
  end.

Definition run_command (db : Db) (c : command) : Db * list echo :=
  match c with
  | Create n p => create db n p
  | EditName n new_name => edit_name db n new_name
  | EditPeriodicity n p => edit_periodicity db n p
  | Delete n => delete db n
  | RecordCompletion today n => record_completion db today n
  end.

(** The database after a session of commands, from the first on. *)
Definition run (db : Db) (session : list command) : Db :=
  fold_left (fun db c => fst (run_command db c)) session db.

(** The database that [TrackerDB] creates: two empty tables. *)
Definition empty_db : Db := mkDb (mkTracker [] []) 0.

End MainPy.

Module Facts.
Import Exceptions Datetime HabitPy TrackerPy AnalysePy Props TrackerOps
  VisualizePy MainPy.

(** The counters of a habit are non-negative, as the data model has it. *)
Definition nonnegative (h : Habit) : Prop :=
  0 <= streak h /\ 0 <= streak_saves h /\ 0 <= longest_streak h.

(** The names and the ids of table [habits]. *)
Definition names (t : Tracker) : list string :=
  map (fun row => name (snd row)) (habits t).

Definition ids (t : Tracker) : list Z := map fst (habits t).

(** The constraints of the schema (UNIQUE name, PRIMARY KEY id, UNIQUE
    (habit_id, completion_date)) and of AUTOINCREMENT: every id in use,
    in a row of [habits] or referenced from [completions], is positive
    and at most the recorded sequence value. *)
Definition consistent (db : Db) : Prop :=
  NoDup (names (tables db))
  /\ NoDup (ids (tables db))
  /\ NoDup (completions (tables db))
  /\ 0 <= habits_seq db
  /\ Forall (fun id => 1 <= id <= habits_seq db) (ids (tables db))
  /\ Forall (fun c => 1 <= fst c <= habits_seq db) (completions (tables db)).

(** The database after an operation on its tables. *)
Definition with_tables (db : Db) (t : Tracker) : Db :=
  mkDb t (habits_seq db).

(** The sum of the values of a dictionary. *)
Definition total (d : dict) : Z := fold_right Z.add 0 (map snd d).

(** The number of dates of a list that [p] selects. *)
Definition count (p : date -> bool) (l : list date) : Z :=
  Z.of_nat (List.length (filter p l)).

(** A completion date is at most [n] days old and not in the future. *)
Definition within_days (today : date) (n : Z) (c : date) : bool :=
  (0 <=? date_diff today c) && (date_diff today c <=? n).

(** What holds of every habit the command line can store. *)
Definition sound (h : Habit) : Prop :=
  streak_le_longest h
  /\ 0 <= streak h
  /\ streak_saves h = 0
  /\ In (periodicity h) PERIODICITIES.

(** The row that [update_habit] writes for the habit [h] in place of [r]. *)
Definition saved (h r : Habit) : Habit :=
  set_longest_streak (longest_streak h)
    (set_streak_saves (streak_saves h)
       (set_last_completed (last_completed h) (set_streak (streak h) r))).

End Facts.

(* ================================================================== *)
(** * The same computations on the unbounded calendar *)
(* ================================================================== *)

(** The arithmetic of [datetime] and [relativedelta] and the three trend
    computations with every range check left out, over the proleptic
    Gregorian calendar of all years.  Nothing here is code of the
    program: they are the values that the program is shown to compute
    whenever it raises nothing. *)
Module Unbounded.
Import Datetime Relativedelta HabitPy TrackerPy AnalysePy.

Definition date_add (d : date) (t : timedelta) : date :=
  fromordinal (toordinal d + t).

Definition date_sub (d : date) (t : timedelta) : date := date_add d (- t).

Definition monthrange_days (y m : Z) : Z := days_in_month y m.

Definition radd (r : relativedelta) (dt : date) : date :=
  let y := year dt + years r in
  let m := month dt in
  let '(y, m) :=
    if months r =? 0 then (y, m)
    else
      let m := m + months r in
      if 12 <? m then (y + 1, m - 12)
      else if m <? 1 then (y - 1, m + 12)
      else (y, m) in
  let d := Z.min (monthrange_days y m) (day dt) in
  date_add (mkdate y m d) (timedelta_days 0).

Definition rsub (r : relativedelta) (dt : date) : date := radd (neg r) dt.

Definition calculate_daily_trend (t : Tracker) (today : date)
    (habit_name : string) (num_days : Z) : dict :=
  match get_habit t habit_name with
  | None => []
  | Some _ =>
      let history := get_completion_history t habit_name in
      let end_date := today in
      let start_date := date_sub end_date (timedelta_days (num_days - 1)) in
      fold_left
        (fun trend n =>
           let day := date_add start_date (timedelta_days n) in
           dict_set day (if date_in day history then 1 else 0) trend)
        (range num_days) []
  end.

Definition calculate_weekly_trend (t : Tracker) (today : date)
    (habit_name : string) (num_weeks : Z) : dict :=
  match get_habit t habit_name with
  | None => []
  | Some _ =>
      let history := get_completion_history t habit_name in
      let end_date := today in
      let start_date := date_sub end_date (timedelta_weeks num_weeks) in
      fold_left
        (fun trend completion_date =>
           if date_leb start_date completion_date
              && date_leb completion_date end_date
           then
             let week_start :=
               date_sub completion_date
                        (timedelta_days (weekday completion_date)) in
             dict_incr week_start trend
           else trend)
        history []
  end.

(** The [while] loop that seeds the months; [None] when [fuel] runs out. *)
Fixpoint seed_months (fuel : nat) (current_month_start limit : date)
    (expected_month_starts : list date) (trend : dict)
  : option (list date * dict) :=
  if date_ltb current_month_start limit then
    match fuel with
    | O => None
    | S fuel =>
        seed_months fuel (radd (new 0 1) current_month_start) limit
          (set_add current_month_start expected_month_starts)
          (dict_set current_month_start 0 trend)
    end
  else Some (expected_month_starts, trend).

Definition calculate_monthly_trend (fuel : nat) (t : Tracker) (today : date)
    (habit_name : string) (num_months : Z) : option dict :=
  match get_habit t habit_name with
  | None => Some []
  | Some _ =>
      let history := get_completion_history t habit_name in
      let end_date := today in
      let first_day_current_month :=
        mkdate (year end_date) (month end_date) 1 in
      let start_date := rsub (new 0 num_months) first_day_current_month in
      match seed_months fuel start_date
              (radd (new 0 1) first_day_current_month) [] [] with
      | None => None
      | Some (expected_month_starts, trend) =>
          let trend :=
            fold_left
              (fun trend completion_date =>
                 if date_leb start_date completion_date
                    && date_leb completion_date end_date
                 then
                   let month_start :=
                     mkdate (year completion_date) (month completion_date) 1 in
                   if date_in month_start expected_month_starts
                   then dict_incr month_start trend
                   else trend
                 else trend)
              history trend in
          Some (dict_of_items (sorted trend))
      end
  end.

End Unbounded.

(* ================================================================== *)
(** * The streak engine *)
(* ================================================================== *)

Section StreakEngine.
Import Datetime HabitPy Props.

Lemma due_dec (today : date) (h : Habit) : {due today h} + {~ due today h}.
Proof.
  unfold due. destruct (last_completed h) as [last|].
  - destruct (Z_le_gt_dec (get_period_delta h) (date_diff today last)).
    + left. right. exists last. auto.
    + right. intros [H | [l [H Hle]]]; [discriminate|].
      injection H as <-. lia.
  - left. now left.
Qed.

Lemma get_period_delta_cases (h : Habit) :
  get_period_delta h = 1 \/ get_period_delta h = 7
  \/ get_period_delta h = 30.
Proof.
  unfold get_period_delta, timedelta_days, timedelta_weeks.
  destruct (String.eqb (periodicity h) "daily"); [now left|].
  destruct (String.eqb (periodicity h) "weekly"); [right; now left|].
  destruct (String.eqb (periodicity h) "monthly"); [right; now right|].
  now left.
Qed.

Lemma get_period_delta_pos (h : Habit) : 0 < get_period_delta h.
Proof. destruct (get_period_delta_cases h) as [H | [H | H]]; lia. Qed.

Lemma increment_due (today : date) (h : Habit) :
  due today h ->
  increment today h =
  (mkHabit (name h) (periodicity h) (streak h + 1) (Some today)
           (streak_saves h) (Z.max (longest_streak h) (streak h + 1)),
   [StreakUpdated (name h) (streak h + 1) today]).
Proof.
  intros Hdue. unfold increment.
  assert (E : match last_completed h with
              | None => true
              | Some last => get_period_delta h <=? date_diff today last
              end = true).
  { destruct Hdue as [-> | [l [-> Hle]]]; [reflexivity|].
    now apply Z.leb_le. }
  rewrite E. cbn.
  destruct (Z.ltb_spec (longest_streak h) (streak h + 1)); cbn.
  - now rewrite Z.max_r by lia.
  - now rewrite Z.max_l by lia.
Qed.

Lemma increment_not_due (today : date) (h : Habit) :
  ~ due today h -> increment today h = (h, [AlreadyCompleted (name h)]).
Proof.
  intros Hnd. unfold increment.
  destruct (last_completed h) as [last|] eqn:E.
  - destruct (Z.leb_spec (get_period_delta h) (date_diff today last));
      [|reflexivity].
    exfalso. apply Hnd. right. exists last. auto.
  - exfalso. apply Hnd. now left.
Qed.

(** C1.  [Habit.increment]: when no completion is recorded yet, or today
    minus [last_completed] is at least the period length, the streak
    grows by exactly 1, [last_completed] becomes today and
    [longest_streak] becomes the maximum of its old value and the new
    streak; otherwise the call reports "already completed" and the habit
    is returned as it was. *)
Theorem increment_contract (today : date) (h : Habit) :
  (due today h ->
   let h' := fst (increment today h) in
   streak h' = streak h + 1
   /\ last_completed h' = Some today
   /\ longest_streak h' = Z.max (longest_streak h) (streak h')
   /\ name h' = name h /\ periodicity h' = periodicity h
   /\ streak_saves h' = streak_saves h
   /\ snd (increment today h) = [StreakUpdated (name h) (streak h + 1) today])
  /\ (~ due today h ->
      increment today h = (h, [AlreadyCompleted (name h)])).
Proof.
  split.
  - intros Hdue. rewrite (increment_due _ _ Hdue). cbn. repeat split.
  - apply increment_not_due.
Qed.

Lemma increment_contract_witness :
  let h := mkHabit "Journal" "daily" 1 (Some (mkdate 2025 4 14)) 0 1 in
  let today := mkdate 2025 4 15 in
  streak (fst (increment today h)) = 2
  /\ increment today (fst (increment today h))
     = (fst (increment today h), [AlreadyCompleted "Journal"]).
Proof.
  intros h today. split.
  - destruct (increment_contract today h) as [Hdue _].
    apply Hdue. right. exists (mkdate 2025 4 14). split; [reflexivity|].
    vm_compute. discriminate.
  - destruct (increment_contract today (fst (increment today h)))
      as [_ Hnot].
    apply Hnot. intros [H | [l [H Hle]]]; [discriminate H|].
    injection H as <-. vm_compute in Hle. apply Hle. reflexivity.
Defined.

(** C3.  Two calls of [Habit.increment] with the same [today]: whatever
    the first call did, the second reports "already completed" and
    returns the habit exactly as the first call left it.  The
    periodicity is arbitrary. *)
Theorem increment_twice_same_day (today : date) (h : Habit) :
  let h1 := fst (increment today h) in
  increment today h1 = (h1, [AlreadyCompleted (name h1)])
  /\ streak (fst (increment today h1)) = streak h1
  /\ last_completed (fst (increment today h1)) = last_completed h1
  /\ longest_streak (fst (increment today h1)) = longest_streak h1.
Proof.
  intros h1.
  assert (Hnd : ~ due today h1).
  { subst h1. destruct (due_dec today h) as [Hd | Hd].
    - rewrite (increment_due _ _ Hd). cbn.
      intros [H | [l [H Hle]]]; cbn in *; [discriminate|].
      injection H as <-. unfold date_diff in Hle.
      pose proof (get_period_delta_cases
        {| name := name h; periodicity := periodicity h;
           streak := streak h + 1; last_completed := Some today;
           streak_saves := streak_saves h;
           longest_streak := Z.max (longest_streak h) (streak h + 1) |}).
      lia.
    - rewrite (increment_not_due _ _ Hd). exact Hd. }
  rewrite (increment_not_due _ _ Hnd). cbn. repeat split.
Qed.

(** C4.  [Habit.streak_reset]: the streak is set to 0 exactly when
    [last_completed] is set and today minus [last_completed] is strictly
    more than the period length, it stays as it was in every other case,
    the call does nothing when [last_completed] is unset, and no field
    other than [streak] ever changes. *)
Theorem streak_reset_contract (today : date) (h : Habit) :
  let h' := fst (streak_reset today h) in
  (lapsed today h -> streak h' = 0)
  /\ (forall last, last_completed h = Some last -> lapsed today h ->
      snd (streak_reset today h) = [StreakReset (name h) last])
  /\ (~ lapsed today h -> streak_reset today h = (h, []))
  /\ (last_completed h = None -> streak_reset today h = (h, []))
  /\ longest_streak h' = longest_streak h
  /\ last_completed h' = last_completed h
  /\ streak_saves h' = streak_saves h
  /\ periodicity h' = periodicity h
  /\ name h' = name h.
Proof.
  unfold lapsed, streak_reset.
  destruct (last_completed h) as [last|] eqn:E.
  - destruct (Z.ltb_spec (get_period_delta h) (date_diff today last)); cbn.
    + split; [reflexivity|]. split; [now intros l [= <-] _|].
      split; [|repeat split; auto; discriminate].
      intros Hn. exfalso. apply Hn. exists last. auto.
    + split; [intros [l [[= <-] Hlt]]; lia|].
      split; [intros l _ [l' [[= <-] Hlt]]; lia|].
      repeat split; auto; discriminate.
  - cbn. split; [intros [l [Hl _]]; discriminate|].
    split; [discriminate|]. repeat split; auto.
Qed.

Lemma streak_reset_contract_witness :
  let h := mkHabit "Walk" "daily" 5 (Some (mkdate 2025 4 13)) 0 5 in
  streak (fst (streak_reset (mkdate 2025 4 15) h)) = 0
  /\ streak_reset (mkdate 2025 4 14) h = (h, []).
Proof.
  intros h. split.
  - destruct (streak_reset_contract (mkdate 2025 4 15) h) as [H _].
    apply H. exists (mkdate 2025 4 13). split; reflexivity.
  - destruct (streak_reset_contract (mkdate 2025 4 14) h) as [_ [_ [H _]]].
    apply H. intros [l [Hl Hlt]]. injection Hl as <-.
    vm_compute in Hlt. discriminate.
Defined.

(** C8.  [Habit.streak_save]: with a save left, [streak_saves] drops by
    1, [last_completed] becomes today, [streak] (and every other field)
    stays, and success is reported; with none left, "no saves available"
    is reported and the habit is returned unchanged. *)
Theorem streak_save_contract (today : date) (h : Habit) :
  (0 < streak_saves h ->
   let h' := fst (streak_save today h) in
   streak_saves h' = streak_saves h - 1
   /\ last_completed h' = Some today
   /\ streak h' = streak h
   /\ longest_streak h' = longest_streak h
   /\ periodicity h' = periodicity h
   /\ name h' = name h
   /\ snd (streak_save today h)
      = [StreakSaved (name h) (streak h) (streak_saves h - 1)])
  /\ (streak_saves h = 0 ->
      streak_save today h = (h, [NoStreakSaves (name h)])).
Proof.
  unfold streak_save. split.
  - intros Hpos. apply Z.ltb_lt in Hpos. rewrite Hpos. cbn. repeat split.
  - intros ->. reflexivity.
Qed.

Lemma streak_save_contract_witness :
  let h := mkHabit "Read" "weekly" 3 (Some (mkdate 2025 4 1)) 2 4 in
  let today := mkdate 2025 4 15 in
  streak_saves (fst (streak_save today h)) = 1
  /\ streak_save today (set_streak_saves 0 h)
     = (set_streak_saves 0 h, [NoStreakSaves "Read"]).
Proof.
  intros h today. split.
  - destruct (streak_save_contract today h) as [H _].
    apply H. reflexivity.
  - destruct (streak_save_contract today (set_streak_saves 0 h)) as [_ H].
    apply H. reflexivity.
Defined.

(** C9.  [Habit.get_period_delta] is 1 day for 'daily', 7 days for
    'weekly' and 30 days for 'monthly'. *)
Theorem get_period_delta_table (h : Habit) :
  (periodicity h = "daily"%string -> get_period_delta h = timedelta_days 1)
  /\ (periodicity h = "weekly"%string
      -> get_period_delta h = timedelta_days 7)
  /\ (periodicity h = "monthly"%string
      -> get_period_delta h = timedelta_days 30).
Proof.
  unfold get_period_delta. repeat split; intros ->; reflexivity.
Qed.

Lemma get_period_delta_table_witness :
  get_period_delta (mkHabit "a" "daily" 0 None 0 0) = 1
  /\ get_period_delta (mkHabit "b" "weekly" 0 None 0 0) = 7
  /\ get_period_delta (mkHabit "c" "monthly" 0 None 0 0) = 30.
Proof.
  split; [|split].
  - apply (get_period_delta_table (mkHabit "a" "daily" 0 None 0 0)).
    reflexivity.
  - apply (get_period_delta_table (mkHabit "b" "weekly" 0 None 0 0)).
    reflexivity.
  - apply (get_period_delta_table (mkHabit "c" "monthly" 0 None 0 0)).
    reflexivity.
Defined.

(** C10.  A periodicity outside 'daily', 'weekly', 'monthly' gives a
    period of 1 day, and the streak operations then behave as they do on
    the same habit with periodicity 'daily'. *)
Theorem get_period_delta_default (today : date) (h : Habit) :
  ~ In (periodicity h) PERIODICITIES ->
  let hd := set_periodicity "daily" h in
  get_period_delta h = timedelta_days 1
  /\ fst (increment today h)
     = set_periodicity (periodicity h) (fst (increment today hd))
  /\ snd (increment today h) = snd (increment today hd)
  /\ fst (streak_reset today h)
     = set_periodicity (periodicity h) (fst (streak_reset today hd))
  /\ snd (streak_reset today h) = snd (streak_reset today hd).
Proof.
  intros Hout hd.
  assert (E : get_period_delta h = timedelta_days 1).
  { unfold get_period_delta.
    destruct (String.eqb_spec (periodicity h) "daily") as [e|_];
      [exfalso; apply Hout; rewrite e; cbn; auto|].
    destruct (String.eqb_spec (periodicity h) "weekly") as [e|_];
      [exfalso; apply Hout; rewrite e; cbn; auto|].
    destruct (String.eqb_spec (periodicity h) "monthly") as [e|_];
      [exfalso; apply Hout; rewrite e; cbn; auto|].
    reflexivity. }
  split; [exact E|].
  unfold increment, streak_reset. rewrite E. subst hd.
  destruct h as [n p s l sv ls]. cbn.
  destruct l as [last|]; cbn.
  - unfold get_period_delta; cbn.
    destruct (timedelta_days 1 <=? date_diff today last); cbn;
      [destruct (ls <? s + 1); cbn|];
      (destruct (timedelta_days 1 <? date_diff today last); cbn;
       repeat split).
  - destruct (ls <? s + 1); cbn; repeat split.
Qed.

Lemma get_period_delta_default_witness :
  get_period_delta (mkHabit "Plan" "yearly" 0 None 0 0) = 1.
Proof.
  apply (get_period_delta_default (mkdate 2025 4 15)
           (mkHabit "Plan" "yearly" 0 None 0 0)).
  cbn. intros [H | [H | [H | []]]]; discriminate H.
Defined.

End StreakEngine.

(* ================================================================== *)
(** * The invariant [longest_streak >= streak] *)
(* ================================================================== *)

Section StreakInvariant.
Import Exceptions Datetime HabitPy TrackerPy Props.

Lemma sql_update_rows (P : Habit -> Prop) (n : string) (f : Habit -> Habit)
    (t : Tracker) :
  (forall r, P r -> P (f r)) ->
  Forall (fun row => P (snd row)) (habits t) ->
  Forall (fun row => P (snd row)) (habits (sql_update n f t)).
Proof.
  intros Hf Hall. cbn. induction Hall as [|row rows Hrow _ IH]; cbn.
  - constructor.
  - constructor; [|exact IH].
    destruct (has_name n row); cbn; auto.
Qed.

Lemma sql_update_twice (n : string) (f g : Habit -> Habit) (t : Tracker) :
  (forall r, name (g r) = name r) ->
  sql_update n f (sql_update n g t) = sql_update n (fun r => f (g r)) t.
Proof.
  intros Hg. unfold sql_update. cbn. f_equal.
  rewrite map_map. apply map_ext. intros row.
  destruct (has_name n row) eqn:E; cbn.
  - unfold has_name in *. cbn. rewrite Hg, E. reflexivity.
  - rewrite E. reflexivity.
Qed.

Lemma get_habit_row (P : Habit -> Prop) (t : Tracker) (n : string)
    (h : Habit) :
  Forall (fun row => P (snd row)) (habits t) ->
  get_habit t n = Some h -> P h.
Proof.
  unfold get_habit. intros Hall Hget.
  destruct (find (has_name n) (habits t)) as [row|] eqn:E; [|discriminate].
  injection Hget as <-. apply find_some in E as [Hin _].
  rewrite Forall_forall in Hall. exact (Hall _ Hin).
Qed.

Lemma update_habit_rows (t : Tracker) (h : Habit) :
  streak_le_longest h -> rows_ok t -> rows_ok (fst (update_habit t h)).
Proof.
  intros Hh Ht. unfold update_habit, rows_ok. cbn [fst].
  apply sql_update_rows; [|exact Ht]. intros r _. exact Hh.
Qed.

Lemma edit_habit_result (t : Tracker) (n : string) (h : Habit)
    (nn np : option string) (nl : pyarg) :
  get_habit t n = Some h ->
  (truthy nn && rename_conflicts t n (arg nn) = false) ->
  let h' := edited h nn np nl in
  (overflows nl = false ->
   snd (fst (edit_habit t n nn np nl)) = Ok (Some h'))
  /\ (overflows nl = true ->
      snd (fst (edit_habit t n nn np nl)) = Raise OverflowError)
  /\ (rows_ok t -> streak_le_longest h' ->
      rows_ok (fst (fst (edit_habit t n nn np nl)))).
Proof.
  intros Hget Hok h'. subst h'.
  unfold edit_habit, edited, _save_habit, update_habit, overflows.
  rewrite Hget, Hok.
  destruct (truthy nn);
    destruct (truthy np && str_in (arg np) PERIODICITIES) eqn:Ep;
    try destruct (truthy np);
    destruct nl as [|z|];
    try (destruct (Z.leb_spec 0 z) as [Ez | Ez];
         destruct (Z.leb_spec z SQLITE_MAX_INTEGER) as [Em | Em];
         destruct (Z.ltb_spec SQLITE_MAX_INTEGER z) as [Eo | Eo];
         try (exfalso; unfold SQLITE_MAX_INTEGER in *; lia));
    cbn [fst snd app name set_longest_streak set_name set_periodicity];
    (split; [intros; try reflexivity; discriminate|]);
    (split; [intros; try reflexivity; discriminate|]);
    intros Ht Hh;
    repeat rewrite sql_update_twice by reflexivity;
    try (apply sql_update_rows;
         [intros r _; unfold streak_le_longest in *; cbn in *; exact Hh |]);
    repeat (apply sql_update_rows; [intros r Hr; exact Hr|]); exact Ht.
Qed.

Lemma edit_habit_conflict (t : Tracker) (n : string) (h : Habit)
    (nn np : option string) (nl : pyarg) :
  get_habit t n = Some h ->
  (truthy nn && rename_conflicts t n (arg nn) = true) ->
  edit_habit t n nn np nl = (t, Ok None, [NameExists (arg nn)]).
Proof.
  intros Hget Hc. unfold edit_habit. now rewrite Hget, Hc.
Qed.

Lemma edit_habit_not_found (t : Tracker) (n : string)
    (nn np : option string) (nl : pyarg) :
  get_habit t n = None ->
  edit_habit t n nn np nl = (t, Ok None, [HabitNotFound n]).
Proof.
  intros Hget. unfold edit_habit. now rewrite Hget.
Qed.

Lemma edited_streak (h : Habit) (nn np : option string) (nl : pyarg) :
  streak (edited h nn np nl) = streak h.
Proof.
  unfold edited.
  destruct (truthy nn), (truthy np && str_in (arg np) PERIODICITIES),
    nl as [|z|]; try destruct (0 <=? z); reflexivity.
Qed.

Lemma edited_longest_streak (h : Habit) (nn np : option string)
    (nl : pyarg) :
  longest_streak (edited h nn np nl)
  = match nl with
    | PyInt z => if 0 <=? z then z else longest_streak h
    | _ => longest_streak h
    end.
Proof.
  unfold edited.
  destruct (truthy nn), (truthy np && str_in (arg np) PERIODICITIES),
    nl as [|z|]; try destruct (0 <=? z); reflexivity.
Qed.

(** An edit that passes a non-negative new longest streak below the
    current streak leaves the habit with [longest_streak < streak]. *)
Lemma edit_habit_lowers_longest_streak (t : Tracker) (n : string)
    (h : Habit) (z : Z) :
  get_habit t n = Some h -> 0 <= z < streak h ->
  z <= SQLITE_MAX_INTEGER ->
  exists h', snd (fst (edit_habit t n None None (PyInt z))) = Ok (Some h')
             /\ longest_streak h' < streak h'.
Proof.
  intros Hget Hz Hm.
  destruct (edit_habit_result t n h None None (PyInt z) Hget eq_refl)
    as [Hres _].
  eexists. split; [apply Hres; cbn; lia|].
  rewrite edited_streak, edited_longest_streak.
  destruct (Z.leb_spec 0 z); lia.
Qed.

(** C2, as the code has it.  For a habit with a non-negative streak,
    [increment], [streak_reset], [streak_save] and [change_periodicity]
    preserve [longest_streak >= streak]; [edit_habit] preserves it, for
    the habit it returns and for every row of the table, when it is
    given no new longest streak, an invalid one, or one that is at least
    the current streak. *)
Theorem streak_invariant_preserved (today : date) (h : Habit) (p : string)
    (t : Tracker) (n : string) (nn np : option string) (nl : pyarg) :
  0 <= streak h -> streak_le_longest h ->
  streak_le_longest (fst (increment today h))
  /\ streak_le_longest (fst (streak_reset today h))
  /\ streak_le_longest (fst (streak_save today h))
  /\ streak_le_longest (fst (change_periodicity h p))
  /\ (rows_ok t -> get_habit t n = Some h ->
      (forall z, nl = PyInt z -> 0 <= z -> streak h <= z) ->
      rows_ok (fst (fst (edit_habit t n nn np nl)))
      /\ forall h', snd (fst (edit_habit t n nn np nl)) = Ok (Some h') ->
                    streak_le_longest h').
Proof.
  intros Hnn Hinv. unfold streak_le_longest in *.
  split; [|split; [|split; [|split]]].
  - destruct (due_dec today h) as [Hd | Hd].
    + rewrite (increment_due _ _ Hd). cbn. lia.
    + now rewrite (increment_not_due _ _ Hd).
  - unfold streak_reset. destruct (last_completed h) as [last|]; cbn; auto.
    destruct (get_period_delta h <? date_diff today last); cbn; lia.
  - unfold streak_save. destruct (0 <? streak_saves h); cbn; auto.
  - unfold change_periodicity.
    destruct (str_in p PERIODICITIES); cbn; auto.
  - intros Ht Hget Hz.
    assert (Hed : streak_le_longest (edited h nn np nl)).
    { unfold streak_le_longest.
      rewrite edited_streak, edited_longest_streak.
      destruct nl as [|z|]; auto.
      destruct (Z.leb_spec 0 z); auto. }
    destruct (truthy nn && rename_conflicts t n (arg nn)) eqn:Ec.
    + rewrite (edit_habit_conflict t n h nn np nl Hget Ec). cbn.
      split; [exact Ht | discriminate].
    + destruct (edit_habit_result t n h nn np nl Hget Ec)
        as [Hres [Hraise Hrows]].
      split; [now apply Hrows|].
      intros h' Hh'. destruct (overflows nl) eqn:Eo.
      * rewrite (Hraise eq_refl) in Hh'. discriminate.
      * rewrite (Hres eq_refl) in Hh'. injection Hh' as <-. exact Hed.
Qed.

Lemma streak_invariant_preserved_witness :
  let h := mkHabit "Walk" "daily" 5 (Some (mkdate 2025 4 13)) 1 5 in
  let t := mkTracker [(1, h)] [] in
  streak_le_longest (fst (increment (mkdate 2025 4 15) h))
  /\ rows_ok (fst (fst (edit_habit t "Walk" (Some "Hike"%string) (Some "weekly"%string)
                                   (PyInt 9)))).
Proof.
  intros h t.
  assert (Hnn : 0 <= streak h) by (cbn; lia).
  assert (Hinv : streak_le_longest h) by (unfold streak_le_longest; cbn; lia).
  destruct (streak_invariant_preserved (mkdate 2025 4 15) h "weekly" t
              "Walk" (Some "Hike"%string) (Some "weekly"%string) (PyInt 9) Hnn Hinv)
    as [Hinc [_ [_ [_ Hedit]]]].
  split; [exact Hinc|].
  apply Hedit.
  - constructor; [exact Hinv | constructor].
  - reflexivity.
  - intros z Hz _. injection Hz as <-. cbn. lia.
Defined.

(** C2 as stated fails on [edit_habit]: a habit with streak 5 and
    longest streak 5 is edited with new longest streak 0, which the
    guard [new_longest_streak >= 0] accepts. *)
Lemma edit_habit_breaks_streak_invariant :
  let h := mkHabit "Walk" "daily" 5 (Some (mkdate 2025 4 13)) 0 5 in
  let h' := mkHabit "Walk" "daily" 5 (Some (mkdate 2025 4 13)) 0 0 in
  let t := mkTracker [(1, h)] [] in
  rows_ok t
  /\ edit_habit t "Walk" None None (PyInt 0)
     = (mkTracker [(1, h')] [], Ok (Some h'),
        [LongestStreakUpdated "Walk" 0; HabitUpdated "Walk"])
  /\ ~ streak_le_longest h'
  /\ ~ rows_ok (mkTracker [(1, h')] []).
Proof.
  cbv zeta. split; [|split; [|split]].
  - constructor; [|constructor]. unfold streak_le_longest. cbn. lia.
  - reflexivity.
  - unfold streak_le_longest. cbn. lia.
  - intros H. inversion H as [|? ? Hrow _]; subst.
    unfold streak_le_longest in Hrow. cbn in Hrow. lia.
Qed.

End StreakInvariant.

(* ================================================================== *)
(** * The calendar: ordinals and fields are inverse to each other *)
(* ================================================================== *)

Section Calendar.
Import Datetime Props.

Lemma forall_from_spec (k : nat) (z : Z) (f : Z -> bool) :
  forall_from k z f = true ->
  forall i, z <= i < z + Z.of_nat k -> f i = true.
Proof.
  revert z. induction k as [|k IH]; intros z H i Hi; [lia|].
  cbn [forall_from] in H. apply andb_true_iff in H as [Hz Hrest].
  destruct (Z.eq_dec i z) as [->|Hne]; [exact Hz|].
  apply (IH (z + 1) Hrest). lia.
Qed.

Lemma forall_from_range (c z : Z) (f : Z -> bool) :
  forall_from (Z.to_nat c) z f = true ->
  forall i, z <= i < z + c -> f i = true.
Proof.
  intros H i Hi. apply (forall_from_spec _ _ _ H).
  rewrite Z2Nat.id; lia.
Qed.

Lemma ordinal_cycle :
  forall_from (Z.to_nat 146097) 1 check_ordinal = true.
Proof. vm_compute. reflexivity. Qed.

Lemma fields_cycle : forall_from (Z.to_nat 400) 1 check_fields = true.
Proof. vm_compute. reflexivity. Qed.

Lemma is_leap_period (y k : Z) : is_leap (y + 400 * k) = is_leap y.
Proof.
  unfold is_leap.
  replace ((y + 400 * k) mod 4) with (y mod 4)
    by (Z.div_mod_to_equations; lia).
  replace ((y + 400 * k) mod 100) with (y mod 100)
    by (Z.div_mod_to_equations; lia).
  replace ((y + 400 * k) mod 400) with (y mod 400)
    by (Z.div_mod_to_equations; lia).
  reflexivity.
Qed.

Lemma days_before_year_period (y k : Z) :
  days_before_year (y + 400 * k) = days_before_year y + 146097 * k.
Proof. unfold days_before_year. Z.div_mod_to_equations. lia. Qed.

Lemma ymd2ord_period (y m d k : Z) :
  ymd2ord (y + 400 * k) m d = ymd2ord y m d + 146097 * k.
Proof.
  unfold ymd2ord, days_before_month.
  rewrite days_before_year_period, is_leap_period. lia.
Qed.

Lemma ord2ymd_period (n k : Z) :
  ord2ymd (n + 146097 * k)
  = let '(y, m, d) := ord2ymd n in (y + 400 * k, m, d).
Proof.
  unfold ord2ymd, DI400Y.
  replace (n + 146097 * k - 1) with (n - 1 + k * 146097) by ring.
  rewrite Z.div_add, Z_mod_plus_full by lia.
  cbv zeta.
  set (r := (n - 1) mod 146097).
  set (n100 := r / DI100Y). set (r1 := r mod DI100Y).
  set (n4 := r1 / DI4Y). set (r2 := r1 mod DI4Y).
  set (n1 := r2 / 365). set (r3 := r2 mod 365).
  destruct ((n1 =? 4) || (n100 =? 4)); [f_equal; f_equal; ring|].
  match goal with
  | |- (if ?c then _ else _) = _ => destruct c
  end; f_equal; f_equal; ring.
Qed.

Lemma valid_date_period (y m d k : Z) :
  valid_date (mkdate (y + 400 * k) m d) = valid_date (mkdate y m d).
Proof.
  unfold valid_date, days_in_month. cbn [year month day].
  now rewrite is_leap_period.
Qed.

(** Every integer splits into a position in the 400-year cycle and a
    number of cycles. *)
Lemma cycle_split (base period n : Z) :
  0 < period ->
  let r := (n - base) mod period + base in
  let q := (n - base) / period in
  n = r + period * q /\ base <= r < base + period.
Proof.
  intros Hp r q. subst r q.
  pose proof (Z.div_mod (n - base) period ltac:(lia)).
  pose proof (Z.mod_pos_bound (n - base) period Hp). lia.
Qed.

Lemma check_ordinal_all (n : Z) : check_ordinal n = true.
Proof.
  destruct (cycle_split 1 146097 n ltac:(lia)) as [Hn Hr].
  set (r := (n - 1) mod 146097 + 1) in *.
  set (q := (n - 1) / 146097) in *.
  pose proof (forall_from_range _ _ _ ordinal_cycle r ltac:(lia)) as Hc.
  rewrite Hn. unfold check_ordinal in *. rewrite ord2ymd_period.
  destruct (ord2ymd r) as [[y m] d].
  rewrite ymd2ord_period, valid_date_period.
  apply andb_true_iff in Hc as [Ho Hv]. rewrite Hv.
  apply Z.eqb_eq in Ho. rewrite Ho, Z.eqb_refl. reflexivity.
Qed.

(** The ordinal of the date at ordinal [n] is [n]. *)
Lemma toordinal_fromordinal (n : Z) : toordinal (fromordinal n) = n.
Proof.
  pose proof (check_ordinal_all n) as H.
  unfold check_ordinal, toordinal, fromordinal in *.
  destruct (ord2ymd n) as [[y m] d]. cbn.
  apply andb_true_iff in H as [H _]. now apply Z.eqb_eq.
Qed.

(** The date at any ordinal is well formed. *)
Lemma valid_fromordinal (n : Z) : valid_date (fromordinal n) = true.
Proof.
  pose proof (check_ordinal_all n) as H.
  unfold check_ordinal, fromordinal in *.
  destruct (ord2ymd n) as [[y m] d].
  now apply andb_true_iff in H as [_ H].
Qed.

Lemma days_in_month_bounds (y m : Z) :
  1 <= m <= 12 -> 28 <= days_in_month y m <= 31.
Proof.
  intros Hm. unfold days_in_month.
  assert (C : m = 1 \/ m = 2 \/ m = 3 \/ m = 4 \/ m = 5 \/ m = 6 \/ m = 7
              \/ m = 8 \/ m = 9 \/ m = 10 \/ m = 11 \/ m = 12) by lia.
  repeat (destruct C as [-> | C]); try subst m;
    destruct (is_leap y); cbv -[Z.le]; lia.
Qed.

Lemma valid_date_fields (d : date) :
  valid_date d = true ->
  1 <= month d <= 12 /\ 1 <= day d <= days_in_month (year d) (month d).
Proof.
  unfold valid_date. intros H.
  repeat (apply andb_true_iff in H as [H ?]). lia.
Qed.

Lemma ymd_eqb_eq (a b : Z * Z * Z) : ymd_eqb a b = true -> a = b.
Proof.
  destruct a as [[y1 m1] d1], b as [[y2 m2] d2]. unfold ymd_eqb.
  intros H. repeat (apply andb_true_iff in H as [H ?]).
  repeat f_equal; lia.
Qed.

Lemma check_fields_elim (y m d : Z) :
  check_fields y = true -> 1 <= m <= 12 -> 1 <= d <= 31 ->
  valid_date (mkdate y m d) = true ->
  ord2ymd (ymd2ord y m d) = (y, m, d).
Proof.
  intros Hc Hm Hd Hv.
  pose proof (forall_from_spec 12 1 (check_month y) Hc m ltac:(lia)) as Hc1.
  pose proof (forall_from_spec 31 1 (check_day y m) Hc1 d ltac:(lia)) as Hc2.
  unfold check_day in Hc2. rewrite Hv, implb_true_l in Hc2.
  apply ymd_eqb_eq. exact Hc2.
Qed.

(** The date at the ordinal of a well-formed date is that date. *)
Lemma fromordinal_toordinal (d : date) :
  valid_date d = true -> fromordinal (toordinal d) = d.
Proof.
  destruct d as [y m d]. intros Hv.
  destruct (valid_date_fields _ Hv) as [Hm Hd].
  cbn [year month day] in Hm, Hd.
  pose proof (days_in_month_bounds y m Hm) as Hdim.
  destruct (cycle_split 1 400 y ltac:(lia)) as [Hy Hr].
  set (r := (y - 1) mod 400 + 1) in *.
  set (q := (y - 1) / 400) in *.
  pose proof (forall_from_range _ _ _ fields_cycle r ltac:(lia)) as Hc.
  assert (Hv' : valid_date (mkdate r m d) = true)
    by (rewrite <- (valid_date_period r m d q), <- Hy; exact Hv).
  pose proof (check_fields_elim r m d Hc Hm ltac:(lia) Hv') as E.
  unfold toordinal, fromordinal. cbn [year month day].
  rewrite Hy at 1. rewrite ymd2ord_period, ord2ymd_period, E.
  now rewrite <- Hy.
Qed.

Lemma date_eqb_eq (a b : date) : date_eqb a b = true <-> a = b.
Proof.
  destruct a as [y1 m1 d1], b as [y2 m2 d2]. unfold date_eqb. cbn. split.
  - intros H. repeat (apply andb_true_iff in H as [H ?]).
    f_equal; lia.
  - intros H. injection H as -> -> ->. now rewrite !Z.eqb_refl.
Qed.

Lemma date_eqb_refl (a : date) : date_eqb a a = true.
Proof. now apply date_eqb_eq. Qed.

Lemma date_eqb_sym (a b : date) : date_eqb a b = date_eqb b a.
Proof.
  destruct (date_eqb a b) eqn:E1, (date_eqb b a) eqn:E2; auto.
  - apply date_eqb_eq in E1. subst. now rewrite date_eqb_refl in E2.
  - apply date_eqb_eq in E2. subst. now rewrite date_eqb_refl in E1.
Qed.

Lemma fromordinal_inj (a b : Z) : fromordinal a = fromordinal b -> a = b.
Proof.
  intros H. rewrite <- (toordinal_fromordinal a), H.
  apply toordinal_fromordinal.
Qed.

End Calendar.

(* ================================================================== *)
(** * Dictionaries *)
(* ================================================================== *)

Section Dicts.
Import Datetime AnalysePy Props.

Lemma fold_left_step_ext (A B : Type) (f g : A -> B -> A) (l : list B)
    (a : A) :
  (forall x y, f x y = g x y) -> fold_left f l a = fold_left g l a.
Proof.
  intros E. revert a. induction l as [|y l IH]; intros a; cbn.
  - reflexivity.
  - now rewrite E, IH.
Qed.

Lemma date_in_In (x : date) (l : list date) : date_in x l = true <-> In x l.
Proof.
  unfold date_in. rewrite existsb_exists. split.
  - intros [y [Hin Heq]]. apply date_eqb_eq in Heq. now subst.
  - intros Hin. exists x. split; [exact Hin | apply date_eqb_refl].
Qed.

Lemma date_in_false (x : date) (l : list date) :
  date_in x l = false <-> ~ In x l.
Proof.
  rewrite <- date_in_In. destruct (date_in x l); split; congruence.
Qed.

(** Setting a key that is not in the dictionary appends the entry. *)
Lemma dict_set_fresh (k : date) (v : Z) (d : dict) :
  ~ In k (map fst d) -> dict_set k v d = d ++ [(k, v)].
Proof.
  induction d as [|[k' v'] d IH]; cbn; intros Hk; [reflexivity|].
  destruct (date_eqb k' k) eqn:E.
  - apply date_eqb_eq in E. tauto.
  - rewrite IH by tauto. reflexivity.
Qed.

(** Filling a dictionary with pairwise distinct fresh keys lists them in
    the order of insertion. *)
Lemma fold_dict_set_fresh (A : Type) (key : A -> date) (val : A -> Z)
    (l : list A) (acc : dict) :
  NoDup (map fst acc ++ map key l) ->
  fold_left (fun trend n => dict_set (key n) (val n) trend) l acc
  = acc ++ map (fun n => (key n, val n)) l.
Proof.
  revert acc. induction l as [|n l IH]; intros acc Hnd; cbn.
  - now rewrite app_nil_r.
  - cbn in Hnd. pose proof (NoDup_remove_2 _ _ _ Hnd) as Hfresh.
    rewrite dict_set_fresh by (intros Hin; apply Hfresh, in_or_app; auto).
    rewrite IH.
    + now rewrite <- app_assoc.
    + rewrite map_app. cbn. rewrite <- app_assoc. cbn.
      apply NoDup_remove_1 in Hnd as Hnd'.
      apply NoDup_Add with (a := key n) (l := map fst acc ++ map key l).
      * apply Add_app.
      * split; [exact Hnd' | exact Hfresh].
Qed.

Lemma range_NoDup (n : Z) : NoDup (range n).
Proof.
  unfold range. apply Injective_map_NoDup.
  - intros a b. apply Nat2Z.inj.
  - apply seq_NoDup.
Qed.

Lemma range_length (n : Z) : List.length (range n) = Z.to_nat n.
Proof. unfold range. now rewrite length_map, length_seq. Qed.

Lemma range_nth (n i : Z) :
  0 <= i < n -> nth_error (range n) (Z.to_nat i) = Some i.
Proof.
  intros Hi. unfold range.
  rewrite nth_error_map, nth_error_nth' with (d := O)
    by (rewrite length_seq; lia).
  rewrite seq_nth by lia. cbn. f_equal. lia.
Qed.

Lemma dict_set_keys (k : date) (v : Z) (d : dict) :
  map fst (dict_set k v d)
  = if date_in k (map fst d) then map fst d else map fst d ++ [k].
Proof.
  induction d as [|[k' v'] d IH]; cbn; [reflexivity|].
  rewrite (date_eqb_sym k k').
  destruct (date_eqb k' k); cbn; [reflexivity|].
  rewrite IH. unfold date_in. now destruct (existsb _ _).
Qed.

Lemma dict_get_set (k k' : date) (v : Z) (d : dict) :
  dict_get k (dict_set k' v d) = if date_eqb k' k then v else dict_get k d.
Proof.
  induction d as [|[k0 v0] d IH]; cbn; [reflexivity|].
  destruct (date_eqb k0 k') eqn:E0; cbn.
  - apply date_eqb_eq in E0. subst k0. now destruct (date_eqb k' k).
  - rewrite IH. destruct (date_eqb k0 k) eqn:E1; [|reflexivity].
    apply date_eqb_eq in E1. subst k0. now rewrite date_eqb_sym, E0.
Qed.

Lemma dict_get_incr (k k' : date) (d : dict) :
  dict_get k (dict_incr k' d)
  = dict_get k d + (if date_eqb k' k then 1 else 0).
Proof.
  unfold dict_incr. rewrite dict_get_set.
  destruct (date_eqb k' k) eqn:E; [|lia].
  apply date_eqb_eq in E. now subst.
Qed.

Lemma dict_get_absent (k : date) (d : dict) :
  ~ In k (map fst d) -> dict_get k d = 0.
Proof.
  induction d as [|[k' v'] d IH]; cbn; intros H; [reflexivity|].
  destruct (date_eqb k' k) eqn:E.
  - apply date_eqb_eq in E. tauto.
  - apply IH. tauto.
Qed.

(** A dictionary is the list of its keys with the value of each. *)
Lemma dict_entries (d : dict) :
  NoDup (map fst d) -> d = map (fun k => (k, dict_get k d)) (map fst d).
Proof.
  induction d as [|[k v] d IH]; cbn; intros Hnd; [reflexivity|].
  inversion Hnd as [|? ? Hk Hd]; subst.
  rewrite date_eqb_refl. f_equal.
  rewrite IH at 1 by exact Hd.
  apply map_ext_in. intros k' Hin.
  destruct (date_eqb k k') eqn:E; [|reflexivity].
  apply date_eqb_eq in E. now subst.
Qed.

Section Buckets.
Variables (p : date -> bool) (bucket : date -> date).

Lemma fold_count_get (history : list date) (d : dict) (k : date) :
  dict_get k (fold_left (count_step p bucket) history d)
  = dict_get k d + hits p bucket history k.
Proof.
  unfold hits. revert d.
  induction history as [|c l IH]; intros d; cbn [fold_left filter].
  - cbn. lia.
  - rewrite IH. unfold count_step.
    destruct (p c); cbn [andb].
    + rewrite dict_get_incr.
      destruct (date_eqb (bucket c) k); cbn [List.length]; lia.
    + lia.
Qed.

Lemma fold_count_keys_present (history : list date) (d : dict) :
  (forall c, In c history -> p c = true -> In (bucket c) (map fst d)) ->
  map fst (fold_left (count_step p bucket) history d) = map fst d.
Proof.
  revert d. induction history as [|c l IH]; intros d H; [reflexivity|].
  cbn [fold_left].
  assert (E : map fst (count_step p bucket d c) = map fst d).
  { unfold count_step. destruct (p c) eqn:Ep; [|reflexivity].
    unfold dict_incr. rewrite dict_set_keys.
    assert (Hin : In (bucket c) (map fst d)) by (apply H; cbn; auto).
    apply date_in_In in Hin. now rewrite Hin. }
  rewrite IH; [exact E|].
  intros c' Hc' Hp. rewrite E. apply H; cbn; auto.
Qed.

Lemma fold_count_keys (history : list date) (d : dict) (k : date) :
  In k (map fst (fold_left (count_step p bucket) history d))
  <-> In k (map fst d)
      \/ exists c, In c history /\ p c = true /\ bucket c = k.
Proof.
  revert d. induction history as [|c l IH]; intros d; cbn [fold_left].
  - split; [auto|]. intros [H | [c [[] _]]]. exact H.
  - rewrite IH. unfold count_step.
    destruct (p c) eqn:Ep.
    + unfold dict_incr. rewrite dict_set_keys.
      destruct (date_in (bucket c) (map fst d)) eqn:Ein.
      * apply date_in_In in Ein. split.
        -- intros [H | [c' [Hin Hc']]]; [now left|].
           right. exists c'. cbn. tauto.
        -- intros [H | [c' [[<- | Hin] [Hp Hb]]]]; [now left | |].
           ++ left. now rewrite <- Hb.
           ++ right. exists c'. tauto.
      * rewrite in_app_iff. cbn [In]. split.
        -- intros [[H | [<- | []]] | [c' [Hin Hc']]]; [now left | |].
           ++ right. exists c. cbn. tauto.
           ++ right. exists c'. cbn. tauto.
        -- intros [H | [c' [[<- | Hin] [Hp Hb]]]]; [tauto | |].
           ++ left. right. left. exact Hb.
           ++ right. exists c'. tauto.
    + split.
      * intros [H | [c' [Hin Hc']]]; [now left|].
        right. exists c'. cbn. tauto.
      * intros [H | [c' [[<- | Hin] [Hp Hb]]]]; [now left | congruence |].
        right. exists c'. tauto.
Qed.

Lemma fold_count_NoDup (history : list date) (d : dict) :
  NoDup (map fst d) -> NoDup (map fst (fold_left (count_step p bucket) history d)).
Proof.
  revert d. induction history as [|c l IH]; intros d Hd; [exact Hd|].
  cbn [fold_left]. apply IH. unfold count_step.
  destruct (p c); [|exact Hd].
  unfold dict_incr. rewrite dict_set_keys.
  destruct (date_in (bucket c) (map fst d)) eqn:Ein; [exact Hd|].
  apply date_in_false in Ein.
  apply NoDup_Add with (a := bucket c) (l := map fst d).
  - rewrite <- (app_nil_r (map fst d)) at 1. apply Add_app.
  - split; assumption.
Qed.
End Buckets.

(** [sorted] leaves a list alone whose keys are strictly ascending. *)
Lemma insert_item_last (x : date * Z) (l : list (date * Z)) :
  Forall (fun y => date_ltb (fst y) (fst x) = true) l ->
  insert_item x l = l ++ [x].
Proof.
  induction 1 as [|y l Hy _ IH]; cbn; [reflexivity|].
  unfold item_ltb.
  destruct (date_eqb (fst x) (fst y)) eqn:E.
  - apply date_eqb_eq in E. rewrite E in Hy.
    unfold date_ltb in Hy. exfalso.
    rewrite !Z.ltb_irrefl, !Z.eqb_refl in Hy. cbn in Hy. discriminate.
  - assert (Hn : date_ltb (fst x) (fst y) = false).
    { clear -Hy. unfold date_ltb in *.
      destruct (fst x) as [y1 m1 d1], (fst y) as [y2 m2 d2]. cbn in *.
      destruct (Z.ltb_spec y2 y1), (Z.ltb_spec y1 y2),
        (Z.eqb_spec y2 y1), (Z.eqb_spec y1 y2),
        (Z.ltb_spec m2 m1), (Z.ltb_spec m1 m2),
        (Z.eqb_spec m2 m1), (Z.eqb_spec m1 m2),
        (Z.ltb_spec d2 d1), (Z.ltb_spec d1 d2);
        cbn in *; try reflexivity; try discriminate; lia. }
    rewrite Hn, IH. reflexivity.
Qed.

Lemma sorted_ascending (l : list (date * Z)) :
  ascending (map fst l) -> sorted l = l.
Proof.
  unfold sorted, ascending.
  induction l as [|x l IH] using rev_ind; intros Hs; [reflexivity|].
  rewrite rev_app_distr. cbn [rev app fold_right].
  rewrite map_app in Hs. cbn [map] in Hs.
  assert (Hl : StronglySorted (fun a b => date_ltb a b = true) (map fst l)
               /\ Forall (fun y => date_ltb (fst y) (fst x) = true) l).
  { clear IH. induction l as [|y l IHl]; cbn in *.
    - split; constructor.
    - inversion Hs as [|? ? Hs' Hall]; subst.
      destruct (IHl Hs') as [H1 H2]. split.
      + constructor; [exact H1|].
        apply Forall_app in Hall. tauto.
      + constructor; [|exact H2].
        apply Forall_app in Hall as [_ Hx].
        now inversion Hx. }
  destruct Hl as [Hl1 Hl2].
  rewrite IH by exact Hl1. now apply insert_item_last.
Qed.

Lemma dict_of_items_NoDup (l : list (date * Z)) :
  NoDup (map fst l) -> dict_of_items l = l.
Proof.
  intros Hnd. unfold dict_of_items.
  rewrite (fold_dict_set_fresh (date * Z) fst snd) by exact Hnd.
  cbn [app]. rewrite <- (map_id l) at 2. apply map_ext.
  now intros [k v].
Qed.

End Dicts.

(* ================================================================== *)
(** * The daily trend on the unbounded calendar *)
(* ================================================================== *)

Section DailyTrend.
Import Datetime HabitPy TrackerPy AnalysePy Props Unbounded.

(** The date [k] days after the first day of a window of [n] days that
    ends today. *)
Lemma daily_key (today : date) (n k : Z) :
  date_add (date_sub today (timedelta_days (n - 1))) (timedelta_days k)
  = fromordinal (toordinal today - (n - 1) + k).
Proof.
  unfold date_sub, date_add, timedelta_days.
  rewrite toordinal_fromordinal. f_equal; lia.
Qed.

(** The dictionary that [calculate_daily_trend] builds, entry by entry. *)
Lemma daily_trend_entries_unbounded (t : Tracker) (today : date)
    (habit_name : string) (num_days : Z) (h : Habit) :
  get_habit t habit_name = Some h ->
  calculate_daily_trend t today habit_name num_days
  = map (fun k =>
           let day := fromordinal (toordinal today - (num_days - 1) + k) in
           (day,
            if date_in day (get_completion_history t habit_name)
            then 1 else 0))
        (range num_days).
Proof.
  intros Hget. unfold calculate_daily_trend. rewrite Hget.
  set (history := get_completion_history t habit_name).
  rewrite (fold_dict_set_fresh Z
             (fun k => date_add (date_sub today (timedelta_days (num_days - 1)))
                                (timedelta_days k))
             (fun k => if date_in
                            (date_add
                               (date_sub today (timedelta_days (num_days - 1)))
                               (timedelta_days k)) history
                       then 1 else 0)).
  - cbn [app]. apply map_ext. intros k. now rewrite daily_key.
  - cbn [map app]. apply Injective_map_NoDup; [|apply range_NoDup].
    intros a b. rewrite !daily_key. intros E.
    apply fromordinal_inj in E. lia.
Qed.

(** The entries of the daily trend on the unbounded calendar. *)
Lemma daily_trend_unbounded (t : Tracker) (today : date)
    (habit_name : string) (num_days : Z) (h : Habit) :
  get_habit t habit_name = Some h ->
  valid_date today = true ->
  1 <= num_days ->
  let trend := calculate_daily_trend t today habit_name num_days in
  let history := get_completion_history t habit_name in
  List.length trend = Z.to_nat num_days
  /\ NoDup (map fst trend)
  /\ (forall i, 0 <= i < num_days ->
      exists day v,
        nth_error trend (Z.to_nat i) = Some (day, v)
        /\ valid_date day = true
        /\ toordinal day = toordinal today - (num_days - 1) + i
        /\ (In day history -> v = 1)
        /\ (~ In day history -> v = 0))
  /\ option_map fst (nth_error trend (Z.to_nat (num_days - 1))) = Some today.
Proof.
  intros Hget Hvalid Hn trend history. subst trend.
  rewrite (daily_trend_entries_unbounded _ _ _ _ _ Hget).
  fold history.
  assert (Hnth : forall i, 0 <= i < num_days ->
    nth_error
      (map (fun k =>
              let day := fromordinal (toordinal today - (num_days - 1) + k) in
              (day, if date_in day history then 1 else 0))
           (range num_days)) (Z.to_nat i)
    = Some (fromordinal (toordinal today - (num_days - 1) + i),
            if date_in (fromordinal (toordinal today - (num_days - 1) + i))
                       history then 1 else 0)).
  { intros i Hi. rewrite nth_error_map, range_nth by exact Hi. reflexivity. }
  split; [|split; [|split]].
  - now rewrite length_map, range_length.
  - rewrite map_map. cbn [fst].
    apply Injective_map_NoDup; [|apply range_NoDup].
    intros a b E. apply fromordinal_inj in E. lia.
  - intros i Hi. eexists. eexists. split; [apply Hnth, Hi|].
    split; [apply valid_fromordinal|].
    split; [apply toordinal_fromordinal|].
    destruct (date_in _ history) eqn:E.
    + split; [reflexivity|]. apply date_in_In in E. tauto.
    + split; [|reflexivity]. apply date_in_false in E. tauto.
  - rewrite Hnth by lia. cbn [option_map fst]. f_equal.
    replace (toordinal today - (num_days - 1) + (num_days - 1))
      with (toordinal today) by lia.
    now apply fromordinal_toordinal.
Qed.

End DailyTrend.

(* ================================================================== *)
(** * Month arithmetic on the unbounded calendar *)
(* ================================================================== *)

Section Months.
Import Datetime Relativedelta AnalysePy Props Unbounded.

Lemma date_add_zero (d : date) :
  valid_date d = true -> date_add d (timedelta_days 0) = d.
Proof.
  intros Hv. unfold date_add, timedelta_days. rewrite Z.add_0_r.
  now apply fromordinal_toordinal.
Qed.

Lemma valid_first_of_month (y m : Z) :
  1 <= m <= 12 -> valid_date (mkdate y m 1) = true.
Proof.
  intros Hm. pose proof (days_in_month_bounds y m Hm).
  unfold valid_date. cbn [year month day].
  repeat (apply andb_true_iff; split); lia.
Qed.

Lemma month_of_index_fields (y m : Z) :
  1 <= m <= 12 -> month_of_index (12 * y + (m - 1)) = mkdate y m 1.
Proof.
  intros Hm. unfold month_of_index. f_equal; Z.div_mod_to_equations; lia.
Qed.

Lemma month_of_index_inj (i j : Z) :
  month_of_index i = month_of_index j -> i = j.
Proof.
  unfold month_of_index. intros H. injection H as Hq Hr.
  Z.div_mod_to_equations. lia.
Qed.

Lemma month_of_index_ltb (i j : Z) :
  date_ltb (month_of_index i) (month_of_index j) = (i <? j).
Proof.
  unfold month_of_index, date_ltb. cbn [year month day].
  rewrite Z.ltb_irrefl, andb_false_r, orb_false_r.
  destruct (Z.ltb_spec i j) as [H | H].
  - destruct (Z.ltb_spec (i / 12) (j / 12)) as [Hq | Hq]; [reflexivity|].
    cbn [orb]. apply andb_true_iff. split.
    + apply Z.eqb_eq. Z.div_mod_to_equations. lia.
    + apply Z.ltb_lt. Z.div_mod_to_equations. lia.
  - destruct (Z.ltb_spec (i / 12) (j / 12)) as [Hq | Hq].
    + exfalso. Z.div_mod_to_equations. lia.
    + cbn [orb]. apply andb_false_iff.
      destruct (Z.eqb_spec (i / 12) (j / 12)) as [E | E]; [right | now left].
      apply Z.ltb_ge. Z.div_mod_to_equations. lia.
Qed.

Lemma month_of_index_valid (i : Z) : valid_date (month_of_index i) = true.
Proof.
  unfold month_of_index. apply valid_first_of_month.
  Z.div_mod_to_equations. lia.
Qed.

(** Adding a normalised [relativedelta] to the first day of a month moves
    it by [12 * years + months] months. *)
Lemma radd_first_day (ys ms y m : Z) :
  -11 <= ms <= 11 -> 1 <= m <= 12 ->
  radd (mkrd ys ms) (mkdate y m 1)
  = month_of_index (12 * y + (m - 1) + 12 * ys + ms).
Proof.
  intros Hms Hm. unfold radd, monthrange_days.
  cbn [year month day years months].
  assert (Hstep : forall y' m', 1 <= m' <= 12 ->
            12 * y' + (m' - 1) = 12 * y + (m - 1) + 12 * ys + ms ->
            date_add (mkdate y' m' (Z.min (days_in_month y' m') 1))
                     (timedelta_days 0)
            = month_of_index (12 * y + (m - 1) + 12 * ys + ms)).
  { intros y' m' Hm' E.
    pose proof (days_in_month_bounds y' m' Hm').
    rewrite Z.min_r by lia.
    rewrite date_add_zero by now apply valid_first_of_month.
    rewrite <- E. symmetry. now apply month_of_index_fields. }
  destruct (Z.eqb_spec ms 0) as [E0 | E0].
  - apply Hstep; lia.
  - destruct (Z.ltb_spec 12 (m + ms)).
    + apply Hstep; lia.
    + destruct (Z.ltb_spec (m + ms) 1); apply Hstep; lia.
Qed.

Lemma radd_first_of_month (ys ms i : Z) :
  -11 <= ms <= 11 ->
  radd (mkrd ys ms) (month_of_index i) = month_of_index (i + 12 * ys + ms).
Proof.
  intros Hms. unfold month_of_index at 1.
  rewrite radd_first_day by (try exact Hms; Z.div_mod_to_equations; lia).
  f_equal. Z.div_mod_to_equations. lia.
Qed.

(** [relativedelta(months=k)] is normalised and stands for [k] months. *)
Lemma new_months (k : Z) :
  -11 <= months (new 0 k) <= 11
  /\ 12 * years (new 0 k) + months (new 0 k) = k.
Proof.
  unfold new, sign.
  destruct (Z.ltb_spec 11 (Z.abs k)); [destruct (Z.ltb_spec k 0)|];
    cbn [years months]; Z.div_mod_to_equations; lia.
Qed.

Lemma neg_normal (r : relativedelta) :
  -11 <= months r <= 11 -> neg r = mkrd (- years r) (- months r).
Proof.
  intros H. unfold neg, new.
  destruct (Z.ltb_spec 11 (Z.abs (- months r))); [lia | reflexivity].
Qed.

(** [d + relativedelta(months=k)] on the first day of a month. *)
Lemma radd_months (k i : Z) :
  radd (new 0 k) (month_of_index i) = month_of_index (i + k).
Proof.
  destruct (new_months k) as [Hms Hk].
  destruct (new 0 k) as [ys ms]. cbn [years months] in *.
  rewrite radd_first_of_month by exact Hms. f_equal. lia.
Qed.

(** [d - relativedelta(months=k)] on the first day of a month. *)
Lemma rsub_months (k i : Z) :
  rsub (new 0 k) (month_of_index i) = month_of_index (i - k).
Proof.
  destruct (new_months k) as [Hms Hk].
  unfold rsub. rewrite neg_normal by exact Hms.
  destruct (new 0 k) as [ys ms]. cbn [years months] in *.
  rewrite radd_first_of_month by lia. f_equal. lia.
Qed.

End Months.

(* ================================================================== *)
(** * The monthly trend on the unbounded calendar *)
(* ================================================================== *)

Section MonthlyTrend.
Import Datetime Relativedelta HabitPy TrackerPy AnalysePy Props Unbounded.

Lemma months_from_S (i : Z) (n : nat) :
  months_from i (S n) = months_from i n ++ [month_of_index (i + Z.of_nat n)].
Proof. unfold months_from. now rewrite seq_S, map_app. Qed.

Lemma months_from_In (i : Z) (n : nat) (d : date) :
  In d (months_from i n)
  <-> exists k, d = month_of_index (i + k) /\ 0 <= k < Z.of_nat n.
Proof.
  unfold months_from. rewrite in_map_iff. split.
  - intros [k [<- Hk]]. apply in_seq in Hk. exists (Z.of_nat k). split; [auto|lia].
  - intros [k [-> Hk]]. exists (Z.to_nat k). split.
    + f_equal. lia.
    + apply in_seq. lia.
Qed.

Lemma months_from_fresh (i : Z) (n : nat) :
  ~ In (month_of_index (i + Z.of_nat n)) (months_from i n).
Proof.
  rewrite months_from_In. intros [k [E Hk]].
  apply month_of_index_inj in E. lia.
Qed.

Lemma months_from_NoDup (i : Z) (n : nat) : NoDup (months_from i n).
Proof.
  unfold months_from. apply Injective_map_NoDup; [|apply seq_NoDup].
  intros a b E. apply month_of_index_inj in E. lia.
Qed.

Lemma months_from_ascending (i : Z) (n : nat) : ascending (months_from i n).
Proof.
  unfold ascending. induction n as [|n IH].
  - constructor.
  - rewrite months_from_S.
    assert (G : forall l x,
              StronglySorted (fun a b => date_ltb a b = true) l ->
              Forall (fun a => date_ltb a x = true) l ->
              StronglySorted (fun a b => date_ltb a b = true) (l ++ [x])).
    { intros l x Hs. induction Hs as [|a l Hs IHs Ha]; intros Hall; cbn.
      - repeat constructor.
      - inversion Hall; subst. constructor; [now apply IHs|].
        apply Forall_app. split; [exact Ha | now repeat constructor]. }
    apply G; [exact IH|].
    apply Forall_forall. intros d Hd.
    apply months_from_In in Hd as [k [-> Hk]].
    rewrite month_of_index_ltb. apply Z.ltb_lt. lia.
Qed.

Lemma months_from_length (i : Z) (n : nat) :
  List.length (months_from i n) = n.
Proof. unfold months_from. now rewrite length_map, length_seq. Qed.

(** The seeding loop started at month [i0 + a], with the months from
    [i0] on already seeded, stops at the limit after [n] more rounds. *)
Lemma seed_months_run (n a fuel : nat) (i0 j : Z) :
  (n <= fuel)%nat ->
  i0 + Z.of_nat a + Z.of_nat n = j ->
  seed_months fuel (month_of_index (i0 + Z.of_nat a)) (month_of_index j)
    (months_from i0 a) (map (fun d => (d, 0)) (months_from i0 a))
  = Some (months_from i0 (a + n),
          map (fun d => (d, 0)) (months_from i0 (a + n))).
Proof.
  revert a fuel. induction n as [|n IH]; intros a fuel Hfuel Hj.
  - replace (a + 0)%nat with a by lia.
    destruct fuel; cbn [seed_months]; rewrite month_of_index_ltb;
      (destruct (Z.ltb_spec (i0 + Z.of_nat a) j); [lia | reflexivity]).
  - destruct fuel as [|fuel]; [lia|]. cbn [seed_months].
    rewrite month_of_index_ltb.
    destruct (Z.ltb_spec (i0 + Z.of_nat a) j); [|lia].
    rewrite radd_months.
    pose proof (months_from_fresh i0 a) as Hfresh.
    unfold set_add.
    apply date_in_false in Hfresh as Hin. rewrite Hin.
    rewrite dict_set_fresh
      by (rewrite map_map; cbn [fst]; now rewrite map_id).
    replace (i0 + Z.of_nat a + 1) with (i0 + Z.of_nat (S a)) by lia.
    replace (months_from i0 a ++ [month_of_index (i0 + Z.of_nat a)])
      with (months_from i0 (S a)) by apply months_from_S.
    replace (map (fun d => (d, 0)) (months_from i0 a)
             ++ [(month_of_index (i0 + Z.of_nat a), 0)])
      with (map (fun d : date => (d, 0)) (months_from i0 (S a)))
      by (rewrite months_from_S, map_app; reflexivity).
    rewrite IH by lia.
    replace (S a + n)%nat with (a + S n)%nat by lia. reflexivity.
Qed.

Lemma seed_months_all (n fuel : nat) (i : Z) :
  (n <= fuel)%nat ->
  seed_months fuel (month_of_index i) (month_of_index (i + Z.of_nat n)) [] []
  = Some (months_from i n, map (fun d => (d, 0)) (months_from i n)).
Proof.
  intros Hfuel.
  pose proof (seed_months_run n 0 fuel i (i + Z.of_nat n) Hfuel) as H.
  change (months_from i 0) with (@nil date) in H.
  change (Z.of_nat 0) with 0 in H. rewrite Z.add_0_r in H.
  apply H. lia.
Qed.

Lemma dict_get_seeded (k : date) (l : list date) :
  dict_get k (map (fun d => (d, 0)) l) = 0.
Proof.
  induction l as [|d l IH]; cbn; [reflexivity|].
  now destruct (date_eqb d k).
Qed.

(** The dictionary that [calculate_monthly_trend] returns: the months of
    the window in order, each with the number of completions of that
    month that lie between the first day of the window and today. *)
Lemma monthly_trend_entries_unbounded (fuel : nat) (t : Tracker)
    (today : date) (habit_name : string) (num_months : Z) (h : Habit) :
  get_habit t habit_name = Some h ->
  valid_date today = true ->
  0 <= num_months ->
  (Z.to_nat num_months + 1 <= fuel)%nat ->
  let first := month_index today - num_months in
  calculate_monthly_trend fuel t today habit_name num_months
  = Some (map (fun k =>
                 (k, hits (in_window (month_of_index first) today) month_start
                          (get_completion_history t habit_name) k))
              (months_from first (Z.to_nat num_months + 1))).
Proof.
  intros Hget Hvalid Hn Hfuel first.
  unfold calculate_monthly_trend. rewrite Hget.
  set (history := get_completion_history t habit_name).
  destruct (valid_date_fields _ Hvalid) as [Hm _].
  replace (mkdate (year today) (month today) 1)
    with (month_of_index (month_index today))
    by (unfold month_index; now apply month_of_index_fields).
  rewrite rsub_months, radd_months. fold first.
  replace (month_index today + 1)
    with (first + Z.of_nat (Z.to_nat num_months + 1)) by (subst first; lia).
  rewrite seed_months_all by exact Hfuel.
  set (n := (Z.to_nat num_months + 1)%nat).
  set (keys := months_from first n).
  set (start := month_of_index first).
  set (p := fun c => in_window start today c
                     && date_in (month_start c) keys).
  rewrite (fold_left_step_ext _ _ _ (count_step p month_start)).
  2:{ intros d c. unfold count_step, p, in_window, month_start.
      destruct (date_leb start c && date_leb c today); cbn [andb];
        reflexivity. }
  set (trend := fold_left (count_step p month_start) history
                          (map (fun d => (d, 0)) keys)).
  assert (Hkeys : map fst trend = keys).
  { subst trend. rewrite fold_count_keys_present.
    - rewrite map_map. cbn [fst]. apply map_id.
    - intros c _ Hp. rewrite map_map. cbn [fst]. rewrite map_id.
      apply date_in_In. unfold p in Hp.
      now apply andb_true_iff in Hp as [_ Hp]. }
  assert (Hnd : NoDup (map fst trend))
    by (rewrite Hkeys; apply months_from_NoDup).
  rewrite sorted_ascending
    by (rewrite Hkeys; apply months_from_ascending).
  rewrite dict_of_items_NoDup by exact Hnd.
  rewrite (dict_entries trend Hnd), Hkeys. f_equal.
  apply map_ext_in. intros k Hk. f_equal.
  subst trend. rewrite fold_count_get, dict_get_seeded. cbn [Z.add].
  unfold hits. do 2 f_equal. apply filter_ext. intros c.
  unfold p. destruct (date_eqb (month_start c) k) eqn:E.
  - apply date_eqb_eq in E. rewrite E.
    apply date_in_In in Hk. rewrite Hk. now rewrite andb_true_r.
  - now rewrite !andb_false_r.
Qed.

(** The entries of the monthly trend on the unbounded calendar. *)
Lemma monthly_trend_unbounded (fuel : nat) (t : Tracker)
    (today : date) (habit_name : string) (num_months : Z) (h : Habit) :
  get_habit t habit_name = Some h ->
  valid_date today = true ->
  0 <= num_months ->
  (Z.to_nat num_months + 1 <= fuel)%nat ->
  let history := get_completion_history t habit_name in
  let first := month_index today - num_months in
  let start := month_of_index first in
  exists trend,
    calculate_monthly_trend fuel t today habit_name num_months = Some trend
    /\ List.length trend = (Z.to_nat num_months + 1)%nat
    /\ map fst trend = months_from first (Z.to_nat num_months + 1)
    /\ ascending (map fst trend)
    /\ In (month_start today) (map fst trend)
    /\ (forall k v, In (k, v) trend ->
        day k = 1
        /\ v = hits (in_window start today) month_start history k)
    /\ ((forall c, In c history -> in_window start today c = false) ->
        forall k v, In (k, v) trend -> v = 0).
Proof.
  intros Hget Hvalid Hn Hfuel history first start.
  eexists. split.
  { apply (monthly_trend_entries_unbounded _ _ _ _ _ _ Hget Hvalid Hn Hfuel). }
  fold first start history.
  set (n := (Z.to_nat num_months + 1)%nat).
  assert (Hkeys : map fst
            (map (fun k => (k, hits (in_window start today) month_start
                                    history k)) (months_from first n))
          = months_from first n).
  { rewrite map_map. cbn [fst]. apply map_id. }
  assert (Hval : forall k v,
            In (k, v)
               (map (fun k => (k, hits (in_window start today) month_start
                                       history k)) (months_from first n)) ->
            In k (months_from first n)
            /\ v = hits (in_window start today) month_start history k).
  { intros k v Hin. apply in_map_iff in Hin as [k' [E Hk']].
    injection E as <- <-. auto. }
  split; [|split; [|split; [|split; [|split]]]].
  - now rewrite length_map, months_from_length.
  - exact Hkeys.
  - rewrite Hkeys. apply months_from_ascending.
  - rewrite Hkeys. apply months_from_In. exists num_months. split.
    + destruct (valid_date_fields _ Hvalid) as [Hm _].
      unfold month_start. subst first.
      replace (month_index today - num_months + num_months)
        with (month_index today) by lia.
      unfold month_index. symmetry. now apply month_of_index_fields.
    + subst n. lia.
  - intros k v Hin. destruct (Hval k v Hin) as [Hk Hv]. split; [|exact Hv].
    apply months_from_In in Hk as [i [-> _]]. reflexivity.
  - intros Hnone k v Hin. destruct (Hval k v Hin) as [_ ->].
    unfold hits.
    replace (filter _ history) with (@nil date); [reflexivity|].
    symmetry. clear -Hnone. induction history as [|c l IH]; [reflexivity|].
    cbn [filter]. rewrite (Hnone c) by (cbn; auto). cbn [andb].
    apply IH. intros c' Hc'. apply Hnone. cbn. auto.
Qed.

End MonthlyTrend.

(* ================================================================== *)
(** * The weekly trend on the unbounded calendar *)
(* ================================================================== *)

Section WeeklyTrend.
Import Datetime HabitPy TrackerPy AnalysePy Props Unbounded.

Lemma week_start_monday (c : date) : weekday (week_start c) = 0.
Proof.
  unfold week_start, weekday, date_sub, date_add, timedelta_days.
  rewrite toordinal_fromordinal.
  Z.div_mod_to_equations. lia.
Qed.

Lemma weekly_trend_fold_unbounded (t : Tracker) (today : date)
    (habit_name : string) (num_weeks : Z) (h : Habit) :
  get_habit t habit_name = Some h ->
  calculate_weekly_trend t today habit_name num_weeks
  = fold_left
      (count_step
         (in_window (date_sub today (timedelta_weeks num_weeks)) today)
         week_start)
      (get_completion_history t habit_name) [].
Proof.
  intros Hget. unfold calculate_weekly_trend. rewrite Hget.
  apply fold_left_step_ext. intros d c.
  unfold count_step, in_window, week_start. reflexivity.
Qed.

(** The buckets of the weekly trend on the unbounded calendar. *)
Lemma weekly_trend_buckets_unbounded (t : Tracker) (today : date)
    (habit_name : string) (num_weeks : Z) (h : Habit) :
  get_habit t habit_name = Some h ->
  let history := get_completion_history t habit_name in
  let start := date_sub today (timedelta_weeks num_weeks) in
  let trend := calculate_weekly_trend t today habit_name num_weeks in
  NoDup (map fst trend)
  /\ (forall k, In k (map fst trend)
                <-> exists c, In c history
                              /\ in_window start today c = true
                              /\ week_start c = k)
  /\ (forall k v, In (k, v) trend ->
      weekday k = 0
      /\ v = hits (in_window start today) week_start history k
      /\ 1 <= v).
Proof.
  intros Hget history start trend. subst trend.
  rewrite (weekly_trend_fold_unbounded _ _ _ _ _ Hget).
  fold history start.
  set (trend := fold_left (count_step (in_window start today) week_start)
                          history []).
  assert (Hnd : NoDup (map fst trend))
    by (apply fold_count_NoDup; constructor).
  assert (Hkeys : forall k, In k (map fst trend)
                  <-> exists c, In c history
                                /\ in_window start today c = true
                                /\ week_start c = k).
  { intros k. subst trend. rewrite fold_count_keys. cbn [map In]. tauto. }
  split; [exact Hnd|]. split; [exact Hkeys|].
  intros k v Hin.
  assert (Hk : In k (map fst trend))
    by (apply in_map_iff; exists (k, v); auto).
  rewrite (dict_entries trend Hnd) in Hin.
  apply in_map_iff in Hin as [k' [E _]]. injection E as -> <-.
  assert (Hv : dict_get k trend
               = hits (in_window start today) week_start history k)
    by (subst trend; rewrite fold_count_get; reflexivity).
  apply Hkeys in Hk as [c [Hc [Hw Hb]]].
  split; [rewrite <- Hb; apply week_start_monday|].
  split; [exact Hv|]. rewrite Hv. unfold hits.
  assert (Hf : In c (filter (fun c => in_window start today c
                                      && date_eqb (week_start c) k) history)).
  { apply filter_In. split; [exact Hc|].
    rewrite Hw, Hb. apply date_eqb_refl. }
  destruct (filter _ history); [destruct Hf | cbn [List.length]; lia].
Qed.

End WeeklyTrend.

(* ================================================================== *)
(** * The order of an index on dates *)
(* ================================================================== *)

Section IndexOrder.
Import Datetime TrackerPy Props.

Lemma date_ltb_irrefl (a : date) : date_ltb a a = false.
Proof.
  unfold date_ltb. rewrite !Z.ltb_irrefl, !Z.eqb_refl. reflexivity.
Qed.

Lemma date_leb_refl (a : date) : date_leb a a = true.
Proof.
  unfold date_leb. rewrite date_eqb_refl. apply orb_true_r.
Qed.

Lemma date_leb_total (a b : date) :
  date_leb a b = false -> date_ltb b a = true.
Proof.
  unfold date_leb, date_ltb, date_eqb. intros H.
  apply orb_false_iff in H as [H1 H2].
  destruct (Z.ltb_spec (year a) (year b)); [discriminate|].
  destruct (Z.eqb_spec (year a) (year b)) as [Ey | Ey].
  - rewrite <- Ey, Z.ltb_irrefl, Z.eqb_refl. cbn [orb andb] in *.
    destruct (Z.ltb_spec (month a) (month b)); [discriminate|].
    destruct (Z.eqb_spec (month a) (month b)) as [Em | Em].
    + rewrite <- Em, Z.ltb_irrefl, Z.eqb_refl. cbn [orb andb] in *.
      destruct (Z.ltb_spec (day a) (day b)); [discriminate|].
      destruct (Z.eqb_spec (day a) (day b)); [discriminate|].
      apply Z.ltb_lt. lia.
    + cbn [orb andb] in *.
      replace (month b <? month a) with true
        by (symmetry; apply Z.ltb_lt; lia).
      reflexivity.
  - replace (year b <? year a) with true
      by (symmetry; apply Z.ltb_lt; lia).
    reflexivity.
Qed.

Lemma date_ltb_leb (a b : date) : date_ltb a b = true -> date_leb a b = true.
Proof. unfold date_leb. intros ->. reflexivity. Qed.

Lemma date_ltb_trans (a b c : date) :
  date_ltb a b = true -> date_ltb b c = true -> date_ltb a c = true.
Proof.
  unfold date_ltb. intros H1 H2.
  repeat match goal with
         | H : _ || _ = true |- _ => apply orb_true_iff in H as [H | H]
         | H : _ && _ = true |- _ => apply andb_true_iff in H as [? H]
         | H : (_ <? _) = true |- _ => apply Z.ltb_lt in H
         | H : (_ =? _) = true |- _ => apply Z.eqb_eq in H
         end;
    repeat match goal with
           | |- _ || _ = true => apply orb_true_iff
           | |- _ && _ = true => apply andb_true_iff
           end;
    try (left; apply Z.ltb_lt; lia);
    right; apply andb_true_iff; (split; [apply Z.eqb_eq; lia|]);
    apply orb_true_iff;
    try (left; apply Z.ltb_lt; lia);
    right; apply andb_true_iff; (split; [apply Z.eqb_eq; lia|]);
    apply Z.ltb_lt; lia.
Qed.

Lemma date_leb_trans (a b c : date) :
  date_leb a b = true -> date_leb b c = true -> date_leb a c = true.
Proof.
  unfold date_leb. intros H1 H2.
  apply orb_true_iff in H1 as [H1 | H1];
    apply orb_true_iff in H2 as [H2 | H2];
    try apply date_eqb_eq in H1; try apply date_eqb_eq in H2; subst;
    try (rewrite H1; reflexivity); try (rewrite H2; reflexivity).
  - rewrite (date_ltb_trans _ _ _ H1 H2). reflexivity.
  - rewrite date_eqb_refl. apply orb_true_r.
Qed.

Lemma insert_date_perm (x : date) (l : list date) :
  Permutation (x :: l) (insert_date x l).
Proof.
  induction l as [|y l IH]; cbn; [reflexivity|].
  destruct (date_leb x y); [reflexivity|].
  rewrite perm_swap. now apply perm_skip.
Qed.

Lemma order_by_date_perm (l : list date) : Permutation l (order_by_date l).
Proof.
  induction l as [|x l IH]; cbn; [constructor|].
  rewrite <- insert_date_perm. now apply perm_skip.
Qed.

Lemma order_by_date_In (d : date) (l : list date) :
  In d (order_by_date l) <-> In d l.
Proof.
  split; apply Permutation_in;
    [symmetry|]; apply order_by_date_perm.
Qed.

Lemma order_by_date_NoDup (l : list date) :
  NoDup l -> NoDup (order_by_date l).
Proof. apply Permutation_NoDup, order_by_date_perm. Qed.

Lemma order_by_date_length (l : list date) :
  List.length (order_by_date l) = List.length l.
Proof. symmetry. apply Permutation_length, order_by_date_perm. Qed.

Lemma insert_date_sorted (x : date) (l : list date) :
  StronglySorted (fun a b => date_leb a b = true) l ->
  StronglySorted (fun a b => date_leb a b = true) (insert_date x l).
Proof.
  induction 1 as [|y l Hl IH Hy]; cbn.
  - constructor; constructor.
  - destruct (date_leb x y) eqn:E.
    + constructor; [constructor; assumption|].
      constructor; [exact E|].
      rewrite Forall_forall in *. intros z Hz.
      apply (date_leb_trans _ y); [exact E | now apply Hy].
    + constructor; [exact IH|].
      rewrite Forall_forall in *. intros z Hz.
      apply (Permutation_in _ (Permutation_sym (insert_date_perm x l))) in Hz.
      destruct Hz as [<- | Hz]; [|now apply Hy].
      apply date_ltb_leb, date_leb_total, E.
Qed.

Lemma order_by_date_sorted (l : list date) :
  StronglySorted (fun a b => date_leb a b = true) (order_by_date l).
Proof.
  induction l as [|x l IH]; cbn; [constructor|].
  now apply insert_date_sorted.
Qed.

(** The history is the list of the rows of the habit, reordered. *)
Lemma history_In (t : Tracker) (n : string) (id : Z) (d : date) :
  _get_habit_id t n = Some id -> id <> 0 ->
  In d (get_completion_history t n) <-> In (id, d) (completions t).
Proof.
  intros Hid Hnz. unfold get_completion_history. rewrite Hid.
  apply Z.eqb_neq in Hnz. rewrite Hnz.
  rewrite order_by_date_In, in_map_iff. split.
  - intros [[i d'] [E Hin]]. cbn in E. subst d'.
    apply filter_In in Hin as [Hin Hi]. cbn in Hi.
    apply Z.eqb_eq in Hi. now subst.
  - intros Hin. exists (id, d). split; [reflexivity|].
    apply filter_In. split; [exact Hin|]. cbn. apply Z.eqb_refl.
Qed.

Lemma history_sorted (t : Tracker) (n : string) :
  StronglySorted (fun a b => date_leb a b = true)
                 (get_completion_history t n).
Proof.
  unfold get_completion_history.
  destruct (_get_habit_id t n) as [id|]; [|constructor].
  destruct (id =? 0); [constructor|]. apply order_by_date_sorted.
Qed.

End IndexOrder.

(* ================================================================== *)
(** * More on the streak engine: how the operations combine *)
(* ================================================================== *)

Section StreakEngineCombined.
Import Datetime HabitPy Props Facts.

(** The two checks agree: a habit that [streak_reset] resets is one that
    [increment] accepts, a habit that [increment] refuses is one that
    [streak_reset] leaves alone, and at a gap of exactly one period
    [streak_reset] does nothing while [increment] counts the completion. *)
Theorem lapse_and_due_agree (today : date) (h : Habit) :
  (lapsed today h -> due today h)
  /\ (~ due today h -> streak_reset today h = (h, []))
  /\ (forall last, last_completed h = Some last ->
      date_diff today last = get_period_delta h ->
      streak_reset today h = (h, [])
      /\ streak (fst (increment today h)) = streak h + 1).
Proof.
  split; [|split].
  - intros [last [Hl Hlt]]. right. exists last. split; [exact Hl | lia].
  - intros Hnd. unfold streak_reset.
    destruct (last_completed h) as [last|] eqn:E; [|reflexivity].
    destruct (Z.ltb_spec (get_period_delta h) (date_diff today last));
      [|reflexivity].
    exfalso. apply Hnd. right. exists last. split; [exact E | lia].
  - intros last Hl Hgap. split.
    + unfold streak_reset. rewrite Hl, Hgap, Z.ltb_irrefl. reflexivity.
    + rewrite increment_due; [reflexivity|].
      right. exists last. split; [exact Hl | lia].
Qed.

Lemma lapse_and_due_agree_witness :
  let h := mkHabit "Plan" "weekly" 3 (Some (mkdate 2025 4 8)) 0 3 in
  let today := mkdate 2025 4 15 in
  streak_reset today h = (h, [])
  /\ streak (fst (increment today h)) = 4.
Proof.
  intros h today.
  destruct (lapse_and_due_agree today h) as [_ [_ H]].
  apply (H (mkdate 2025 4 8)); reflexivity.
Defined.

(** After a lapse, the lapse check followed by a completion starts a new
    streak of 1 and keeps the longest streak (raising it to 1 at least). *)
Theorem reset_then_increment (today : date) (h : Habit) :
  lapsed today h ->
  increment today (fst (streak_reset today h))
  = (mkHabit (name h) (periodicity h) 1 (Some today) (streak_saves h)
             (Z.max (longest_streak h) 1),
     [StreakUpdated (name h) 1 today]).
Proof.
  intros [last [Hlast Hlt]]. unfold streak_reset. rewrite Hlast.
  apply Z.ltb_lt in Hlt as Hb. rewrite Hb. cbn [fst].
  rewrite increment_due; [reflexivity|].
  right. exists last. split; [exact Hlast|].
  change (get_period_delta h <= date_diff today last). lia.
Qed.

Lemma reset_then_increment_witness :
  let h := mkHabit "Walk" "daily" 5 (Some (mkdate 2025 4 13)) 0 5 in
  let today := mkdate 2025 4 15 in
  increment today (fst (streak_reset today h))
  = (mkHabit "Walk" "daily" 1 (Some today) 0 5,
     [StreakUpdated "Walk" 1 today]).
Proof.
  intros h today. apply (reset_then_increment today h).
  exists (mkdate 2025 4 13). split; reflexivity.
Defined.

(** A streak save uses up the day: after a successful save, a completion
    on the same day is refused, and a lapse check on a later day [d]
    resets the streak exactly when [d] is more than one period after the
    day of the save: then the streak is 0, the last completion is the
    day of the save, one save is used up and the longest streak is
    kept. *)
Theorem streak_save_then_checks (today d : date) (h : Habit) :
  0 < streak_saves h ->
  let h' := fst (streak_save today h) in
  increment today h' = (h', [AlreadyCompleted (name h)])
  /\ (get_period_delta h < date_diff d today ->
      streak_reset d h'
      = (mkHabit (name h) (periodicity h) 0 (Some today)
                 (streak_saves h - 1) (longest_streak h),
         [StreakReset (name h) today]))
  /\ (date_diff d today <= get_period_delta h ->
      streak_reset d h' = (h', [])
      /\ streak h' = streak h).
Proof.
  intros Hpos h'. subst h'. unfold streak_save.
  apply Z.ltb_lt in Hpos. rewrite Hpos. cbn [fst].
  set (h' := set_last_completed (Some today) _).
  assert (Hp : get_period_delta h' = get_period_delta h) by reflexivity.
  split; [|split].
  - rewrite increment_not_due; [reflexivity|].
    intros [H | [l [H Hle]]]; [discriminate H|].
    injection H as <-. unfold date_diff in Hle.
    pose proof (get_period_delta_pos h'). lia.
  - intros Hgap. unfold streak_reset. cbn [last_completed h' set_last_completed].
    rewrite Hp. apply Z.ltb_lt in Hgap. now rewrite Hgap.
  - intros Hgap. split; [|reflexivity].
    unfold streak_reset. cbn [last_completed h' set_last_completed].
    rewrite Hp. apply Z.ltb_ge in Hgap. now rewrite Hgap.
Qed.

Lemma streak_save_then_checks_witness :
  let h := mkHabit "Read" "daily" 3 (Some (mkdate 2025 4 1)) 2 4 in
  let today := mkdate 2025 4 15 in
  increment today (fst (streak_save today h))
  = (fst (streak_save today h), [AlreadyCompleted "Read"])
  /\ streak_reset (mkdate 2025 4 17) (fst (streak_save today h))
     = (mkHabit "Read" "daily" 0 (Some today) 1 4,
        [StreakReset "Read" today]).
Proof.
  intros h today. split.
  - apply (streak_save_then_checks today today h). reflexivity.
  - destruct (streak_save_then_checks today (mkdate 2025 4 17) h)
      as [_ [H _]]; [reflexivity|].
    apply H. vm_compute. reflexivity.
Defined.

(** No operation of a habit lowers its longest streak. *)
Theorem longest_streak_monotone (today : date) (h : Habit) (p : string) :
  longest_streak h <= longest_streak (fst (increment today h))
  /\ longest_streak (fst (streak_reset today h)) = longest_streak h
  /\ longest_streak (fst (streak_save today h)) = longest_streak h
  /\ longest_streak (fst (change_periodicity h p)) = longest_streak h.
Proof.
  split; [|split; [|split]].
  - destruct (due_dec today h) as [Hd | Hd].
    + rewrite (increment_due _ _ Hd). cbn. lia.
    + rewrite (increment_not_due _ _ Hd). cbn. lia.
  - unfold streak_reset. destruct (last_completed h); [|reflexivity].
    now destruct (_ <? _).
  - unfold streak_save. now destruct (_ <? _).
  - unfold change_periodicity. now destruct (str_in _ _).
Qed.

(** The counters stay non-negative under every operation of a habit. *)
Theorem counters_stay_nonnegative (today : date) (h : Habit) (p : string) :
  nonnegative h ->
  nonnegative (fst (increment today h))
  /\ nonnegative (fst (streak_reset today h))
  /\ nonnegative (fst (streak_save today h))
  /\ nonnegative (fst (change_periodicity h p)).
Proof.
  unfold nonnegative. intros [Hs [Hv Hl]].
  split; [|split; [|split]].
  - destruct (due_dec today h) as [Hd | Hd].
    + rewrite (increment_due _ _ Hd). cbn. lia.
    + rewrite (increment_not_due _ _ Hd). cbn. lia.
  - unfold streak_reset. destruct (last_completed h); [|cbn; lia].
    destruct (_ <? _); cbn; lia.
  - unfold streak_save. destruct (Z.ltb_spec 0 (streak_saves h)); cbn; lia.
  - unfold change_periodicity. destruct (str_in _ _); cbn; lia.
Qed.

Lemma counters_stay_nonnegative_witness :
  let h := mkHabit "Read" "daily" 3 (Some (mkdate 2025 4 1)) 1 4 in
  nonnegative (fst (streak_save (mkdate 2025 4 15) h)).
Proof.
  intros h.
  apply (counters_stay_nonnegative (mkdate 2025 4 15) h "daily").
  unfold nonnegative. cbn. lia.
Defined.

End StreakEngineCombined.

(* ================================================================== *)
(** * Looking up rows after the tables change *)
(* ================================================================== *)

Section Lookups.
Import Datetime HabitPy TrackerPy Props TrackerOps Facts.

Lemma get_habit_name (t : Tracker) (n : string) (h : Habit) :
  get_habit t n = Some h -> name h = n.
Proof.
  unfold get_habit. destruct (find _ _) as [row|] eqn:E; [|discriminate].
  intros H. injection H as <-. apply find_some in E as [_ E].
  now apply String.eqb_eq.
Qed.

Lemma get_habit_id_some (t : Tracker) (n : string) (h : Habit) :
  get_habit t n = Some h -> exists id, _get_habit_id t n = Some id
                                       /\ In (id, h) (habits t).
Proof.
  unfold get_habit, _get_habit_id.
  destruct (find _ _) as [[id h']|] eqn:E; [|discriminate].
  intros H. injection H as <-. exists id. split; [reflexivity|].
  now apply find_some in E as [E _].
Qed.

Lemma get_habit_none (t : Tracker) (n : string) :
  get_habit t n = None <-> existsb (has_name n) (habits t) = false.
Proof.
  unfold get_habit. induction (habits t) as [|row rows IH]; cbn.
  - tauto.
  - destruct (has_name n row); cbn; [split; discriminate | exact IH].
Qed.

Lemma get_habit_id_none (t : Tracker) (n : string) :
  get_habit t n = None <-> _get_habit_id t n = None.
Proof.
  unfold get_habit, _get_habit_id. now destruct (find _ _).
Qed.

(** An UPDATE that keeps the names: the row found under a name is the
    updated row found before. *)
Lemma find_sql_update (n m : string) (f : Habit -> Habit)
    (rows : list (Z * Habit)) :
  (forall r, name (f r) = name r) ->
  find (has_name m)
       (map (fun row => if has_name n row then (fst row, f (snd row)) else row)
            rows)
  = option_map
      (fun row => if has_name n row then (fst row, f (snd row)) else row)
      (find (has_name m) rows).
Proof.
  intros Hf. induction rows as [|row rows IH]; cbn; [reflexivity|].
  assert (E : has_name m (if has_name n row then (fst row, f (snd row))
                          else row) = has_name m row).
  { destruct (has_name n row); [|reflexivity].
    unfold has_name. cbn. now rewrite Hf. }
  rewrite E. destruct (has_name m row); [reflexivity | exact IH].
Qed.

Lemma get_habit_sql_update (t : Tracker) (n m : string)
    (f : Habit -> Habit) :
  (forall r, name (f r) = name r) ->
  get_habit (sql_update n f t) m
  = option_map (fun h => if String.eqb (name h) n then f h else h)
               (get_habit t m).
Proof.
  intros Hf. unfold get_habit, sql_update. cbn [habits].
  rewrite find_sql_update by exact Hf.
  destruct (find (has_name m) (habits t)) as [row|]; [|reflexivity].
  cbn. unfold has_name. now destruct (String.eqb (name (snd row)) n).
Qed.

Lemma get_habit_id_sql_update (t : Tracker) (n m : string)
    (f : Habit -> Habit) :
  (forall r, name (f r) = name r) ->
  _get_habit_id (sql_update n f t) m = _get_habit_id t m.
Proof.
  intros Hf. unfold _get_habit_id, sql_update. cbn [habits].
  rewrite find_sql_update by exact Hf.
  destruct (find (has_name m) (habits t)) as [row|]; [|reflexivity].
  cbn. now destruct (has_name n row).
Qed.

Lemma history_same_tables (t t' : Tracker) (n m : string) :
  _get_habit_id t' m = _get_habit_id t n ->
  completions t' = completions t ->
  get_completion_history t' m = get_completion_history t n.
Proof.
  unfold get_completion_history. now intros -> ->.
Qed.

(** The four columns that [update_habit] writes. *)
Lemma update_habit_get (t : Tracker) (h : Habit) (m : string) :
  get_habit (fst (update_habit t h)) m
  = option_map
      (fun r => if String.eqb (name r) (name h)
                then mkHabit (name r) (periodicity r) (streak h)
                             (last_completed h) (streak_saves h)
                             (longest_streak h)
                else r)
      (get_habit t m).
Proof.
  unfold update_habit. cbn [fst].
  now rewrite get_habit_sql_update by reflexivity.
Qed.

Lemma increment_frame (today : date) (h : Habit) :
  name (fst (increment today h)) = name h
  /\ periodicity (fst (increment today h)) = periodicity h
  /\ streak_saves (fst (increment today h)) = streak_saves h.
Proof.
  destruct (due_dec today h) as [Hd | Hd].
  - now rewrite (increment_due _ _ Hd).
  - now rewrite (increment_not_due _ _ Hd).
Qed.

Lemma increment_again (today : date) (h : Habit) :
  increment today (fst (increment today h))
  = (fst (increment today h), [AlreadyCompleted (name h)]).
Proof.
  destruct (increment_frame today h) as [Hn _].
  rewrite <- Hn. apply increment_not_due.
  destruct (due_dec today h) as [Hd | Hd].
  - rewrite (increment_due _ _ Hd). cbn [fst].
    intros [H | [l [H Hle]]]; [discriminate H|].
    cbn in H. injection H as <-. unfold date_diff in Hle.
    match type of Hle with
    | get_period_delta ?x <= _ => pose proof (get_period_delta_pos x)
    end. lia.
  - now rewrite (increment_not_due _ _ Hd).
Qed.

Lemma habit_eta (h : Habit) :
  mkHabit (name h) (periodicity h) (streak h) (last_completed h)
          (streak_saves h) (longest_streak h) = h.
Proof. now destruct h. Qed.

End Lookups.

(* ================================================================== *)
(** * Recording a completion *)
(* ================================================================== *)

Section RecordCompletion.
Import Datetime HabitPy TrackerPy Props TrackerOps Facts.

(** The tables that [record_completion] leaves for a habit that exists. *)
Lemma record_completion_tables (t : Tracker) (today : date) (n : string)
    (h : Habit) (id : Z) :
  get_habit t n = Some h ->
  _get_habit_id t n = Some id ->
  let t1 := fst (update_habit t (fst (increment today h))) in
  fst (record_completion t today n)
  = if (id =? 0) || existsb (logged id today) (completions t) then t1
    else mkTracker (habits t1) (completions t ++ [(id, today)]).
Proof.
  intros Hget Hid t1. subst t1. unfold record_completion. rewrite Hget.
  destruct (increment today h) as [h1 out1]. cbn [fst].
  unfold update_habit. cbn [fst].
  rewrite get_habit_id_sql_update, Hid by reflexivity.
  destruct (id =? 0); [reflexivity|]. cbn [orb].
  cbn [completions sql_update].
  now destruct (existsb (logged id today) (completions t)).
Qed.

Lemma record_completion_habits (t : Tracker) (today : date) (n : string)
    (h : Habit) :
  get_habit t n = Some h ->
  habits (fst (record_completion t today n))
  = habits (fst (update_habit t (fst (increment today h)))).
Proof.
  intros Hget. destruct (get_habit_id_some _ _ _ Hget) as [id [Hid _]].
  rewrite (record_completion_tables _ _ _ _ _ Hget Hid).
  now destruct (_ || _).
Qed.

Lemma get_habit_same_rows (t t' : Tracker) (m : string) :
  habits t' = habits t -> get_habit t' m = get_habit t m.
Proof. unfold get_habit. now intros ->. Qed.

Lemma get_habit_id_same_rows (t t' : Tracker) (m : string) :
  habits t' = habits t -> _get_habit_id t' m = _get_habit_id t m.
Proof. unfold _get_habit_id. now intros ->. Qed.

Lemma record_completion_lookup (t : Tracker) (today : date) (n m : string)
    (h : Habit) :
  get_habit t n = Some h ->
  get_habit (fst (record_completion t today n)) m
  = get_habit (fst (update_habit t (fst (increment today h)))) m.
Proof.
  intros Hget. apply get_habit_same_rows.
  now apply record_completion_habits.
Qed.

Lemma record_completion_get (t : Tracker) (today : date) (n : string)
    (h : Habit) :
  get_habit t n = Some h ->
  get_habit (fst (record_completion t today n)) n
  = Some (fst (increment today h)).
Proof.
  intros Hget.
  destruct (increment_frame today h) as [Hn [Hp Hs]].
  rewrite (record_completion_lookup _ _ _ _ _ Hget), update_habit_get, Hget.
  cbn [option_map].
  rewrite Hn, String.eqb_refl, <- Hn, <- Hp. now rewrite habit_eta.
Qed.

(** [record_completion] stores for the habit exactly what [increment]
    computes, and touches no other habit.  It never runs the lapse
    check: recording after a lapse continues the old streak. *)
Theorem record_completion_stores_increment (t : Tracker) (today : date)
    (n : string) (h : Habit) :
  get_habit t n = Some h ->
  let t' := fst (record_completion t today n) in
  get_habit t' n = Some (fst (increment today h))
  /\ (forall m, m <> n -> get_habit t' m = get_habit t m)
  /\ (lapsed today h ->
      exists h', get_habit t' n = Some h' /\ streak h' = streak h + 1).
Proof.
  intros Hget t'. subst t'.
  pose proof (get_habit_name _ _ _ Hget) as Hname.
  destruct (increment_frame today h) as [Hn _].
  pose proof (record_completion_get t today n h Hget) as Hsame.
  split; [exact Hsame|]. split.
  - intros m Hm.
    rewrite (record_completion_lookup _ _ _ _ _ Hget), update_habit_get.
    destruct (get_habit t m) as [r|] eqn:E; [|reflexivity].
    cbn [option_map]. apply get_habit_name in E.
    rewrite Hn, E, Hname.
    destruct (String.eqb_spec m n); [contradiction | reflexivity].
  - intros Hl. eexists. split; [exact Hsame|].
    rewrite increment_due; [reflexivity|].
    destruct Hl as [last [Hlast Hlt]]. right. exists last.
    split; [exact Hlast | lia].
Qed.

Lemma record_completion_stores_increment_witness :
  let h := mkHabit "Walk" "daily" 5 (Some (mkdate 2025 4 1)) 0 5 in
  let t := mkTracker [(1, h)] [] in
  get_habit (fst (record_completion t (mkdate 2025 4 15) "Walk")) "Walk"
  = Some (mkHabit "Walk" "daily" 6 (Some (mkdate 2025 4 15)) 0 6).
Proof.
  intros h t.
  apply (record_completion_stores_increment t (mkdate 2025 4 15) "Walk" h).
  reflexivity.
Defined.

Lemma existsb_logged_app (id : Z) (d : date) (l : list (Z * date)) :
  existsb (logged id d) (l ++ [(id, d)]) = true.
Proof.
  rewrite existsb_app. cbn. unfold logged. cbn.
  now rewrite Z.eqb_refl, date_eqb_refl, !orb_true_r.
Qed.

(** Recording twice on the same day: the second call changes nothing in
    either table. *)
Theorem record_completion_idempotent (t : Tracker) (today : date)
    (n : string) :
  let t1 := fst (record_completion t today n) in
  fst (record_completion t1 today n) = t1.
Proof.
  intros t1. subst t1.
  destruct (get_habit t n) as [h|] eqn:Hget.
  2:{ unfold record_completion. rewrite Hget. cbn [fst].
      now rewrite Hget. }
  destruct (get_habit_id_some _ _ _ Hget) as [id [Hid _]].
  pose proof (record_completion_get t today n h Hget) as Hget1.
  set (t1 := fst (record_completion t today n)) in *.
  set (h1 := fst (increment today h)) in *.
  assert (Hrows1 : habits t1 = habits (fst (update_habit t h1)))
    by (apply record_completion_habits; exact Hget).
  assert (Hid1 : _get_habit_id t1 n = Some id).
  { rewrite (get_habit_id_same_rows _ _ _ Hrows1).
    unfold update_habit. cbn [fst].
    now rewrite get_habit_id_sql_update by reflexivity. }
  rewrite (record_completion_tables _ _ _ _ _ Hget1 Hid1).
  assert (Hinc : fst (increment today h1) = h1)
    by (subst h1; now rewrite increment_again).
  rewrite Hinc.
  assert (Hupd : fst (update_habit t1 h1) = t1).
  { unfold update_habit. cbn [fst]. unfold sql_update.
    destruct t1 as [rows1 comps1]. cbn [habits completions] in *.
    f_equal. rewrite Hrows1. unfold update_habit. cbn [fst sql_update habits].
    rewrite map_map. apply map_ext. intros row.
    destruct (has_name (name h1) row) eqn:E; cbn [fst snd].
    - unfold has_name in *.
      cbn [snd name set_longest_streak set_streak_saves set_last_completed
           set_streak].
      rewrite E. reflexivity.
    - rewrite E. reflexivity. }
  rewrite Hupd.
  assert (Hlogged : (id =? 0) || existsb (logged id today) (completions t1)
                    = true).
  { subst t1. rewrite (record_completion_tables _ _ _ _ _ Hget Hid).
    destruct (id =? 0); [reflexivity|]. cbn [orb].
    destruct (existsb (logged id today) (completions t)) eqn:E.
    - unfold update_habit. cbn. exact E.
    - cbn [completions]. apply existsb_logged_app. }
  now rewrite Hlogged.
Qed.

Lemma record_completion_ids (t : Tracker) (today : date) (n m : string)
    (h : Habit) :
  get_habit t n = Some h ->
  _get_habit_id (fst (record_completion t today n)) m = _get_habit_id t m.
Proof.
  intros Hget.
  rewrite (get_habit_id_same_rows _ _ _
             (record_completion_habits _ today _ _ Hget)).
  unfold update_habit. cbn [fst].
  now rewrite get_habit_id_sql_update by reflexivity.
Qed.

Lemma record_completion_completions (t : Tracker) (today : date)
    (n : string) (h : Habit) (id : Z) :
  get_habit t n = Some h -> _get_habit_id t n = Some id -> id <> 0 ->
  completions (fst (record_completion t today n))
  = if existsb (logged id today) (completions t) then completions t
    else completions t ++ [(id, today)].
Proof.
  intros Hget Hid Hnz.
  rewrite (record_completion_tables _ _ _ _ _ Hget Hid).
  apply Z.eqb_neq in Hnz. rewrite Hnz. cbn [orb].
  now destruct (existsb _ _).
Qed.

Lemma record_completion_history (t : Tracker) (today : date) (n : string)
    (h : Habit) (id : Z) (d : date) :
  get_habit t n = Some h -> _get_habit_id t n = Some id -> id <> 0 ->
  In d (get_completion_history (fst (record_completion t today n)) n)
  <-> d = today \/ In d (get_completion_history t n).
Proof.
  intros Hget Hid Hnz.
  assert (Hid' : _get_habit_id (fst (record_completion t today n)) n
                 = Some id)
    by now rewrite (record_completion_ids _ _ _ _ _ Hget).
  rewrite (history_In _ _ _ _ Hid' Hnz), (history_In _ _ _ _ Hid Hnz).
  rewrite (record_completion_completions _ _ _ _ _ Hget Hid Hnz).
  destruct (existsb (logged id today) (completions t)) eqn:E.
  - split; [auto|]. intros [-> | H]; [|exact H].
    apply existsb_exists in E as [[i d] [Hin Hl]].
    unfold logged in Hl. cbn in Hl.
    apply andb_true_iff in Hl as [Hi Hd].
    apply Z.eqb_eq in Hi. apply date_eqb_eq in Hd. now subst.
  - rewrite in_app_iff. cbn. split.
    + intros [H | [H | []]]; [now right|]. injection H as <-. now left.
    + intros [-> | H]; auto.
Qed.

(** For a habit that exists (row ids are not 0), [record_completion]
    leaves today in its completion history, whether or not the streak
    was incremented; it adds nothing else, removes nothing, and leaves
    the history of a habit with another id alone. *)
Theorem record_completion_logs_today (t : Tracker) (today : date)
    (n : string) (h : Habit) (id : Z) :
  get_habit t n = Some h ->
  _get_habit_id t n = Some id ->
  id <> 0 ->
  let t' := fst (record_completion t today n) in
  In today (get_completion_history t' n)
  /\ (forall d, In d (get_completion_history t' n)
                <-> d = today \/ In d (get_completion_history t n))
  /\ (forall m id', _get_habit_id t m = Some id' -> id' <> id ->
      get_completion_history t' m = get_completion_history t m).
Proof.
  intros Hget Hid Hnz t'. subst t'.
  split; [apply (record_completion_history _ _ _ _ _ _ Hget Hid Hnz);
          now left|].
  split; [intros d; now apply (record_completion_history _ _ _ h id)|].
  intros m id' Hm Hne. unfold get_completion_history.
  rewrite (record_completion_ids _ _ _ _ _ Hget), Hm.
  rewrite (record_completion_completions _ _ _ _ _ Hget Hid Hnz).
  destruct (id' =? 0); [reflexivity|].
  destruct (existsb _ _); [reflexivity|].
  rewrite filter_app, map_app. cbn.
  destruct (Z.eqb_spec id id'); [congruence|]. cbn.
  now rewrite app_nil_r.
Qed.

Lemma record_completion_logs_today_witness :
  let h := mkHabit "Plan" "weekly" 1 (Some (mkdate 2025 4 13)) 0 1 in
  let t := mkTracker [(1, h)] [(1, mkdate 2025 4 13)] in
  In (mkdate 2025 4 15)
     (get_completion_history
        (fst (record_completion t (mkdate 2025 4 15) "Plan")) "Plan").
Proof.
  intros h t.
  destruct (record_completion_logs_today t (mkdate 2025 4 15) "Plan" h 1)
    as [H _]; [reflexivity | reflexivity | discriminate |].
  exact H.
Defined.

End RecordCompletion.

(* ================================================================== *)
(** * The constraints of the database *)
(* ================================================================== *)

Section Constraints.
Import Datetime HabitPy TrackerPy Props TrackerOps Facts.

Lemma ids_sql_update (n : string) (f : Habit -> Habit) (t : Tracker) :
  ids (sql_update n f t) = ids t.
Proof.
  unfold ids, sql_update. cbn [habits]. rewrite map_map.
  apply map_ext. intros row. now destruct (has_name n row).
Qed.

Lemma names_sql_update (n : string) (f : Habit -> Habit) (t : Tracker) :
  (forall r, name (f r) = name r) ->
  names (sql_update n f t) = names t.
Proof.
  intros Hf. unfold names, sql_update. cbn [habits]. rewrite map_map.
  apply map_ext. intros row. destruct (has_name n row); [|reflexivity].
  cbn. apply Hf.
Qed.

Lemma names_sql_update_rename (old new : string) (t : Tracker) :
  names (sql_update old (set_name new) t)
  = map (fun m => if String.eqb m old then new else m) (names t).
Proof.
  unfold names, sql_update. cbn [habits]. rewrite !map_map.
  apply map_ext. intros row. unfold has_name.
  now destruct (String.eqb (name (snd row)) old).
Qed.

Lemma existsb_has_name (n : string) (t : Tracker) :
  existsb (has_name n) (habits t) = true <-> In n (names t).
Proof.
  unfold names. rewrite existsb_exists, in_map_iff. split.
  - intros [row [Hin H]]. exists row. split; [|exact Hin].
    now apply String.eqb_eq.
  - intros [row [H Hin]]. exists row. split; [exact Hin|].
    now apply String.eqb_eq.
Qed.

Lemma NoDup_rename (old new : string) (l : list string) :
  NoDup l -> new = old \/ ~ In new l ->
  NoDup (map (fun m => if String.eqb m old then new else m) l).
Proof.
  intros Hnd [-> | Hnew].
  - rewrite map_ext with (g := fun m => m); [now rewrite map_id|].
    intros m. destruct (String.eqb_spec m old); congruence.
  - induction Hnd as [|a l Ha Hnd IH]; cbn; constructor.
    + rewrite in_map_iff. intros [m [Hm Hin]]. revert Hm.
      destruct (String.eqb_spec a old) as [Ea | Ea];
        destruct (String.eqb_spec m old) as [Em | Em]; intros Hm.
      * apply Ha. congruence.
      * apply Hnew. right. congruence.
      * apply Hnew. left. congruence.
      * apply Ha. congruence.
    + apply IH. intros H. apply Hnew. now right.
Qed.

Lemma NoDup_column_filter {Row Col : Type} (col : Row -> Col)
    (keep : Row -> bool) (rows : list Row)
    (Hnd : NoDup (map col rows)) :
  NoDup (map col (filter keep rows)).
Proof.
  induction rows as [|r rows IH]; cbn in *; [constructor|].
  inversion Hnd as [|? ? Hr Hrows]; subst.
  destruct (keep r); cbn; [constructor|]; auto.
  intros Hin. apply Hr. apply in_map_iff in Hin as [x [E Hx]].
  apply in_map_iff. exists x. split; [exact E|].
  now apply filter_In in Hx as [Hx _].
Qed.

Lemma max_id_bound (s : Z) (l : list Z) :
  s <= fold_right Z.max s l
  /\ Forall (fun id => id <= fold_right Z.max s l) l.
Proof.
  induction l as [|a l [IH1 IH2]]; cbn.
  - split; [lia | constructor].
  - split; [lia|]. constructor; [lia|].
    eapply Forall_impl; [|exact IH2]. cbn. intros. lia.
Qed.

(** Every branch of [edit_habit] leaves the ids and the completions as
    they were and the names pairwise distinct. *)
Lemma edit_habit_schema (t : Tracker) (n : string) (nn np : option string)
    (nl : pyarg) :
  NoDup (names t) ->
  let t' := fst (fst (edit_habit t n nn np nl)) in
  NoDup (names t') /\ ids t' = ids t /\ completions t' = completions t.
Proof.
  intros Hnd t'. subst t'.
  unfold edit_habit, _save_habit, update_habit.
  destruct (get_habit t n) as [h|] eqn:Hget; [|cbn; auto].
  destruct (truthy nn && rename_conflicts t n (arg nn)) eqn:Ec; [cbn; auto|].
  assert (Hren : truthy nn = true ->
            NoDup (names (sql_update n (set_name (arg nn)) t))).
  { intros Ht. rewrite Ht in Ec. cbn [andb] in Ec.
    rewrite names_sql_update_rename. apply NoDup_rename; [exact Hnd|].
    unfold rename_conflicts in Ec.
    destruct (String.eqb_spec n (arg nn)) as [E | E]; [now left|].
    cbn [negb andb] in Ec. right. intros Hin.
    apply existsb_has_name in Hin. congruence. }
  destruct (truthy nn);
    destruct (truthy np && str_in (arg np) PERIODICITIES);
    try destruct (truthy np);
    destruct nl as [|z|]; try destruct (0 <=? z);
    try destruct (z <=? SQLITE_MAX_INTEGER);
    cbn [fst snd app name set_longest_streak set_name set_periodicity];
    rewrite ?ids_sql_update; cbn [completions sql_update];
    (split; [|split; reflexivity]);
    rewrite ?names_sql_update by reflexivity;
    auto.
Qed.

Lemma consistent_create (db : Db) (n p : string) :
  consistent db ->
  consistent (fst (fst (create_habit db n p))).
Proof.
  intros [Hnames [Hids [Hcomp [Hseq [Hbound Hrefs]]]]].
  unfold create_habit.
  destruct (existsb (has_name n) (habits (tables db))) eqn:E.
  + cbn [fst]. repeat split; assumption.
  + cbn [fst].
    destruct (max_id_bound (habits_seq db) (ids (tables db)))
      as [Hs Hall].
    unfold consistent, next_rowid, names, ids in *.
    cbn [tables habits completions habits_seq].
    rewrite !map_app. cbn [map fst snd name].
    set (mx := fold_right Z.max (habits_seq db)
                 (map fst (habits (tables db)))) in *.
    clearbody mx.
    split; [|split; [|split; [|split; [|split]]]].
    * apply NoDup_Add with (a := n)
        (l := map (fun row => name (snd row)) (habits (tables db))).
      -- rewrite <- (app_nil_r (map _ (habits (tables db)))) at 1.
         apply Add_app.
      -- split; [exact Hnames|]. intros Hin.
         apply (existsb_has_name n (tables db)) in Hin. congruence.
    * apply NoDup_Add with (a := 1 + mx)
        (l := map fst (habits (tables db))).
      -- rewrite <- (app_nil_r (map fst (habits (tables db)))) at 1.
         apply Add_app.
      -- split; [exact Hids|]. intros Hin.
         rewrite Forall_forall in Hall. apply Hall in Hin. lia.
    * exact Hcomp.
    * lia.
    * apply Forall_app. split.
      -- eapply Forall_impl; [|exact Hbound]. cbv beta. intros. lia.
      -- constructor; [lia | constructor].
    * eapply Forall_impl; [|exact Hrefs]. cbv beta. intros. lia.
Qed.

Lemma consistent_delete (db : Db) (n : string) :
  consistent db ->
  consistent (with_tables db (fst (delete_habit (tables db) n))).
Proof.
  intros [Hnames [Hids [Hcomp [Hseq [Hbound Hrefs]]]]].
  unfold delete_habit, with_tables, consistent, names, ids in *.
  destruct (0 <? _); cbn [fst tables habits completions habits_seq];
    (split; [now apply NoDup_column_filter|]);
    (split; [now apply NoDup_column_filter|]);
    (split; [exact Hcomp|]); (split; [exact Hseq|]);
    (split; [|exact Hrefs]);
    rewrite Forall_forall in *; intros id Hin; apply Hbound;
    apply in_map_iff in Hin as [row [<- Hrow]];
    apply filter_In in Hrow as [Hrow _]; now apply in_map.
Qed.

Lemma consistent_edit (db : Db) (n : string) (nn np : option string)
    (nl : pyarg) :
  consistent db ->
  consistent
    (with_tables db (fst (fst (edit_habit (tables db) n nn np nl)))).
Proof.
  intros [Hnames [Hids [Hcomp [Hseq [Hbound Hrefs]]]]].
  destruct (edit_habit_schema (tables db) n nn np nl Hnames)
    as [H1 [H2 H3]].
  unfold with_tables, consistent.
  cbn [tables habits_seq]. rewrite H2, H3. repeat split; assumption.
Qed.

Lemma consistent_record (db : Db) (today : date) (n : string) :
  consistent db ->
  consistent
    (with_tables db (fst (record_completion (tables db) today n))).
Proof.
  intros [Hnames [Hids [Hcomp [Hseq [Hbound Hrefs]]]]].
  unfold with_tables, consistent. cbn [tables habits_seq].
  destruct (get_habit (tables db) n) as [h|] eqn:Hget.
  2:{ unfold record_completion. rewrite Hget. cbn [fst].
      repeat split; assumption. }
  destruct (get_habit_id_some _ _ _ Hget) as [id [Hid Hin]].
  rewrite (record_completion_tables _ _ _ _ _ Hget Hid).
  unfold update_habit. cbn [fst].
  assert (Hidb : 1 <= id <= habits_seq db).
  { rewrite Forall_forall in Hbound. apply Hbound.
    unfold ids. apply in_map_iff. now exists (id, h). }
  destruct ((id =? 0) || existsb (logged id today) _) eqn:E.
  + rewrite names_sql_update, ids_sql_update by reflexivity.
    cbn [completions sql_update]. repeat split; assumption.
  + unfold names, ids in *. cbn [habits completions].
    fold (names (sql_update (name (fst (increment today h)))
      (fun r => set_longest_streak (longest_streak (fst (increment today h)))
         (set_streak_saves (streak_saves (fst (increment today h)))
            (set_last_completed (last_completed (fst (increment today h)))
               (set_streak (streak (fst (increment today h))) r))))
      (tables db))).
    rewrite names_sql_update by reflexivity.
    fold (ids (sql_update (name (fst (increment today h)))
      (fun r => set_longest_streak (longest_streak (fst (increment today h)))
         (set_streak_saves (streak_saves (fst (increment today h)))
            (set_last_completed (last_completed (fst (increment today h)))
               (set_streak (streak (fst (increment today h))) r))))
      (tables db))).
    rewrite ids_sql_update.
    apply orb_false_iff in E as [_ E].
    split; [exact Hnames|]. split; [exact Hids|].
    split; [|split; [exact Hseq|split; [exact Hbound|]]].
    * apply NoDup_Add with (a := (id, today))
        (l := completions (tables db)).
      -- rewrite <- (app_nil_r (completions (tables db))) at 1.
         apply Add_app.
      -- split; [exact Hcomp|]. intros Hc.
         assert (existsb (logged id today) (completions (tables db))
                 = true); [|congruence].
         apply existsb_exists. exists (id, today). split; [exact Hc|].
         unfold logged. cbn. now rewrite Z.eqb_refl, date_eqb_refl.
    * apply Forall_app. split; [exact Hrefs|].
      constructor; [exact Hidb | constructor].
Qed.

(** The constraints of the schema hold in the empty database and are
    kept by creating, deleting, editing and recording. *)
Theorem constraints_preserved (db : Db) (today : date) (n p : string)
    (nn np : option string) (nl : pyarg) :
  consistent db ->
  consistent (fst (fst (create_habit db n p)))
  /\ consistent (with_tables db (fst (delete_habit (tables db) n)))
  /\ consistent
       (with_tables db (fst (fst (edit_habit (tables db) n nn np nl))))
  /\ consistent
       (with_tables db (fst (record_completion (tables db) today n))).
Proof.
  intros Hc. split; [|split; [|split]].
  - now apply consistent_create.
  - now apply consistent_delete.
  - now apply consistent_edit.
  - now apply consistent_record.
Qed.

Lemma constraints_preserved_witness :
  consistent
    (fst (fst (create_habit (mkDb (mkTracker [] []) 0) "Run" "daily"))).
Proof.
  apply (constraints_preserved (mkDb (mkTracker [] []) 0) (mkdate 2025 4 15)
           "Run" "daily" None None PyNone).
  unfold consistent. cbn.
  repeat split; try constructor; lia.
Defined.

End Constraints.

(* ================================================================== *)
(** * Creating and deleting habits *)
(* ================================================================== *)

Section CreateDelete.
Import Datetime HabitPy TrackerPy Props TrackerOps Facts.

Lemma find_app_none (A : Type) (p : A -> bool) (l l' : list A) :
  existsb p l = false -> find p (l ++ l') = find p l'.
Proof.
  induction l as [|a l IH]; cbn; [reflexivity|].
  destruct (p a); cbn; [discriminate | exact IH].
Qed.

Lemma find_app_some (A : Type) (p : A -> bool) (l l' : list A) (x : A) :
  find p l = Some x -> find p (l ++ l') = Some x.
Proof.
  induction l as [|a l IH]; cbn; [discriminate|].
  destruct (p a); [auto | exact IH].
Qed.

Lemma find_app_last (A : Type) (p : A -> bool) (l : list A) (x : A) :
  p x = false -> find p (l ++ [x]) = find p l.
Proof.
  intros Hx. induction l as [|a l IH]; cbn; [now rewrite Hx|].
  destruct (p a); [reflexivity | exact IH].
Qed.

Lemma no_rows_of_later_id (s id : Z) (l : list (Z * date)) :
  Forall (fun c => 1 <= fst c <= s) l -> s < id ->
  map snd (filter (fun c => fst c =? id) l) = [].
Proof.
  intros Hall Hid. induction Hall as [|c l Hc _ IH]; [reflexivity|].
  cbn. destruct (Z.eqb_spec (fst c) id); [lia | exact IH].
Qed.

Lemma create_habit_new (db : Db) (n p : string) :
  consistent db -> get_habit (tables db) n = None ->
  let res := create_habit db n p in
  let t' := tables (fst (fst res)) in
  snd (fst res) = Some (mkHabit n p 0 None 0 0)
  /\ snd res = [HabitCreated p n]
  /\ get_habit t' n = Some (mkHabit n p 0 None 0 0)
  /\ get_completion_history t' n = []
  /\ completions t' = completions (tables db)
  /\ (forall m, m <> n ->
      get_habit t' m = get_habit (tables db) m
      /\ get_completion_history t' m
         = get_completion_history (tables db) m).
Proof.
  intros [_ [_ [_ [Hseq [_ Hrefs]]]]] Hnone res t'. subst res t'.
  apply get_habit_none in Hnone as Hex.
  unfold create_habit. rewrite Hex. cbn [fst snd tables].
  destruct (max_id_bound (habits_seq db) (ids (tables db))) as [Hs _].
  unfold next_rowid. fold (ids (tables db)).
  set (id := 1 + fold_right Z.max (habits_seq db) (ids (tables db))).
  assert (Hid : habits_seq db < id) by (subst id; lia).
  clearbody id.
  assert (Hfind : find (has_name n)
            (habits (tables db) ++ [(id, mkHabit n p 0 None 0 0)])
          = Some (id, mkHabit n p 0 None 0 0)).
  { rewrite find_app_none by exact Hex. cbn. unfold has_name. cbn.
    now rewrite String.eqb_refl. }
  assert (Hget : get_habit
            (mkTracker (habits (tables db) ++ [(id, mkHabit n p 0 None 0 0)])
                       (completions (tables db))) n
          = Some (mkHabit n p 0 None 0 0)).
  { unfold get_habit. cbn [habits]. now rewrite Hfind. }
  split; [exact Hget|]. split; [reflexivity|]. split; [exact Hget|].
  split; [|split; [reflexivity|]].
  + unfold get_completion_history, _get_habit_id. cbn [habits completions].
    rewrite Hfind. cbn [option_map fst].
    destruct (id =? 0); [reflexivity|].
    now rewrite (no_rows_of_later_id (habits_seq db)).
  + intros m Hm.
    assert (Hother : find (has_name m)
              (habits (tables db) ++ [(id, mkHabit n p 0 None 0 0)])
            = find (has_name m) (habits (tables db))).
    { apply find_app_last. unfold has_name. cbn.
      now apply String.eqb_neq. }
    unfold get_completion_history, get_habit, _get_habit_id.
    cbn [habits completions]. now rewrite Hother.
Qed.

(** [create_habit] under a name that is free stores and returns a habit
    with streak 0, no completion, no saves and longest streak 0, whose
    completion history is empty (completions left behind by a deleted
    habit are never attached to it), and leaves every other habit and
    its history alone.  Under a name that is taken it changes nothing
    and returns the habit that is there, whatever periodicity is asked. *)
Theorem create_habit_contract (db : Db) (n p : string) :
  (consistent db -> get_habit (tables db) n = None ->
   let res := create_habit db n p in
   let t' := tables (fst (fst res)) in
   snd (fst res) = Some (mkHabit n p 0 None 0 0)
   /\ snd res = [HabitCreated p n]
   /\ get_habit t' n = Some (mkHabit n p 0 None 0 0)
   /\ get_completion_history t' n = []
   /\ completions t' = completions (tables db)
   /\ (forall m, m <> n ->
       get_habit t' m = get_habit (tables db) m
       /\ get_completion_history t' m
          = get_completion_history (tables db) m))
  /\ (forall h, get_habit (tables db) n = Some h ->
      create_habit db n p = (db, Some h, [HabitExists n])).
Proof.
  split.
  - apply create_habit_new.
  - intros h Hget. unfold create_habit.
    destruct (existsb (has_name n) (habits (tables db))) eqn:E.
    + now rewrite Hget.
    + apply get_habit_none in E. congruence.
Qed.

Lemma create_habit_contract_witness :
  let db := mkDb (mkTracker [(1, mkHabit "Run" "daily" 2 None 0 2)]
                            [(1, mkdate 2025 4 14); (3, mkdate 2025 4 1)]) 3 in
  get_completion_history (tables (fst (fst (create_habit db "Swim" "weekly")))) "Swim"
  = []
  /\ create_habit db "Run" "weekly"
     = (db, Some (mkHabit "Run" "daily" 2 None 0 2), [HabitExists "Run"]).
Proof.
  intros db.
  destruct (create_habit_contract db "Swim" "weekly") as [Hnew _].
  destruct (create_habit_contract db "Run" "weekly") as [_ Hold].
  assert (Hc : consistent db).
  { unfold consistent. cbn.
    repeat split; repeat constructor; cbn; try lia;
      try (intros [H | H]; try discriminate H; try contradiction). }
  split.
  - now destruct (Hnew Hc eq_refl) as [_ [_ [_ [H _]]]].
  - apply Hold. reflexivity.
Defined.

Lemma filter_absent (A : Type) (p : A -> bool) (l : list A) :
  existsb p l = false ->
  filter p l = [] /\ filter (fun x => negb (p x)) l = l.
Proof.
  induction l as [|a l IH]; cbn; [auto|].
  intros H. apply orb_false_iff in H as [Ha Hl].
  rewrite Ha. cbn. destruct (IH Hl) as [-> ->]. auto.
Qed.

Lemma find_filter_other (n m : string) (rows : list (Z * Habit)) :
  m <> n ->
  find (has_name m) (filter (fun row => negb (has_name n row)) rows)
  = find (has_name m) rows.
Proof.
  intros Hm. induction rows as [|row rows IH]; cbn; [reflexivity|].
  destruct (has_name n row) eqn:En; cbn.
  - destruct (has_name m row) eqn:Em; [|exact IH].
    unfold has_name in *. apply String.eqb_eq in En, Em. congruence.
  - destruct (has_name m row); [reflexivity | exact IH].
Qed.

Lemma find_filter_same (n : string) (rows : list (Z * Habit)) :
  find (has_name n) (filter (fun row => negb (has_name n row)) rows) = None.
Proof.
  induction rows as [|row rows IH]; cbn; [reflexivity|].
  destruct (has_name n row) eqn:En; cbn; [exact IH|].
  now rewrite En.
Qed.

Lemma delete_habit_tables (t : Tracker) (n : string) :
  fst (delete_habit t n)
  = mkTracker (filter (fun row => negb (has_name n row)) (habits t))
              (completions t).
Proof. unfold delete_habit. now destruct (0 <? _). Qed.

Lemma delete_habit_gone (t : Tracker) (n : string) :
  get_habit (fst (delete_habit t n)) n = None.
Proof.
  rewrite delete_habit_tables. unfold get_habit. cbn [habits].
  now rewrite find_filter_same.
Qed.

(** [delete_habit] removes the habit: afterwards its name is unknown and
    its history is empty, while every other habit and history is as
    before.  The rows of [completions] are all kept, so the completions
    of the deleted habit stay in the table.  Deleting a name that is
    unknown changes nothing and reports it. *)
Theorem delete_habit_contract (t : Tracker) (n : string) :
  let res := delete_habit t n in
  let t' := fst res in
  get_habit t' n = None
  /\ get_completion_history t' n = []
  /\ completions t' = completions t
  /\ (forall m, m <> n ->
      get_habit t' m = get_habit t m
      /\ get_completion_history t' m = get_completion_history t m)
  /\ (forall h, get_habit t n = Some h -> snd res = [HabitDeleted n])
  /\ (get_habit t n = None -> res = (t, [HabitNotFound n])).
Proof.
  intros res t'. subst res t'.
  split; [apply delete_habit_gone|].
  rewrite delete_habit_tables.
  split; [|split; [|split; [|split]]].
  - unfold get_completion_history, _get_habit_id. cbn [habits].
    now rewrite find_filter_same.
  - reflexivity.
  - intros m Hm.
    unfold get_completion_history, get_habit, _get_habit_id.
    cbn [habits completions]. now rewrite find_filter_other by exact Hm.
  - intros h Hget. unfold delete_habit.
    unfold get_habit in Hget.
    destruct (find (has_name n) (habits t)) as [row|] eqn:E; [|discriminate].
    apply find_some in E as [Hin Hrow].
    assert (Hf : In row (filter (has_name n) (habits t)))
      by (apply filter_In; auto).
    destruct (filter (has_name n) (habits t)); [destruct Hf|].
    reflexivity.
  - intros Hnone. apply get_habit_none in Hnone.
    unfold delete_habit.
    destruct (filter_absent _ (has_name n) (habits t) Hnone) as [-> ->].
    cbn. now destruct t.
Qed.

Lemma delete_habit_contract_witness :
  let t := mkTracker [(1, mkHabit "Run" "daily" 2 None 0 2)]
                     [(1, mkdate 2025 4 14)] in
  snd (delete_habit t "Run") = [HabitDeleted "Run"]
  /\ delete_habit t "Swim" = (t, [HabitNotFound "Swim"]).
Proof.
  intros t.
  destruct (delete_habit_contract t "Run") as [_ [_ [_ [_ [H _]]]]].
  destruct (delete_habit_contract t "Swim") as [_ [_ [_ [_ [_ H']]]]].
  split.
  - apply (H (mkHabit "Run" "daily" 2 None 0 2)). reflexivity.
  - apply H'. reflexivity.
Defined.

(** Deleting a habit and creating it again under the same name gives a
    habit that starts from nothing: no streak and an empty history,
    although the completions of the deleted habit are still stored. *)
Theorem delete_then_create (db : Db) (n p : string) :
  consistent db ->
  let db1 := with_tables db (fst (delete_habit (tables db) n)) in
  let db2 := fst (fst (create_habit db1 n p)) in
  get_habit (tables db2) n = Some (mkHabit n p 0 None 0 0)
  /\ get_completion_history (tables db2) n = []
  /\ completions (tables db2) = completions (tables db)
  /\ consistent db2.
Proof.
  intros Hc db1 db2.
  pose proof (consistent_delete db n Hc) as Hc1. fold db1 in Hc1.
  pose proof (delete_habit_gone (tables db) n) as Hnone.
  destruct (create_habit_new db1 n p Hc1 Hnone)
    as [_ [_ [Hget [Hhist [Hcomp2 _]]]]].
  split; [exact Hget|]. split; [exact Hhist|].
  split; [subst db2; rewrite Hcomp2; subst db1; cbn [tables with_tables];
          now rewrite delete_habit_tables|].
  now apply consistent_create.
Qed.

Lemma delete_then_create_witness :
  let db := mkDb (mkTracker [(1, mkHabit "Run" "daily" 2 None 0 2)]
                            [(1, mkdate 2025 4 14)]) 1 in
  get_completion_history
    (tables (fst (fst (create_habit
       (with_tables db (fst (delete_habit (tables db) "Run"))) "Run" "daily"))))
    "Run" = [].
Proof.
  intros db.
  destruct (delete_then_create db "Run" "daily") as [_ [H _]]; [|exact H].
  unfold consistent. cbn.
  repeat split; repeat constructor; cbn; try lia;
    try (intros [H | H]; try discriminate H; try contradiction);
    try (intros []).
Defined.

End CreateDelete.

(* ================================================================== *)
(** * Editing and saving habits *)
(* ================================================================== *)

Section EditSave.
Import Exceptions Datetime HabitPy TrackerPy Props TrackerOps Facts.

Lemma find_rename (n new : string) (rows : list (Z * Habit))
    (row : Z * Habit) :
  find (has_name n) rows = Some row ->
  new = n \/ existsb (has_name new) rows = false ->
  find (has_name new)
       (map (fun r => if has_name n r then (fst r, set_name new (snd r))
                      else r) rows)
  = Some (fst row, set_name new (snd row)).
Proof.
  intros Hfind Hfree. induction rows as [|r rows IH]; [discriminate|].
  cbn in Hfind |- *. destruct (has_name n r) eqn:En.
  - injection Hfind as <-. unfold has_name. cbn.
    now rewrite String.eqb_refl.
  - assert (Er : has_name new r = false).
    { destruct Hfree as [-> | Hfree]; [exact En|].
      cbn in Hfree. now apply orb_false_iff in Hfree as [H _]. }
    rewrite Er. apply IH; [exact Hfind|].
    destruct Hfree as [-> | Hfree]; [now left|].
    right. cbn in Hfree. now apply orb_false_iff in Hfree as [_ H].
Qed.

Lemma find_rename_gone (n new : string) (rows : list (Z * Habit)) :
  new <> n ->
  find (has_name n)
       (map (fun r => if has_name n r then (fst r, set_name new (snd r))
                      else r) rows)
  = None.
Proof.
  intros Hne. induction rows as [|r rows IH]; [reflexivity|].
  cbn. destruct (has_name n r) eqn:En.
  - unfold has_name at 1. cbn.
    destruct (String.eqb_spec new n); [contradiction | exact IH].
  - now rewrite En.
Qed.

Lemma rename_free (t : Tracker) (n : string) (nn : option string) :
  truthy nn && rename_conflicts t n (arg nn) = false ->
  truthy nn = true ->
  arg nn = n \/ existsb (has_name (arg nn)) (habits t) = false.
Proof.
  intros Hc Ht. rewrite Ht in Hc. cbn [andb] in Hc.
  unfold rename_conflicts in Hc.
  destruct (String.eqb_spec n (arg nn)); [now left | now right].
Qed.

Lemma get_habit_rename (t : Tracker) (n new : string) (h : Habit) :
  get_habit t n = Some h ->
  new = n \/ existsb (has_name new) (habits t) = false ->
  get_habit (sql_update n (set_name new) t) new = Some (set_name new h)
  /\ _get_habit_id (sql_update n (set_name new) t) new = _get_habit_id t n.
Proof.
  unfold get_habit, _get_habit_id, sql_update. cbn [habits].
  destruct (find (has_name n) (habits t)) as [row|] eqn:E; [|discriminate].
  intros H Hfree. injection H as <-.
  now rewrite (find_rename _ _ _ _ E Hfree).
Qed.

Lemma get_habit_rename_gone (t : Tracker) (n new : string) :
  new <> n -> get_habit (sql_update n (set_name new) t) n = None.
Proof.
  intros Hne. unfold get_habit, sql_update. cbn [habits].
  now rewrite find_rename_gone.
Qed.

(** An edit that goes through is a round trip: the habit [edit_habit]
    returns is the habit found afterwards under its (possibly new) name,
    with the completion history the habit had before; after a rename the
    old name is unknown; and the edit leaves the streak, the last
    completion and the streak saves as they were.  An edit goes through
    unless the new longest streak is an [int] above the largest SQLite
    INTEGER: then [OverflowError] is raised, no habit is returned, and
    the stored habit, found under the name the rename gave it, has the
    streak and the longest streak it had. *)
Theorem edit_habit_round_trip (t : Tracker) (n : string) (h : Habit)
    (nn np : option string) (nl : pyarg) :
  get_habit t n = Some h ->
  truthy nn && rename_conflicts t n (arg nn) = false ->
  let res := edit_habit t n nn np nl in
  let t' := fst (fst res) in
  (overflows nl = false ->
   exists h',
     snd (fst res) = Ok (Some h')
     /\ get_habit t' (name h') = Some h'
     /\ get_completion_history t' (name h') = get_completion_history t n
     /\ (name h' <> n -> get_habit t' n = None)
     /\ name h' = (if truthy nn then arg nn else n)
     /\ streak h' = streak h
     /\ last_completed h' = last_completed h
     /\ streak_saves h' = streak_saves h)
  /\ (overflows nl = true ->
      snd (fst res) = Raise OverflowError
      /\ exists r,
           get_habit t' (if truthy nn then arg nn else n) = Some r
           /\ streak r = streak h
           /\ longest_streak r = longest_streak h).
Proof.
  intros Hget Hok res t'. subst res t'.
  pose proof (get_habit_name _ _ _ Hget) as Hname.
  pose proof (rename_free t n nn Hok) as Hfree.
  assert (Hren : truthy nn = true ->
            get_habit (sql_update n (set_name (arg nn)) t) (arg nn)
            = Some (set_name (arg nn) h)
            /\ _get_habit_id (sql_update n (set_name (arg nn)) t) (arg nn)
               = _get_habit_id t n
            /\ (arg nn <> n ->
                get_habit (sql_update n (set_name (arg nn)) t) n = None)).
  { intros Ht. destruct (get_habit_rename t n (arg nn) h Hget (Hfree Ht)).
    repeat split; auto. apply get_habit_rename_gone. }
  clear Hfree.
  unfold edit_habit, _save_habit, update_habit.
  rewrite Hget, Hok.
  destruct h as [hn hp hs hl hv hL]. cbn [name] in Hname. subst hn.
  split.
  - intros Hno.
    assert (Hfit : forall z, nl = PyInt z -> 0 <= z ->
                             (z <=? SQLITE_MAX_INTEGER) = true).
    { intros z -> _. cbn in Hno. apply Z.ltb_ge in Hno.
      now apply Z.leb_le. }
    clear Hno.
    destruct (truthy nn);
      [destruct (Hren eq_refl) as [Hg [Hi Hgone]] | clear Hren];
      destruct (truthy np && str_in (arg np) PERIODICITIES);
      try destruct (truthy np);
      destruct nl as [|z|];
      try (destruct (Z.leb_spec 0 z) as [Ez | Ez];
           [rewrite (Hfit z eq_refl Ez)|]);
      clear Hfit;
      cbn [fst snd app name set_longest_streak set_name set_periodicity
           set_streak set_streak_saves set_last_completed streak
           last_completed streak_saves longest_streak periodicity];
      (eexists; split; [reflexivity|]);
      cbn [name streak last_completed streak_saves];
      (split; [|split; [|split; [|repeat split]]]);
      try (intros Hne; try (exfalso; apply Hne; reflexivity));
      try (apply history_same_tables; [|reflexivity]);
      rewrite ?get_habit_sql_update, ?get_habit_id_sql_update by reflexivity;
      cbn [name set_longest_streak set_name set_periodicity
           set_streak set_streak_saves set_last_completed];
      try rewrite Hg; try rewrite Hi; try rewrite Hget;
      try (rewrite Hgone by assumption);
      cbn [option_map name set_longest_streak set_name set_periodicity
           set_streak set_streak_saves set_last_completed];
      rewrite ?String.eqb_refl; reflexivity.
  - intros Hov. destruct nl as [|z|]; try discriminate Hov.
    cbn in Hov. apply Z.ltb_lt in Hov.
    assert (E0 : (0 <=? z) = true)
      by (apply Z.leb_le; unfold SQLITE_MAX_INTEGER in Hov; lia).
    assert (Em : (z <=? SQLITE_MAX_INTEGER) = false)
      by (apply Z.leb_gt; exact Hov).
    rewrite E0, Em.
    destruct (truthy nn);
      [destruct (Hren eq_refl) as [Hg [Hi Hgone]] | clear Hren];
      destruct (truthy np && str_in (arg np) PERIODICITIES);
      try destruct (truthy np);
      cbn [fst snd app name set_name set_periodicity];
      (split; [reflexivity|]);
      rewrite ?get_habit_sql_update by reflexivity;
      try rewrite Hg; try rewrite Hget;
      cbn [option_map];
      rewrite ?String.eqb_refl;
      (eexists; split; [reflexivity|]); split; reflexivity.
Qed.

Lemma edit_habit_round_trip_witness :
  let h := mkHabit "Workout" "daily" 3 (Some (mkdate 2025 4 14)) 0 4 in
  let t := mkTracker [(1, h)] [(1, mkdate 2025 4 14)] in
  (exists h',
     snd (fst (edit_habit t "Workout" (Some "Gym"%string) None PyNone))
     = Ok (Some h')
     /\ get_habit (fst (fst (edit_habit t "Workout" (Some "Gym"%string)
                                        None PyNone))) (name h') = Some h')
  /\ snd (fst (edit_habit t "Workout" None None
                          (PyInt 9223372036854775808)))
     = Raise OverflowError.
Proof.
  intros h t. split.
  - destruct (edit_habit_round_trip t "Workout" h (Some "Gym"%string) None
                PyNone eq_refl eq_refl) as [Hok _].
    destruct (Hok eq_refl) as [h' [H1 [H2 _]]].
    exists h'. split; [exact H1 | exact H2].
  - destruct (edit_habit_round_trip t "Workout" h None None
                (PyInt 9223372036854775808) eq_refl eq_refl) as [_ Hov].
    destruct (Hov eq_refl) as [H _]. exact H.
Defined.

(** [update_habit] writes the streak, the last completion, the saves and
    the longest streak of the habit it is given into the row of that
    name, and nothing else: the stored periodicity stays.  So a
    periodicity changed with [Habit.change_periodicity] is lost when the
    habit is saved with [update_habit]. *)
Theorem update_habit_round_trip (t : Tracker) (h0 h : Habit) (p : string) :
  get_habit t (name h) = Some h0 ->
  get_habit (fst (update_habit t h)) (name h)
  = Some (mkHabit (name h) (periodicity h0) (streak h) (last_completed h)
                  (streak_saves h) (longest_streak h))
  /\ (forall m, m <> name h ->
      get_habit (fst (update_habit t h)) m = get_habit t m)
  /\ get_habit (fst (update_habit t (fst (change_periodicity h0 p))))
               (name h) = Some h0.
Proof.
  intros Hget. pose proof (get_habit_name _ _ _ Hget) as Hname.
  split; [|split].
  - rewrite update_habit_get, Hget. cbn [option_map].
    now rewrite Hname, String.eqb_refl.
  - intros m Hm. rewrite update_habit_get.
    destruct (get_habit t m) as [r|] eqn:E; [|reflexivity].
    cbn [option_map]. apply get_habit_name in E. rewrite E.
    destruct (String.eqb_spec m (name h)); [contradiction | reflexivity].
  - assert (Hc : name (fst (change_periodicity h0 p)) = name h0
                 /\ streak (fst (change_periodicity h0 p)) = streak h0
                 /\ last_completed (fst (change_periodicity h0 p))
                    = last_completed h0
                 /\ streak_saves (fst (change_periodicity h0 p))
                    = streak_saves h0
                 /\ longest_streak (fst (change_periodicity h0 p))
                    = longest_streak h0).
    { unfold change_periodicity. destruct (str_in p PERIODICITIES); cbn; auto. }
    destruct Hc as [H1 [H2 [H3 [H4 H5]]]].
    rewrite update_habit_get, Hget. cbn [option_map].
    rewrite H1, H2, H3, H4, H5, String.eqb_refl. now rewrite habit_eta.
Qed.

Lemma update_habit_round_trip_witness :
  let h0 := mkHabit "Read" "daily" 3 (Some (mkdate 2025 4 14)) 0 4 in
  let t := mkTracker [(1, h0)] [] in
  get_habit (fst (update_habit t (fst (change_periodicity h0 "weekly"))))
            "Read" = Some h0.
Proof.
  intros h0 t.
  now destruct (update_habit_round_trip t h0 h0 "weekly" eq_refl)
    as [_ [_ H]].
Defined.

End EditSave.

(* ================================================================== *)
(** * Rejected edits and the listings *)
(* ================================================================== *)

Section Listings.
Import Exceptions Datetime HabitPy TrackerPy Props TrackerOps Facts.

Lemma str_in_In (s : string) (l : list string) :
  str_in s l = true <-> In s l.
Proof.
  unfold str_in. rewrite existsb_exists. split.
  - intros [x [Hin E]]. apply String.eqb_eq in E. now subst.
  - intros Hin. exists s. split; [exact Hin | apply String.eqb_refl].
Qed.

Lemma str_in_false (s : string) (l : list string) :
  str_in s l = false <-> ~ In s l.
Proof.
  rewrite <- str_in_In. destruct (str_in s l); split; congruence.
Qed.

Lemma truthy_some (s : string) : s <> ""%string -> truthy (Some s) = true.
Proof.
  intros H. cbn. now destruct (String.eqb_spec s "").
Qed.

(** The edits that [edit_habit] turns down.  An unknown habit: nothing
    changes.  A new name that another habit holds: nothing changes, and
    the periodicity and longest streak passed along are dropped too.  A
    periodicity outside daily, weekly, monthly: reported, and the habit
    returned and stored is the habit as it was. *)
Theorem edit_habit_rejections (t : Tracker) (n : string)
    (nn np : option string) (nl : pyarg) :
  (get_habit t n = None ->
   edit_habit t n nn np nl = (t, Ok None, [TrackerPy.HabitNotFound n]))
  /\ (forall h new other,
      get_habit t n = Some h -> get_habit t new = Some other ->
      new <> n -> new <> ""%string ->
      edit_habit t n (Some new) np nl = (t, Ok None, [NameExists new]))
  /\ (forall h p,
      get_habit t n = Some h -> p <> ""%string -> ~ In p PERIODICITIES ->
      snd (fst (edit_habit t n None (Some p) PyNone)) = Ok (Some h)
      /\ snd (edit_habit t n None (Some p) PyNone)
         = [TrackerPy.InvalidPeriodicity; HabitUpdated n]
      /\ get_habit (fst (fst (edit_habit t n None (Some p) PyNone))) n
         = Some h).
Proof.
  split; [|split].
  - intros Hnone. unfold edit_habit. now rewrite Hnone.
  - intros h new other Hget Hother Hne Hnew.
    unfold edit_habit. rewrite Hget, (truthy_some _ Hnew).
    cbn [andb arg]. unfold rename_conflicts.
    destruct (String.eqb_spec n new) as [E | _]; [congruence|].
    cbn [negb andb].
    destruct (existsb (has_name new) (habits t)) eqn:Ex; [reflexivity|].
    apply get_habit_none in Ex. congruence.
  - intros h p Hget Hp Hout.
    pose proof (get_habit_name _ _ _ Hget) as Hname.
    unfold edit_habit, _save_habit.
    rewrite Hget, (truthy_some _ Hp). cbn [truthy andb arg].
    apply str_in_false in Hout. rewrite Hout. cbn [andb fst snd app].
    assert (E : update_habit t h
                = (fst (update_habit t h), [HabitUpdated (name h)]))
      by reflexivity.
    rewrite E. cbn [fst snd].
    split; [reflexivity|]. split; [now rewrite Hname|].
    rewrite update_habit_get, Hget. cbn [option_map].
    rewrite Hname, String.eqb_refl, <- Hname. now rewrite habit_eta.
Qed.

Lemma edit_habit_rejections_witness :
  let a := mkHabit "Habit A" "daily" 0 None 0 0 in
  let b := mkHabit "Habit B" "weekly" 0 None 0 0 in
  let t := mkTracker [(1, a); (2, b)] [] in
  edit_habit t "Habit A" (Some "Habit B"%string) None PyNone
  = (t, Ok None, [NameExists "Habit B"])
  /\ snd (fst (edit_habit t "Habit A" None (Some "yearly"%string) PyNone))
     = Ok (Some a).
Proof.
  intros a b t.
  destruct (edit_habit_rejections t "Habit A" None None PyNone)
    as [_ [Htaken _]].
  destruct (edit_habit_rejections t "Habit A" None None PyNone)
    as [_ [_ Hbad]].
  split.
  - apply (Htaken a "Habit B"%string b); try reflexivity; discriminate.
  - assert (Hout : ~ In "yearly"%string PERIODICITIES)
      by (cbn; intros [H | [H | [H | []]]]; discriminate H).
    assert (Hp : "yearly"%string <> ""%string) by discriminate.
    now destruct (Hbad a "yearly"%string eq_refl Hp Hout) as [H _].
Defined.

Lemma create_habit_get (db : Db) (n p : string) :
  get_habit (tables db) n = None ->
  get_habit (tables (fst (fst (create_habit db n p)))) n
  = Some (mkHabit n p 0 None 0 0).
Proof.
  intros Hnone. apply get_habit_none in Hnone.
  unfold create_habit. rewrite Hnone. cbn [fst tables].
  unfold get_habit. cbn [habits].
  rewrite find_app_none by exact Hnone. cbn. unfold has_name. cbn.
  now rewrite String.eqb_refl.
Qed.

(** [list_habits_by_periodicity] returns the stored habits of the given
    periodicity, all of them and no other, when the periodicity is
    daily, weekly or monthly, and nothing otherwise.  [create_habit]
    does not check the periodicity, so a habit created with another one
    is stored and found by name, and is in none of the listings. *)
Theorem list_habits_by_periodicity_spec (t : Tracker) (p : string) :
  (forall h, In h (fst (list_habits_by_periodicity t p))
             <-> In p PERIODICITIES /\ periodicity h = p
                 /\ exists id, In (id, h) (habits t))
  /\ (~ In p PERIODICITIES ->
      list_habits_by_periodicity t p = ([], [InvalidPeriodicityWarning p]))
  /\ (forall db n q,
      get_habit (tables db) n = None -> ~ In p PERIODICITIES ->
      let t' := tables (fst (fst (create_habit db n p))) in
      get_habit t' n = Some (mkHabit n p 0 None 0 0)
      /\ ~ In (mkHabit n p 0 None 0 0)
              (fst (list_habits_by_periodicity t' q))).
Proof.
  assert (Hspec : forall t p h,
            In h (fst (list_habits_by_periodicity t p))
            <-> In p PERIODICITIES /\ periodicity h = p
                /\ exists id, In (id, h) (habits t)).
  { clear. intros t p h. unfold list_habits_by_periodicity.
    destruct (str_in p PERIODICITIES) eqn:E; cbn [negb fst].
    - apply str_in_In in E. rewrite in_map_iff. split.
      + intros [[id h'] [Heq Hin]]. cbn in Heq. subst h'.
        apply filter_In in Hin as [Hin Hp]. cbn in Hp.
        apply String.eqb_eq in Hp. eauto.
      + intros [_ [Hp [id Hin]]]. exists (id, h). split; [reflexivity|].
        apply filter_In. split; [exact Hin|]. cbn.
        now apply String.eqb_eq.
    - apply str_in_false in E.
      split; [intros [] | intros [Hp _]; contradiction]. }
  split; [apply Hspec|]. split.
  - intros Hout. apply str_in_false in Hout.
    unfold list_habits_by_periodicity. now rewrite Hout.
  - intros db n q Hnone Hout t'. split; [now apply create_habit_get|].
    rewrite Hspec. cbn [periodicity]. intros [Hq [E _]]. congruence.
Qed.

Lemma list_habits_by_periodicity_spec_witness :
  let db := mkDb (mkTracker [] []) 0 in
  get_habit (tables (fst (fst (create_habit db "Plan" "yearly")))) "Plan"
  = Some (mkHabit "Plan" "yearly" 0 None 0 0)
  /\ list_habits_by_periodicity
       (tables (fst (fst (create_habit db "Plan" "yearly")))) "yearly"
     = ([], [InvalidPeriodicityWarning "yearly"]).
Proof.
  intros db.
  assert (Hout : ~ In "yearly"%string PERIODICITIES)
    by (cbn; intros [H | [H | [H | []]]]; discriminate H).
  destruct (list_habits_by_periodicity_spec
              (tables (fst (fst (create_habit db "Plan" "yearly"))))
              "yearly") as [_ [Hempty Hcreate]].
  split.
  - now destruct (Hcreate db "Plan"%string "daily"%string eq_refl Hout).
  - now apply Hempty.
Defined.

Lemma insert_name_perm (x : string) (l : list string) :
  Permutation (x :: l) (insert_name x l).
Proof.
  induction l as [|y l IH]; cbn; [reflexivity|].
  destruct (String.leb x y); [reflexivity|].
  rewrite perm_swap. now constructor.
Qed.

Lemma insert_name_sorted (x : string) (l : list string) :
  Sorted (fun a b => String.leb a b = true) l ->
  Sorted (fun a b => String.leb a b = true) (insert_name x l).
Proof.
  induction l as [|y l IH]; cbn; intros Hs.
  - repeat constructor.
  - destruct (String.leb x y) eqn:E.
    + constructor; [exact Hs | now constructor].
    + inversion Hs as [|? ? Hl Hhd]; subst.
      constructor; [now apply IH|].
      assert (Hyx : String.leb y x = true)
        by (destruct (String.leb_total x y); congruence).
      destruct l as [|z l]; cbn; [now constructor|].
      destruct (String.leb x z); constructor; [exact Hyx|].
      now inversion Hhd.
Qed.

Lemma order_by_name_perm (l : list string) :
  Permutation l (order_by_name l).
Proof.
  induction l as [|x l IH]; cbn; [reflexivity|].
  rewrite <- insert_name_perm. now constructor.
Qed.

Lemma order_by_name_sorted (l : list string) :
  Sorted (fun a b => String.leb a b = true) (order_by_name l).
Proof.
  induction l as [|x l IH]; cbn; [constructor|].
  now apply insert_name_sorted.
Qed.

(** [list_all_habit_names] returns the names of the stored habits, each
    as often as it is stored, in ascending order. *)
Theorem list_all_habit_names_sorted (t : Tracker) :
  Permutation (names t) (list_all_habit_names t)
  /\ Sorted (fun a b => String.leb a b = true) (list_all_habit_names t)
  /\ (forall n, In n (list_all_habit_names t) <-> get_habit t n <> None).
Proof.
  unfold list_all_habit_names. fold (names t).
  pose proof (order_by_name_perm (names t)) as Hperm.
  split; [exact Hperm|]. split; [apply order_by_name_sorted|].
  intros n. split.
  -
 intros Hin. apply (Permutation_in _ (Permutation_sym Hperm)) in Hin.
    apply existsb_has_name in Hin. intros Hnone.
    apply get_habit_none in Hnone. congruence.
  - intros Hsome. apply (Permutation_in _ Hperm).
    apply existsb_has_name.
    destruct (existsb (has_name n) (habits t)) eqn:E; [reflexivity|].
    apply get_habit_none in E. contradiction.
Qed.

End Listings.

(* ================================================================== *)
(** * The calendar: comparing dates is comparing ordinals *)
(* ================================================================== *)

Section CalendarOrder.
Import Datetime Props Facts Unbounded.

Lemma days_before_year_succ (y : Z) :
  days_before_year (y + 1)
  = days_before_year y + (if is_leap y then 366 else 365).
Proof.
  unfold days_before_year, is_leap.
  replace (y + 1 - 1) with y by lia.
  destruct (Z.eqb_spec (y mod 4) 0), (Z.eqb_spec (y mod 100) 0),
    (Z.eqb_spec (y mod 400) 0); cbn [negb andb orb];
    Z.div_mod_to_equations; lia.
Qed.

Lemma days_before_year_mono (y1 y2 : Z) :
  y1 <= y2 -> days_before_year y1 <= days_before_year y2.
Proof.
  intros H. unfold days_before_year. Z.div_mod_to_equations. lia.
Qed.

Lemma day_of_year_bounds (y m d : Z) :
  valid_date (mkdate y m d) = true ->
  1 <= days_before_month y m + d <= (if is_leap y then 366 else 365).
Proof.
  intros Hv. apply valid_date_fields in Hv as [Hm Hd].
  cbn [year month day] in Hm, Hd. revert Hd.
  unfold days_before_month, days_in_month.
  assert (C : m = 1 \/ m = 2 \/ m = 3 \/ m = 4 \/ m = 5 \/ m = 6 \/ m = 7
              \/ m = 8 \/ m = 9 \/ m = 10 \/ m = 11 \/ m = 12) by lia.
  repeat (destruct C as [-> | C]); try subst m;
    destruct (is_leap y); cbv -[Z.le Z.add]; lia.
Qed.

Lemma days_before_month_mono (y m1 m2 : Z) :
  1 <= m1 -> m1 < m2 -> m2 <= 12 ->
  days_before_month y m1 + days_in_month y m1 <= days_before_month y m2.
Proof.
  intros H1 H12 H2. unfold days_before_month, days_in_month.
  assert (C1 : m1 = 1 \/ m1 = 2 \/ m1 = 3 \/ m1 = 4 \/ m1 = 5 \/ m1 = 6
               \/ m1 = 7 \/ m1 = 8 \/ m1 = 9 \/ m1 = 10 \/ m1 = 11) by lia.
  assert (C2 : m2 = 2 \/ m2 = 3 \/ m2 = 4 \/ m2 = 5 \/ m2 = 6 \/ m2 = 7
               \/ m2 = 8 \/ m2 = 9 \/ m2 = 10 \/ m2 = 11 \/ m2 = 12) by lia.
  destruct (is_leap y);
    repeat (destruct C1 as [-> | C1]); try subst m1;
    repeat (destruct C2 as [-> | C2]); try subst m2;
    try lia; cbv -[Z.le]; lia.
Qed.

Lemma toordinal_lt (a b : date) :
  valid_date a = true -> valid_date b = true ->
  date_ltb a b = true -> toordinal a < toordinal b.
Proof.
  destruct a as [y1 m1 d1], b as [y2 m2 d2]. intros Ha Hb.
  pose proof (day_of_year_bounds _ _ _ Ha) as Ba.
  pose proof (day_of_year_bounds _ _ _ Hb) as Bb.
  apply valid_date_fields in Ha as [Hm1 Hd1].
  apply valid_date_fields in Hb as [Hm2 Hd2].
  cbn [year month day] in *.
  unfold date_ltb, toordinal, ymd2ord. cbn [year month day].
  intros H. apply orb_true_iff in H as [Hy | H].
  - apply Z.ltb_lt in Hy.
    pose proof (days_before_year_succ y1).
    pose proof (days_before_year_mono (y1 + 1) y2 ltac:(lia)). lia.
  - apply andb_true_iff in H as [Hy H]. apply Z.eqb_eq in Hy. subst y2.
    apply orb_true_iff in H as [Hm | H].
    + apply Z.ltb_lt in Hm.
      pose proof (days_before_month_mono y1 m1 m2 ltac:(lia) Hm ltac:(lia)).
      lia.
    + apply andb_true_iff in H as [Hm Hd]. apply Z.eqb_eq in Hm.
      apply Z.ltb_lt in Hd. subst m2. lia.
Qed.

Lemma date_trichotomy (a b : date) :
  date_ltb a b = false -> date_eqb a b = false -> date_ltb b a = true.
Proof.
  destruct a as [y1 m1 d1], b as [y2 m2 d2].
  unfold date_ltb, date_eqb. cbn [year month day].
  destruct (Z.ltb_spec y1 y2), (Z.ltb_spec y2 y1), (Z.eqb_spec y1 y2),
    (Z.eqb_spec y2 y1), (Z.ltb_spec m1 m2), (Z.ltb_spec m2 m1),
    (Z.eqb_spec m1 m2), (Z.eqb_spec m2 m1), (Z.ltb_spec d1 d2),
    (Z.ltb_spec d2 d1), (Z.eqb_spec d1 d2);
    cbn; try reflexivity; try discriminate; lia.
Qed.

(** On well-formed dates the comparison of the fields is the comparison
    of the ordinals. *)
Lemma date_ltb_ordinal (a b : date) :
  valid_date a = true -> valid_date b = true ->
  date_ltb a b = (toordinal a <? toordinal b).
Proof.
  intros Ha Hb. destruct (date_ltb a b) eqn:E.
  - symmetry. apply Z.ltb_lt. now apply toordinal_lt.
  - symmetry. apply Z.ltb_ge. destruct (date_eqb a b) eqn:Eq.
    + apply date_eqb_eq in Eq. subst. lia.
    + pose proof (toordinal_lt b a Hb Ha (date_trichotomy a b E Eq)). lia.
Qed.

Lemma date_leb_ordinal (a b : date) :
  valid_date a = true -> valid_date b = true ->
  date_leb a b = (toordinal a <=? toordinal b).
Proof.
  intros Ha Hb. unfold date_leb. rewrite date_ltb_ordinal by assumption.
  destruct (date_eqb a b) eqn:Eq.
  - apply date_eqb_eq in Eq. subst. rewrite orb_true_r.
    symmetry. apply Z.leb_le. lia.
  - rewrite orb_false_r.
    destruct (Z.ltb_spec (toordinal a) (toordinal b)) as [H | H].
    + symmetry. apply Z.leb_le. lia.
    + symmetry. apply Z.leb_gt.
      assert (toordinal a <> toordinal b); [|lia].
      intros E. rewrite <- (fromordinal_toordinal a Ha) in Eq.
      rewrite E, (fromordinal_toordinal b Hb) in Eq.
      now rewrite date_eqb_refl in Eq.
Qed.

End CalendarOrder.

(* ================================================================== *)
(** * The weekly trend on the unbounded calendar, in days *)
(* ================================================================== *)

Section WeeklyTrendDays.
Import Datetime HabitPy TrackerPy AnalysePy Props TrackerOps Facts Unbounded.

(** The window of the weekly trend, in days. *)
Lemma weekly_window (today c : date) (w : Z) :
  valid_date today = true -> valid_date c = true ->
  in_window (date_sub today (timedelta_weeks w)) today c
  = within_days today (7 * w) c.
Proof.
  intros Ht Hc. unfold in_window, within_days, date_sub, date_add,
    timedelta_weeks, date_diff.
  rewrite !date_leb_ordinal by (try apply valid_fromordinal; assumption).
  rewrite toordinal_fromordinal.
  destruct (Z.leb_spec (toordinal today + - (7 * w)) (toordinal c)),
    (Z.leb_spec (toordinal c) (toordinal today)),
    (Z.leb_spec 0 (toordinal today - toordinal c)),
    (Z.leb_spec (toordinal today - toordinal c) (7 * w));
    cbn; try reflexivity; lia.
Qed.

Lemma week_start_ordinal (c : date) :
  toordinal (week_start c) = 7 * ((toordinal c + 6) / 7) - 6.
Proof.
  unfold week_start, weekday, date_sub, date_add, timedelta_days.
  rewrite toordinal_fromordinal. Z.div_mod_to_equations. lia.
Qed.

Lemma count_step_filter_ext (p q : date -> bool) (bucket : date -> date)
    (l : list date) (d : dict) :
  (forall c, In c l -> p c = q c) ->
  fold_left (count_step p bucket) l d = fold_left (count_step q bucket) l d.
Proof.
  revert d. induction l as [|c l IH]; intros d H; [reflexivity|].
  cbn [fold_left]. unfold count_step at 2 4.
  rewrite (H c) by (now left). apply IH. intros c' Hc'. apply H. now right.
Qed.

Lemma weekly_trend_days_unbounded (t : Tracker) (today : date)
    (habit_name : string) (num_weeks : Z) (h : Habit) :
  get_habit t habit_name = Some h ->
  valid_date today = true ->
  Forall (fun c => valid_date c = true)
         (get_completion_history t habit_name) ->
  calculate_weekly_trend t today habit_name num_weeks
  = fold_left (count_step (within_days today (7 * num_weeks)) week_start)
              (get_completion_history t habit_name) [].
Proof.
  intros Hget Ht Hall.
  rewrite (weekly_trend_fold_unbounded _ _ _ _ _ Hget).
  apply count_step_filter_ext. intros c Hc.
  rewrite Forall_forall in Hall. apply weekly_window; auto.
Qed.

(** The weekly trend on the unbounded calendar, in days. *)
Lemma weekly_trend_in_days_unbounded (t : Tracker) (today : date)
    (habit_name : string) (num_weeks : Z) (h : Habit) :
  get_habit t habit_name = Some h ->
  valid_date today = true ->
  Forall (fun c => valid_date c = true)
         (get_completion_history t habit_name) ->
  let history := get_completion_history t habit_name in
  let trend := calculate_weekly_trend t today habit_name num_weeks in
  (forall k, In k (map fst trend)
             <-> exists c, In c history
                           /\ 0 <= date_diff today c <= 7 * num_weeks
                           /\ week_start c = k)
  /\ (forall c, date_diff c (week_start c) = weekday c
                /\ 0 <= weekday c <= 6
                /\ weekday (week_start c) = 0)
  /\ (forall c1 c2, week_start c1 = week_start c2
                    <-> (toordinal c1 + 6) / 7 = (toordinal c2 + 6) / 7)
  /\ (num_weeks < 0 -> trend = []).
Proof.
  intros Hget Ht Hall history trend. subst trend.
  rewrite (weekly_trend_days_unbounded _ _ _ _ _ Hget Ht Hall).
  fold history.
  assert (Hkeys : forall k,
            In k (map fst (fold_left
                    (count_step (within_days today (7 * num_weeks))
                                week_start) history []))
            <-> exists c, In c history
                          /\ 0 <= date_diff today c <= 7 * num_weeks
                          /\ week_start c = k).
  { intros k. rewrite fold_count_keys. cbn [map In]. split.
    - intros [[] | [c [Hc [Hp Hk]]]]. exists c.
      unfold within_days in Hp. apply andb_true_iff in Hp as [H1 H2].
      apply Z.leb_le in H1, H2. auto.
    - intros [c [Hc [[H1 H2] Hk]]]. right. exists c.
      split; [exact Hc|]. split; [|exact Hk].
      unfold within_days. apply andb_true_iff.
      split; now apply Z.leb_le. }
  split; [exact Hkeys|]. split; [|split].
  - intros c. split; [|split].
    + unfold date_diff, week_start, date_sub, date_add, timedelta_days.
      rewrite toordinal_fromordinal. lia.
    + unfold weekday. Z.div_mod_to_equations. lia.
    + apply week_start_monday.
  - intros c1 c2. split.
    + intros E. apply (f_equal toordinal) in E.
      rewrite !week_start_ordinal in E. lia.
    + intros E. unfold week_start, date_sub, date_add, timedelta_days, weekday.
      f_equal. Z.div_mod_to_equations. lia.
  - intros Hneg.
    destruct (fold_left (count_step (within_days today (7 * num_weeks))
                                    week_start) history [])
      as [|[k v] l] eqn:E; [reflexivity|].
    exfalso. destruct (Hkeys k) as [Hk _].
    destruct Hk as [c [_ [Hd _]]]; [cbn; now left | lia].
Qed.

Lemma total_dict_set (k : date) (v : Z) (d : dict) :
  total (dict_set k v d) = total d - dict_get k d + v.
Proof.
  unfold total. induction d as [|[k' v'] d IH]; cbn; [lia|].
  destruct (date_eqb k' k); cbn; lia.
Qed.

Lemma total_count_step (p : date -> bool) (bucket : date -> date)
    (l : list date) (d : dict) :
  total (fold_left (count_step p bucket) l d) = total d + count p l.
Proof.
  unfold count. revert d.
  induction l as [|c l IH]; intros d; cbn [fold_left filter].
  - cbn. lia.
  - rewrite IH. unfold count_step. destruct (p c).
    + unfold dict_incr. rewrite total_dict_set. cbn [List.length]. lia.
    + lia.
Qed.

(** The sum of the values of the weekly trend on the unbounded
    calendar. *)
Lemma weekly_trend_total_unbounded (t : Tracker) (today : date)
    (habit_name : string) (num_weeks : Z) (h : Habit) :
  get_habit t habit_name = Some h ->
  valid_date today = true ->
  Forall (fun c => valid_date c = true)
         (get_completion_history t habit_name) ->
  total (calculate_weekly_trend t today habit_name num_weeks)
  = count (within_days today (7 * num_weeks))
          (get_completion_history t habit_name).
Proof.
  intros Hget Ht Hall.
  rewrite (weekly_trend_days_unbounded _ _ _ _ _ Hget Ht Hall).
  now rewrite total_count_step.
Qed.

End WeeklyTrendDays.

(* ================================================================== *)
(** * Totals of the trends on the unbounded calendar *)
(* ================================================================== *)

Section TrendTotals.
Import Datetime Relativedelta HabitPy TrackerPy AnalysePy Props TrackerOps
  Facts Unbounded.

Lemma total_map_add (f g : date -> Z) (keys : list date) :
  total (map (fun k => (k, f k + g k)) keys)
  = total (map (fun k => (k, f k)) keys)
    + total (map (fun k => (k, g k)) keys).
Proof.
  unfold total. induction keys as [|k keys IH]; cbn; lia.
Qed.

Lemma total_indicator (x : date) (keys : list date) :
  NoDup keys ->
  total (map (fun k => (k, if date_eqb x k then 1 else 0)) keys)
  = if date_in x keys then 1 else 0.
Proof.
  unfold total, date_in.
  induction 1 as [|k keys Hk Hnd IH]; cbn [map fold_right snd existsb];
    [reflexivity|].
  destruct (date_eqb x k) eqn:E; cbn [orb].
  - apply date_eqb_eq in E. subst k.
    apply date_in_false in Hk. unfold date_in in Hk.
    rewrite Hk in IH. rewrite IH. reflexivity.
  - rewrite IH. apply Z.add_0_l.
Qed.

(** Over pairwise distinct buckets, the hits add up to the number of
    selected dates whose bucket is among them. *)
Lemma total_hits (p : date -> bool) (bucket : date -> date)
    (l : list date) (keys : list date) :
  NoDup keys ->
  total (map (fun k => (k, hits p bucket l k)) keys)
  = count (fun c => p c && date_in (bucket c) keys) l.
Proof.
  intros Hnd. unfold count, hits.
  induction l as [|c l IH]; cbn [filter].
  - cbn. unfold total. induction keys; cbn; [reflexivity|].
    inversion Hnd; subst. auto.
  - rewrite map_ext with
      (g := fun k => (k, Z.of_nat (List.length
                          (filter (fun c => p c && date_eqb (bucket c) k) l))
                         + (if p c && date_eqb (bucket c) k then 1 else 0))).
    2:{ intros k. f_equal.
        destruct (p c && date_eqb (bucket c) k); cbn [List.length]; lia. }
    rewrite total_map_add, IH.
    destruct (p c); cbn [andb].
    + rewrite total_indicator by exact Hnd.
      destruct (date_in (bucket c) keys); cbn [List.length]; lia.
    + replace (total (map (fun k => (k, 0)) keys)) with 0; [lia|].
      unfold total. clear. induction keys; cbn; lia.
Qed.

Lemma month_index_of_index (i : Z) : month_index (month_of_index i) = i.
Proof.
  unfold month_index, month_of_index. cbn [year month].
  Z.div_mod_to_equations. lia.
Qed.

Lemma date_leb_month_index (a b : date) :
  date_leb a b = true ->
  1 <= month a <= 12 -> 1 <= month b <= 12 ->
  month_index a <= month_index b.
Proof.
  destruct a as [y1 m1 d1], b as [y2 m2 d2].
  unfold date_leb, date_ltb, date_eqb, month_index. cbn [year month day].
  destruct (Z.ltb_spec y1 y2), (Z.eqb_spec y1 y2), (Z.ltb_spec m1 m2),
    (Z.eqb_spec m1 m2); cbn [orb andb]; intros; try discriminate; lia.
Qed.

(** A well-formed date inside the window of the monthly trend falls into
    one of the seeded months. *)
Lemma window_month_seeded (today c : date) (n : Z) :
  valid_date today = true -> valid_date c = true -> 0 <= n ->
  in_window (month_of_index (month_index today - n)) today c = true ->
  In (month_start c)
     (months_from (month_index today - n) (Z.to_nat n + 1)).
Proof.
  intros Ht Hc Hn Hw.
  apply valid_date_fields in Ht as [Hmt _].
  apply valid_date_fields in Hc as [Hmc _].
  unfold in_window in Hw. apply andb_true_iff in Hw as [H1 H2].
  apply date_leb_month_index in H1;
    [|unfold month_of_index; cbn [month]; Z.div_mod_to_equations; lia
     | exact Hmc].
  apply date_leb_month_index in H2; [|exact Hmc | exact Hmt].
  rewrite month_index_of_index in H1.
  apply months_from_In.
  exists (month_index c - (month_index today - n)). split; [|lia].
  unfold month_start.
  replace (month_index today - n + (month_index c - (month_index today - n)))
    with (month_index c) by lia.
  unfold month_index. symmetry. now apply month_of_index_fields.
Qed.

(** The sum of the values of the monthly trend on the unbounded
    calendar. *)
Lemma monthly_trend_total_unbounded (fuel : nat) (t : Tracker)
    (today : date) (habit_name : string) (num_months : Z) (h : Habit) :
  get_habit t habit_name = Some h ->
  valid_date today = true ->
  0 <= num_months ->
  (Z.to_nat num_months + 1 <= fuel)%nat ->
  Forall (fun c => valid_date c = true)
         (get_completion_history t habit_name) ->
  exists trend,
    calculate_monthly_trend fuel t today habit_name num_months = Some trend
    /\ total trend
       = count (in_window (month_of_index (month_index today - num_months))
                          today)
               (get_completion_history t habit_name).
Proof.
  intros Hget Ht Hn Hfuel Hall. eexists. split.
  { apply (monthly_trend_entries_unbounded _ _ _ _ _ _ Hget Ht Hn Hfuel). }
  rewrite total_hits by apply months_from_NoDup.
  unfold count. do 2 f_equal.
  rewrite Forall_forall in Hall.
  induction (get_completion_history t habit_name) as [|c l IH];
    [reflexivity|].
  cbn [filter].
  rewrite IH by (intros x Hx; apply Hall; now right).
  destruct (in_window _ today c) eqn:Hw; cbn [andb]; [|reflexivity].
  assert (Hin : date_in (month_start c)
                  (months_from (month_index today - num_months)
                               (Z.to_nat num_months + 1)) = true).
  { apply date_in_In. apply window_month_seeded; auto.
    apply Hall. now left. }
  now rewrite Hin.
Qed.

(** The daily trend on the unbounded calendar right after a completion
    was recorded. *)
Lemma record_then_daily_trend_unbounded (t : Tracker) (today : date) (n : string)
    (h : Habit) (id : Z) (num_days : Z) :
  get_habit t n = Some h ->
  _get_habit_id t n = Some id ->
  id <> 0 ->
  valid_date today = true ->
  1 <= num_days ->
  let t' := fst (record_completion t today n) in
  nth_error (calculate_daily_trend t' today n num_days)
            (Z.to_nat (num_days - 1))
  = Some (today, 1).
Proof.
  intros Hget Hid Hnz Hvalid Hn t'. subst t'.
  rewrite (daily_trend_entries_unbounded _ _ _ _ _
             (record_completion_get t today n h Hget)).
  rewrite nth_error_map, range_nth by lia. cbn [option_map].
  replace (toordinal today - (num_days - 1) + (num_days - 1))
    with (toordinal today) by lia.
  rewrite fromordinal_toordinal by exact Hvalid.
  assert (Hin : date_in today
            (get_completion_history (fst (record_completion t today n)) n)
          = true).
  { apply date_in_In.
    apply (record_completion_history _ _ _ _ _ _ Hget Hid Hnz). now left. }
  now rewrite Hin.
Qed.

Lemma monthly_trend_negative_unbounded (fuel : nat) (t : Tracker)
    (today : date) (habit_name : string) (num_months : Z) :
  valid_date today = true -> num_months < 0 ->
  calculate_monthly_trend fuel t today habit_name num_months = Some [].
Proof.
  intros Ht Hn. unfold calculate_monthly_trend.
  destruct (get_habit t habit_name); [|reflexivity].
  destruct (valid_date_fields _ Ht) as [Hm _].
  replace (mkdate (year today) (month today) 1)
    with (month_of_index (month_index today))
    by (unfold month_index; now apply month_of_index_fields).
  rewrite rsub_months, radd_months.
  assert (Hseed : seed_months fuel
                    (month_of_index (month_index today - num_months))
                    (month_of_index (month_index today + 1)) [] []
                  = Some ([], [])).
  { destruct fuel; cbn [seed_months]; rewrite month_of_index_ltb;
      (destruct (Z.ltb_spec (month_index today - num_months)
                            (month_index today + 1)); [lia | reflexivity]). }
  rewrite Hseed.
  induction (get_completion_history t habit_name) as [|c l IH];
    [reflexivity|].
  cbn [fold_left]. cbn [date_in existsb] in *.
  now destruct (date_leb _ c && date_leb c today).
Qed.

End TrendTotals.

(* ================================================================== *)
(** * The states the command line can reach *)
(* ================================================================== *)

Section Reachable.
Import Datetime HabitPy TrackerPy AnalysePy Props TrackerOps MainPy Facts.

(** A property of habits that renaming, a valid new periodicity, an
    accepted new longest streak and saving keep is kept, on every row,
    by [edit_habit]. *)
Lemma edit_habit_rows (P : Habit -> Prop) (t : Tracker) (n : string)
    (nn np : option string) (nl : pyarg) :
  (forall r new, P r -> P (set_name new r)) ->
  (forall r p, In p PERIODICITIES -> P r -> P (set_periodicity p r)) ->
  (forall r z, nl = PyInt z -> 0 <= z -> P r -> P (set_longest_streak z r)) ->
  (forall h r, P h -> P r -> P (saved h r)) ->
  Forall (fun row => P (snd row)) (habits t) ->
  Forall (fun row => P (snd row))
         (habits (fst (fst (edit_habit t n nn np nl)))).
Proof.
  intros Hname Hper Hlong Hsave Hrows.
  unfold edit_habit, _save_habit, update_habit.
  destruct (get_habit t n) as [h|] eqn:Hget; [|exact Hrows].
  pose proof (get_habit_row P t n h Hrows Hget) as Hh.
  destruct (truthy nn && rename_conflicts t n (arg nn)); [exact Hrows|].
  destruct (truthy nn);
    destruct (truthy np && str_in (arg np) PERIODICITIES) eqn:Ep;
    try (apply andb_true_iff in Ep as [_ Ep]; apply str_in_In in Ep);
    try destruct (truthy np);
    destruct nl as [|z|]; try destruct (Z.leb_spec 0 z);
    try destruct (z <=? SQLITE_MAX_INTEGER) eqn:Em;
    cbn [fst snd app];
    try (apply sql_update_rows;
         [intros r Hr; apply (Hsave _ r); [|exact Hr];
          repeat first [apply Hlong; [reflexivity | assumption |]
                       | apply Hper; [assumption|]
                       | apply Hname];
          exact Hh|]);
    repeat first [apply sql_update_rows;
                  [intros r Hr;
                   first [apply Hlong; [reflexivity | assumption | exact Hr]
                         | apply Hper; [assumption | exact Hr]
                         | apply Hname; exact Hr]|]];
    exact Hrows.
Qed.

Lemma sound_saved (h r : Habit) : sound h -> sound r -> sound (saved h r).
Proof.
  unfold sound, streak_le_longest, saved.
  intros [H1 [H2 [H3 _]]] [_ [_ [_ H4]]]. cbn. auto.
Qed.

Lemma sound_increment (today : date) (h : Habit) :
  sound h -> sound (fst (increment today h)).
Proof.
  unfold sound, streak_le_longest. intros [H1 [H2 [H3 H4]]].
  destruct (due_dec today h) as [Hd | Hd].
  - rewrite (increment_due _ _ Hd). cbn. repeat split; auto; lia.
  - rewrite (increment_not_due _ _ Hd). cbn. auto.
Qed.

Lemma sound_rows_record (t : Tracker) (today : date) (n : string) :
  Forall (fun row => sound (snd row)) (habits t) ->
  Forall (fun row => sound (snd row))
         (habits (fst (TrackerOps.record_completion t today n))).
Proof.
  intros Hrows.
  destruct (get_habit t n) as [h|] eqn:Hget.
  - rewrite (record_completion_habits _ _ _ _ Hget).
    unfold update_habit. cbn [fst].
    apply sql_update_rows; [|exact Hrows].
    intros r Hr. apply sound_saved; [|exact Hr].
    apply sound_increment. apply (get_habit_row sound t n h Hrows Hget).
  - unfold TrackerOps.record_completion. now rewrite Hget.
Qed.

Lemma sound_rows_edit (t : Tracker) (n : string) (nn np : option string) :
  Forall (fun row => sound (snd row)) (habits t) ->
  Forall (fun row => sound (snd row))
         (habits (fst (fst (edit_habit t n nn np PyNone)))).
Proof.
  apply edit_habit_rows.
  - intros r new H. exact H.
  - intros r p Hp [H1 [H2 [H3 _]]]. repeat split; auto.
  - discriminate.
  - apply sound_saved.
Qed.

(** One command keeps the constraints of the schema and the soundness of
    every stored habit. *)
Lemma run_command_keeps (db : Db) (c : command) :
  consistent db /\ Forall (fun row => sound (snd row)) (habits (tables db)) ->
  consistent (fst (run_command db c))
  /\ Forall (fun row => sound (snd row))
            (habits (tables (fst (run_command db c)))).
Proof.
  intros [Hc Hrows]. destruct c as [n p | n new | n p | n | today n];
    cbn [run_command].
  - unfold create, choice_ok.
    destruct (str_in p PERIODICITIES) eqn:Ep; cbn [negb]; [|auto].
    pose proof (consistent_create db n p Hc) as Hc'.
    assert (Hrows' : Forall (fun row => sound (snd row))
                       (habits (tables (fst (fst (create_habit db n p)))))).
    { unfold create_habit. destruct (existsb _ _); cbn [fst tables habits];
        [exact Hrows|].
      apply Forall_app. split; [exact Hrows|].
      constructor; [|constructor]. cbn [snd].
      unfold sound, streak_le_longest.
      cbn [streak longest_streak streak_saves periodicity].
      split; [lia | split; [lia | split; [reflexivity|]]].
      now apply str_in_In. }
    destruct (create_habit db n p) as [[db' r] out]. cbn [fst] in *. auto.
  - unfold edit_name.
    pose proof (consistent_edit db n (Some new) None PyNone Hc) as Hc'.
    pose proof (sound_rows_edit (tables db) n (Some new) None Hrows)
      as Hrows'.
    destruct (edit_habit (tables db) n (Some new) None PyNone)
      as [[t' [r | e]] out]; cbn [fst] in *; auto.
  - unfold edit_periodicity, choice_ok.
    destruct (str_in p PERIODICITIES); cbn [negb]; [|auto].
    pose proof (consistent_edit db n None (Some p) PyNone Hc) as Hc'.
    pose proof (sound_rows_edit (tables db) n None (Some p) Hrows)
      as Hrows'.
    destruct (edit_habit (tables db) n None (Some p) PyNone)
      as [[t' [r | e]] out]; cbn [fst] in *; auto.
  - unfold delete.
    pose proof (consistent_delete db n Hc) as Hc'.
    assert (Hrows' : Forall (fun row => sound (snd row))
                       (habits (fst (delete_habit (tables db) n)))).
    { rewrite delete_habit_tables. cbn [habits].
      rewrite Forall_forall in *. intros row Hin.
      apply filter_In in Hin as [Hin _]. auto. }
    destruct (delete_habit (tables db) n) as [t' out]. cbn [fst] in *. auto.
  - unfold record_completion.
    destruct (get_habit (tables db) n); [|auto].
    pose proof (consistent_record db today n Hc) as Hc'.
    pose proof (sound_rows_record (tables db) today n Hrows) as Hrows'.
    destruct (TrackerOps.record_completion (tables db) today n)
      as [t' out]. cbn [fst] in *. auto.
Qed.

Lemma run_keeps (session : list command) :
  consistent (run empty_db session)
  /\ Forall (fun row => sound (snd row))
            (habits (tables (run empty_db session))).
Proof.
  unfold run.
  assert (H0 : consistent empty_db
               /\ Forall (fun row => sound (snd row))
                         (habits (tables empty_db))).
  { unfold consistent, empty_db. cbn.
    repeat split; try constructor; lia. }
  revert H0. generalize empty_db.
  induction session as [|c cs IH]; intros db0 H0; [exact H0|].
  cbn [fold_left]. apply IH. now apply run_command_keeps.
Qed.

(** Whatever commands are run on a new database, in every state reached
    the constraints of the schema hold and every stored habit has
    [longest_streak >= streak >= 0], a periodicity among daily, weekly,
    monthly, and no streak saves: the command line never passes a new
    longest streak to [edit_habit], and nothing ever grants a save, so
    [Habit.streak_save] can never succeed on a stored habit. *)
Theorem cli_reachable_invariants (session : list command) (today : date) :
  let db := run empty_db session in
  consistent db
  /\ (forall n h, get_habit (tables db) n = Some h ->
      streak_le_longest h
      /\ 0 <= streak h
      /\ In (periodicity h) PERIODICITIES
      /\ streak_saves h = 0
      /\ streak_save today h = (h, [NoStreakSaves n])).
Proof.
  intros db. destruct (run_keeps session) as [Hc Hrows]. fold db in Hc, Hrows.
  split; [exact Hc|].
  intros n h Hget.
  destruct (get_habit_row sound _ _ _ Hrows Hget) as [H1 [H2 [H3 H4]]].
  repeat split; auto.
  unfold streak_save. rewrite H3. cbn.
  now rewrite (get_habit_name _ _ _ Hget).
Qed.

Lemma cli_reachable_invariants_witness :
  let session := [Create "Read" "daily";
                  RecordCompletion (mkdate 2025 4 14) "Read";
                  EditName "Read" "Books"] in
  let h := mkHabit "Books" "daily" 1 (Some (mkdate 2025 4 14)) 0 1 in
  get_habit (tables (run empty_db session)) "Books" = Some h
  /\ streak_save (mkdate 2025 4 20) h = (h, [NoStreakSaves "Books"]).
Proof.
  intros session h.
  assert (Hget : get_habit (tables (run empty_db session)) "Books" = Some h)
    by (vm_compute; reflexivity).
  split; [exact Hget|].
  destruct (cli_reachable_invariants session (mkdate 2025 4 20))
    as [_ Hall].
  destruct (Hall "Books"%string h Hget) as [_ [_ [_ [_ Hsave]]]].
  exact Hsave.
Defined.

Lemma NoDup_rows_of_id (id : Z) (l : list (Z * date)) :
  NoDup l -> NoDup (map snd (filter (fun c => fst c =? id) l)).
Proof.
  induction 1 as [|c l Hc Hnd IH]; cbn; [constructor|].
  destruct (Z.eqb_spec (fst c) id) as [E | E]; [|exact IH].
  cbn. constructor; [|exact IH].
  intros Hin. apply in_map_iff in Hin as [c' [Hd Hc']].
  apply filter_In in Hc' as [Hc' Hid]. apply Z.eqb_eq in Hid.
  apply Hc. destruct c as [i d], c' as [i' d']. cbn in *. now subst.
Qed.

(** A completion history never lists a date twice: in a database that
    meets the constraints of the schema, and so in every state the
    command line reaches, recording several times on one date leaves
    one completion. *)
Theorem history_has_no_duplicates (db : Db) (session : list command)
    (n : string) :
  (consistent db -> NoDup (get_completion_history (tables db) n))
  /\ NoDup (get_completion_history (tables (run empty_db session)) n).
Proof.
  assert (H : forall db, consistent db ->
                         NoDup (get_completion_history (tables db) n)).
  { clear. intros db [_ [_ [Hcomp _]]]. unfold get_completion_history.
    destruct (_get_habit_id (tables db) n) as [id|]; [|constructor].
    destruct (id =? 0); [constructor|].
    apply order_by_date_NoDup. now apply NoDup_rows_of_id. }
  split; [apply H|]. apply H. apply run_keeps.
Qed.

Lemma history_has_no_duplicates_witness :
  let db := mkDb (mkTracker [(1, mkHabit "Run" "daily" 1 None 0 1)]
                            [(1, mkdate 2025 4 15)]) 1 in
  NoDup (get_completion_history (tables db) "Run").
Proof.
  intros db.
  destruct (history_has_no_duplicates db [] "Run") as [H _].
  apply H. unfold consistent. cbn.
  repeat split; repeat constructor; cbn; try lia;
    try (intros [H' | H']; try discriminate H'; try contradiction);
    try (intros []).
Defined.

End Reachable.

(* ================================================================== *)
(** * The range of the dates, and where the program raises nothing *)
(* ================================================================== *)

Section DateRange.
Import Exceptions Datetime Relativedelta Props.

Lemma is_date_fields (d : date) :
  is_date d = true <-> 1 <= year d <= 9999 /\ valid_date d = true.
Proof.
  unfold is_date, MINYEAR, MAXYEAR. rewrite !andb_true_iff, !Z.leb_le. tauto.
Qed.

Lemma is_date_valid (d : date) : is_date d = true -> valid_date d = true.
Proof. intros H. now apply is_date_fields in H. Qed.

(** The ordinals of the dates are the numbers from 1 to [_MAXORDINAL]. *)
Lemma is_date_ordinal (d : date) :
  is_date d = true -> 1 <= toordinal d <= _MAXORDINAL.
Proof.
  intros H. apply is_date_fields in H as [Hy Hv].
  destruct d as [y m dd]. cbn [year] in Hy.
  pose proof (day_of_year_bounds y m dd Hv) as Hd.
  pose proof (days_before_year_mono 1 y (proj1 Hy)) as H1.
  pose proof (days_before_year_mono (y + 1) 10000 ltac:(lia)) as H2.
  rewrite days_before_year_succ in H2.
  change (days_before_year 1) with 0 in H1.
  change (days_before_year 10000) with 3652059 in H2.
  unfold toordinal, ymd2ord, _MAXORDINAL. cbn [year month day].
  destruct (is_leap y); lia.
Qed.

Lemma fromordinal_is_date (n : Z) :
  1 <= n <= _MAXORDINAL -> is_date (fromordinal n) = true.
Proof.
  intros Hn. apply is_date_fields.
  pose proof (valid_fromordinal n) as Hv.
  pose proof (toordinal_fromordinal n) as Ho.
  split; [|exact Hv].
  destruct (fromordinal n) as [y m dd]. cbn [year].
  pose proof (day_of_year_bounds y m dd Hv) as Hd.
  unfold toordinal, ymd2ord in Ho. cbn [year month day] in Ho.
  unfold _MAXORDINAL in Hn.
  destruct (Z.le_gt_cases y 0) as [Hlo | Hlo].
  - pose proof (days_before_year_mono (y + 1) 1 ltac:(lia)) as H1.
    rewrite days_before_year_succ in H1.
    change (days_before_year 1) with 0 in H1.
    destruct (is_leap y); lia.
  - destruct (Z.le_gt_cases 10000 y) as [Hhi | Hhi]; [|lia].
    pose proof (days_before_year_mono 10000 y Hhi) as H2.
    change (days_before_year 10000) with 3652059 in H2. lia.
Qed.

Lemma timedelta_new_ok (d w : Z) :
  Z.abs (d + 7 * w) <= 999999999 -> timedelta_new d w = Ok (d + 7 * w).
Proof.
  intros H. unfold timedelta_new. apply Z.leb_le in H. now rewrite H.
Qed.

Lemma date_add_ok (d : date) (n : Z) :
  1 <= toordinal d + n <= _MAXORDINAL ->
  date_add d n = Ok (Unbounded.date_add d n).
Proof.
  intros [H1 H2]. unfold date_add, Unbounded.date_add.
  apply Z.leb_le in H2. rewrite H2.
  replace (0 <? toordinal d + n) with true
    by (symmetry; apply Z.ltb_lt; lia).
  reflexivity.
Qed.

Lemma date_add_raises (d : date) (n : Z) :
  toordinal d + n < 1 \/ _MAXORDINAL < toordinal d + n ->
  date_add d n = Raise OverflowError.
Proof.
  intros H. unfold date_add.
  destruct (Z.ltb_spec 0 (toordinal d + n)),
    (Z.leb_spec (toordinal d + n) _MAXORDINAL); cbn [andb];
    try reflexivity; lia.
Qed.

Lemma date_sub_ok (d : date) (n : Z) :
  1 <= toordinal d - n <= _MAXORDINAL ->
  date_sub d n = Ok (Unbounded.date_sub d n).
Proof.
  intros H. unfold date_sub, Unbounded.date_sub. apply date_add_ok. lia.
Qed.

Lemma date_sub_raises (d : date) (n : Z) :
  toordinal d - n < 1 \/ _MAXORDINAL < toordinal d - n ->
  date_sub d n = Raise OverflowError.
Proof.
  intros H. unfold date_sub. apply date_add_raises. lia.
Qed.

Lemma date_new_ok (y m d : Z) :
  is_date (mkdate y m d) = true -> date_new y m d = Ok (mkdate y m d).
Proof. intros H. unfold date_new. now rewrite H. Qed.

(** A loop whose body raises nothing is a fold. *)
Lemma for_each_ok (A S : Type) (body : S -> A -> result S)
    (f : S -> A -> S) (l : list A) (s : S) :
  (forall a s, In a l -> body s a = Ok (f s a)) ->
  for_each body l s = Ok (fold_left f l s).
Proof.
  revert s. induction l as [|a l IH]; intros s H; [reflexivity|].
  cbn [for_each fold_left]. rewrite H by now left.
  cbn [bind]. apply IH. intros a' s' Ha'. apply H. now right.
Qed.

(** The first day of a month is a date when the month is one of the
    years 1 to 9999. *)
Lemma month_of_index_is_date (i : Z) :
  12 <= i <= 12 * MAXYEAR + 11 -> is_date (month_of_index i) = true.
Proof.
  intros Hi. apply is_date_fields. split; [|apply month_of_index_valid].
  unfold month_of_index, MAXYEAR in *. cbn [year].
  Z.div_mod_to_equations. lia.
Qed.

Lemma radd_first_day_ok (ys ms y m : Z) :
  -11 <= ms <= 11 -> 1 <= m <= 12 ->
  12 <= 12 * y + (m - 1) + 12 * ys + ms <= 12 * MAXYEAR + 11 ->
  radd (mkrd ys ms) (mkdate y m 1)
  = Ok (month_of_index (12 * y + (m - 1) + 12 * ys + ms)).
Proof.
  intros Hms Hm Hi. unfold radd.
  cbn [year month day years months].
  assert (Hstep : forall y' m', 1 <= m' <= 12 ->
            12 * y' + (m' - 1) = 12 * y + (m - 1) + 12 * ys + ms ->
            (days <- monthrange_days y' m' ;;
             ret <- date_new y' m' (Z.min days 1) ;;
             date_add ret (timedelta_days 0))
            = Ok (month_of_index (12 * y + (m - 1) + 12 * ys + ms))).
  { intros y' m' Hm' E.
    pose proof (days_in_month_bounds y' m' Hm').
    unfold monthrange_days.
    replace ((1 <=? m') && (m' <=? 12)) with true
      by (symmetry; apply andb_true_iff; split; apply Z.leb_le; lia).
    cbn [bind]. rewrite Z.min_r by lia.
    assert (Hd : mkdate y' m' 1
                 = month_of_index (12 * y + (m - 1) + 12 * ys + ms))
      by (rewrite <- E; symmetry; now apply month_of_index_fields).
    rewrite date_new_ok
      by (rewrite Hd; now apply month_of_index_is_date).
    cbn [bind]. rewrite Hd.
    pose proof (is_date_ordinal _ (month_of_index_is_date _ Hi)) as Ho.
    rewrite date_add_ok by (unfold timedelta_days; lia).
    f_equal. apply date_add_zero. apply month_of_index_valid. }
  destruct (Z.eqb_spec ms 0) as [E0 | E0].
  - apply Hstep; lia.
  - destruct (Z.ltb_spec 12 (m + ms)).
    + apply Hstep; lia.
    + destruct (Z.ltb_spec (m + ms) 1); apply Hstep; lia.
Qed.

Lemma radd_months_ok (k i : Z) :
  12 <= i + k <= 12 * MAXYEAR + 11 ->
  radd (new 0 k) (month_of_index i) = Ok (month_of_index (i + k)).
Proof.
  intros Hi. destruct (new_months k) as [Hm Hk].
  destruct (new 0 k) as [ys ms]. cbn [years months] in *.
  unfold month_of_index at 1.
  rewrite radd_first_day_ok.
  - f_equal. f_equal. Z.div_mod_to_equations. lia.
  - exact Hm.
  - Z.div_mod_to_equations. lia.
  - Z.div_mod_to_equations. lia.
Qed.

Lemma rsub_months_ok (k i : Z) :
  12 <= i - k <= 12 * MAXYEAR + 11 ->
  rsub (new 0 k) (month_of_index i) = Ok (month_of_index (i - k)).
Proof.
  intros Hi. unfold rsub.
  destruct (new_months k) as [Hm Hk].
  rewrite neg_normal by exact Hm.
  destruct (new 0 k) as [ys ms]. cbn [years months] in *.
  unfold month_of_index at 1.
  rewrite radd_first_day_ok.
  - f_equal. f_equal. Z.div_mod_to_equations. lia.
  - lia.
  - Z.div_mod_to_equations. lia.
  - Z.div_mod_to_equations. lia.
Qed.

End DateRange.

(* ================================================================== *)
(** * The trends inside the range of the dates *)
(* ================================================================== *)

Section TrendsInRange.
Import Exceptions Datetime Relativedelta HabitPy TrackerPy AnalysePy Props.

(** Where the window of the daily trend lies inside the calendar, the
    program computes the trend of the unbounded calendar. *)
Lemma calculate_daily_trend_ok (t : Tracker) (today : date)
    (habit_name : string) (num_days : Z) :
  is_date today = true ->
  1 <= toordinal today - (num_days - 1) <= _MAXORDINAL ->
  calculate_daily_trend t today habit_name num_days
  = Ok (Unbounded.calculate_daily_trend t today habit_name num_days).
Proof.
  intros Ht Hw. pose proof (is_date_ordinal _ Ht) as Ho.
  unfold calculate_daily_trend, Unbounded.calculate_daily_trend.
  destruct (get_habit t habit_name); [|reflexivity].
  unfold _MAXORDINAL in *.
  rewrite timedelta_new_ok by lia. cbn [bind].
  replace (num_days - 1 + 7 * 0) with (num_days - 1) by lia.
  rewrite date_sub_ok by (unfold _MAXORDINAL; lia). cbn [bind].
  unfold timedelta_days.
  apply for_each_ok. intros n trend Hn.
  assert (Hr : 0 <= n < num_days).
  { unfold range in Hn. apply in_map_iff in Hn as [k [<- Hk]].
    apply in_seq in Hk. lia. }
  rewrite timedelta_new_ok by lia. cbn [bind].
  replace (n + 7 * 0) with n by lia.
  rewrite date_add_ok; [reflexivity|].
  unfold Unbounded.date_sub, Unbounded.date_add.
  rewrite toordinal_fromordinal. unfold _MAXORDINAL. lia.
Qed.

(** The Monday on or before a date is a date. *)
Lemma week_start_in_range (c : date) :
  is_date c = true -> 1 <= toordinal c - weekday c <= _MAXORDINAL.
Proof.
  intros Hc. pose proof (is_date_ordinal _ Hc) as Ho.
  unfold weekday. Z.div_mod_to_equations. lia.
Qed.

Lemma calculate_weekly_trend_ok (t : Tracker) (today : date)
    (habit_name : string) (num_weeks : Z) :
  is_date today = true ->
  Forall (fun c => is_date c = true) (get_completion_history t habit_name) ->
  1 <= toordinal today - 7 * num_weeks <= _MAXORDINAL ->
  calculate_weekly_trend t today habit_name num_weeks
  = Ok (Unbounded.calculate_weekly_trend t today habit_name num_weeks).
Proof.
  intros Ht Hall Hw. pose proof (is_date_ordinal _ Ht) as Ho.
  unfold calculate_weekly_trend, Unbounded.calculate_weekly_trend.
  destruct (get_habit t habit_name); [|reflexivity].
  unfold _MAXORDINAL in *.
  rewrite timedelta_new_ok by lia. cbn [bind].
  replace (0 + 7 * num_weeks) with (7 * num_weeks) by lia.
  rewrite date_sub_ok by (unfold _MAXORDINAL; lia). cbn [bind].
  unfold timedelta_weeks, timedelta_days.
  apply for_each_ok. intros c trend Hc.
  rewrite Forall_forall in Hall. specialize (Hall c Hc).
  destruct (date_leb _ c && date_leb c today); [|reflexivity].
  pose proof (week_start_in_range c Hall) as Hs.
  assert (Hwd : 0 <= weekday c <= 6)
    by (unfold weekday; Z.div_mod_to_equations; lia).
  rewrite timedelta_new_ok by lia. cbn [bind].
  replace (weekday c + 7 * 0) with (weekday c) by lia.
  rewrite date_sub_ok by exact Hs. reflexivity.
Qed.

Lemma seed_months_ok (fuel : nat) (i j : Z) (expected : list date)
    (trend : dict) :
  12 <= i -> 12 <= j + 1 <= 12 * MAXYEAR + 11 ->
  seed_months fuel (month_of_index i) (month_of_index j) expected trend
  = option_map Ok
      (Unbounded.seed_months fuel (month_of_index i) (month_of_index (j + 1))
         expected trend).
Proof.
  intros Hi Hj. revert i Hi expected trend.
  induction fuel as [|fuel IH]; intros i Hi expected trend;
    cbn [seed_months Unbounded.seed_months];
    rewrite (radd_months_ok 1 j) by exact Hj;
    rewrite month_of_index_ltb;
    destruct (Z.ltb_spec i (j + 1)); try reflexivity.
  rewrite (radd_months_ok 1 i) by lia.
  rewrite radd_months. apply IH. lia.
Qed.

Lemma calculate_monthly_trend_ok (fuel : nat) (t : Tracker) (today : date)
    (habit_name : string) (num_months : Z) :
  is_date today = true ->
  Forall (fun c => is_date c = true) (get_completion_history t habit_name) ->
  12 <= month_index today - num_months <= 12 * MAXYEAR + 11 ->
  month_index today + 1 <= 12 * MAXYEAR + 11 ->
  calculate_monthly_trend fuel t today habit_name num_months
  = option_map Ok
      (Unbounded.calculate_monthly_trend fuel t today habit_name num_months).
Proof.
  intros Ht Hall Hs He.
  apply is_date_fields in Ht as Hf. destruct Hf as [Hy Hv].
  destruct (valid_date_fields _ Hv) as [Hm _].
  unfold calculate_monthly_trend, Unbounded.calculate_monthly_trend.
  destruct (get_habit t habit_name); [|reflexivity].
  assert (Hfirst : mkdate (year today) (month today) 1
                   = month_of_index (month_index today))
    by (unfold month_index; symmetry; now apply month_of_index_fields).
  assert (Hidx : 12 <= month_index today)
    by (unfold month_index; lia).
  rewrite date_new_ok
    by (rewrite Hfirst; apply month_of_index_is_date; lia).
  rewrite Hfirst.
  rewrite rsub_months_ok by exact Hs.
  rewrite rsub_months, radd_months.
  rewrite seed_months_ok by lia.
  destruct (Unbounded.seed_months fuel _ _ [] []) as [[expected trend]|];
    [|reflexivity].
  cbn [option_map]. f_equal.
  rewrite (for_each_ok _ _ _
             (fun trend completion_date =>
                if date_leb (month_of_index (month_index today - num_months))
                            completion_date
                   && date_leb completion_date today
                then
                  if date_in (mkdate (year completion_date)
                                     (month completion_date) 1) expected
                  then dict_incr (mkdate (year completion_date)
                                         (month completion_date) 1) trend
                  else trend
                else trend)).
  - reflexivity.
  - intros c d Hc. rewrite Forall_forall in Hall. specialize (Hall c Hc).
    destruct (date_leb _ c && date_leb c today); [|reflexivity].
    apply is_date_fields in Hall as [Hyc Hvc].
    destruct (valid_date_fields _ Hvc) as [Hmc _].
    rewrite date_new_ok.
    + cbn [bind]. now destruct (date_in _ expected).
    + apply is_date_fields. cbn [year]. split; [exact Hyc|].
      now apply valid_first_of_month.
Qed.

End TrendsInRange.

(* ================================================================== *)
(** * The order of the weekly buckets *)
(* ================================================================== *)

Section WeeklyOrder.
Import Exceptions Datetime HabitPy TrackerPy AnalysePy Props.

Lemma date_leb_neq_ltb (a b : date) :
  date_leb a b = true -> a <> b -> date_ltb a b = true.
Proof.
  unfold date_leb. intros H Hne.
  apply orb_true_iff in H as [H | H]; [exact H|].
  apply date_eqb_eq in H. contradiction.
Qed.

Lemma ascending_snoc (keys : list date) (k : date) :
  ascending keys ->
  (forall k', In k' keys -> date_ltb k' k = true) ->
  ascending (keys ++ [k]).
Proof.
  unfold ascending. induction 1 as [|a l Hl IH Ha]; intros Hk; cbn.
  - constructor; constructor.
  - constructor.
    + apply IH. intros k' Hk'. apply Hk. now right.
    + apply Forall_app. split; [exact Ha|].
      constructor; [|constructor]. apply Hk. now left.
Qed.

(** Counting a list that is in ascending order into buckets that grow
    with the dates lists the buckets in ascending order. *)
Lemma fold_count_ascending (p : date -> bool) (bucket : date -> date)
    (l : list date) (d : dict) :
  (forall a b, In a l -> In b l -> date_leb a b = true ->
               date_leb (bucket a) (bucket b) = true) ->
  StronglySorted (fun a b => date_leb a b = true) l ->
  ascending (map fst d) ->
  (forall k c, In k (map fst d) -> In c l -> p c = true ->
               date_leb k (bucket c) = true) ->
  ascending (map fst (fold_left (count_step p bucket) l d)).
Proof.
  intros Hmono Hsorted. revert d.
  induction Hsorted as [|c l Hl IH Hc]; intros d Hd Hkeys; [exact Hd|].
  cbn [fold_left].
  assert (Hmono' : forall a b, In a l -> In b l -> date_leb a b = true ->
                               date_leb (bucket a) (bucket b) = true)
    by (intros a b Ha Hb; apply Hmono; now right).
  unfold count_step at 2. destruct (p c) eqn:Hp.
  - apply (IH Hmono').
    + unfold dict_incr. rewrite dict_set_keys.
      destruct (date_in (bucket c) (map fst d)) eqn:Ein; [exact Hd|].
      apply ascending_snoc; [exact Hd|].
      intros k' Hk'. apply date_leb_neq_ltb.
      * apply (Hkeys k' c Hk'); [now left | exact Hp].
      * intros ->. apply date_in_false in Ein. contradiction.
    + intros k c' Hk Hc' Hp'.
      unfold dict_incr in Hk. rewrite dict_set_keys in Hk.
      assert (Hcase : In k (map fst d) \/ k = bucket c).
      { destruct (date_in (bucket c) (map fst d)); [now left|].
        apply in_app_iff in Hk as [Hk | [Hk | []]]; [now left | now right]. }
      destruct Hcase as [Hk' | ->].
      * apply (Hkeys k c' Hk'); [now right | exact Hp'].
      * apply Hmono; [now left | now right|].
        rewrite Forall_forall in Hc. now apply Hc.
  - apply (IH Hmono'); [exact Hd|].
    intros k c' Hk Hc' Hp'. apply (Hkeys k c' Hk); [now right | exact Hp'].
Qed.

Lemma week_start_mono (a b : date) :
  valid_date a = true -> valid_date b = true ->
  date_leb a b = true -> date_leb (week_start a) (week_start b) = true.
Proof.
  intros Ha Hb H. rewrite date_leb_ordinal in H by assumption.
  apply Z.leb_le in H.
  unfold week_start, Unbounded.date_sub, Unbounded.date_add, timedelta_days.
  rewrite date_leb_ordinal by apply valid_fromordinal.
  rewrite !toordinal_fromordinal. apply Z.leb_le.
  unfold weekday. Z.div_mod_to_equations. lia.
Qed.

(** The keys of the weekly trend of the unbounded calendar are in
    ascending order, because the history is. *)
Lemma weekly_trend_ascending_unbounded (t : Tracker) (today : date)
    (habit_name : string) (num_weeks : Z) (h : Habit) :
  get_habit t habit_name = Some h ->
  Forall (fun c => valid_date c = true)
         (get_completion_history t habit_name) ->
  ascending
    (map fst (Unbounded.calculate_weekly_trend t today habit_name num_weeks)).
Proof.
  intros Hget Hall.
  rewrite (weekly_trend_fold_unbounded _ _ _ _ _ Hget).
  rewrite Forall_forall in Hall.
  apply fold_count_ascending.
  - intros a b Ha Hb. apply week_start_mono; auto.
  - apply history_sorted.
  - constructor.
  - intros k c [].
Qed.

End WeeklyOrder.

(* ================================================================== *)
(** * Where the trends raise *)
(* ================================================================== *)

Section TrendsOutOfRange.
Import Exceptions Datetime Relativedelta HabitPy TrackerPy AnalysePy Props.

Lemma month_of_index_not_date (i : Z) :
  i < 12 \/ 12 * MAXYEAR + 11 < i -> is_date (month_of_index i) = false.
Proof.
  intros Hi. destruct (is_date (month_of_index i)) eqn:E; [|reflexivity].
  apply is_date_fields in E as [Hy _].
  unfold month_of_index, MAXYEAR in *. cbn [year] in Hy.
  exfalso. Z.div_mod_to_equations. lia.
Qed.

Lemma radd_first_day_raises (ys ms y m : Z) :
  -11 <= ms <= 11 -> 1 <= m <= 12 ->
  12 * y + (m - 1) + 12 * ys + ms < 12
  \/ 12 * MAXYEAR + 11 < 12 * y + (m - 1) + 12 * ys + ms ->
  radd (mkrd ys ms) (mkdate y m 1) = Raise ValueError.
Proof.
  intros Hms Hm Hi. unfold radd.
  cbn [year month day years months].
  assert (Hstep : forall y' m', 1 <= m' <= 12 ->
            12 * y' + (m' - 1) = 12 * y + (m - 1) + 12 * ys + ms ->
            (days <- monthrange_days y' m' ;;
             ret <- date_new y' m' (Z.min days 1) ;;
             date_add ret (timedelta_days 0))
            = Raise ValueError).
  { intros y' m' Hm' E.
    pose proof (days_in_month_bounds y' m' Hm').
    unfold monthrange_days.
    replace ((1 <=? m') && (m' <=? 12)) with true
      by (symmetry; apply andb_true_iff; split; apply Z.leb_le; lia).
    cbn [bind]. rewrite Z.min_r by lia.
    assert (Hd : mkdate y' m' 1
                 = month_of_index (12 * y + (m - 1) + 12 * ys + ms))
      by (rewrite <- E; symmetry; now apply month_of_index_fields).
    unfold date_new. rewrite Hd, month_of_index_not_date by exact Hi.
    reflexivity. }
  destruct (Z.eqb_spec ms 0) as [E0 | E0].
  - apply Hstep; lia.
  - destruct (Z.ltb_spec 12 (m + ms)).
    + apply Hstep; lia.
    + destruct (Z.ltb_spec (m + ms) 1); apply Hstep; lia.
Qed.

Lemma rsub_months_raises (k i : Z) :
  i - k < 12 \/ 12 * MAXYEAR + 11 < i - k ->
  rsub (new 0 k) (month_of_index i) = Raise ValueError.
Proof.
  intros Hi. unfold rsub.
  destruct (new_months k) as [Hm Hk].
  rewrite neg_normal by exact Hm.
  destruct (new 0 k) as [ys ms]. cbn [years months] in *.
  unfold month_of_index at 1.
  apply radd_first_day_raises.
  - lia.
  - Z.div_mod_to_equations. lia.
  - Z.div_mod_to_equations. lia.
Qed.

Lemma calculate_daily_trend_raises (t : Tracker) (today : date)
    (habit_name : string) (num_days : Z) (h : Habit) :
  get_habit t habit_name = Some h ->
  toordinal today - (num_days - 1) < 1
  \/ _MAXORDINAL < toordinal today - (num_days - 1) ->
  calculate_daily_trend t today habit_name num_days = Raise OverflowError.
Proof.
  intros Hget Hw. unfold calculate_daily_trend. rewrite Hget.
  unfold timedelta_new.
  destruct (Z.abs (num_days - 1 + 7 * 0) <=? 999999999); [|reflexivity].
  cbn [bind]. rewrite date_sub_raises; [reflexivity | lia].
Qed.

Lemma calculate_weekly_trend_raises (t : Tracker) (today : date)
    (habit_name : string) (num_weeks : Z) (h : Habit) :
  get_habit t habit_name = Some h ->
  toordinal today - 7 * num_weeks < 1
  \/ _MAXORDINAL < toordinal today - 7 * num_weeks ->
  calculate_weekly_trend t today habit_name num_weeks = Raise OverflowError.
Proof.
  intros Hget Hw. unfold calculate_weekly_trend. rewrite Hget.
  unfold timedelta_new.
  destruct (Z.abs (0 + 7 * num_weeks) <=? 999999999); [|reflexivity].
  cbn [bind]. rewrite date_sub_raises; [reflexivity | lia].
Qed.

Lemma calculate_monthly_trend_raises (fuel : nat) (t : Tracker)
    (today : date) (habit_name : string) (num_months : Z) (h : Habit) :
  get_habit t habit_name = Some h ->
  is_date today = true ->
  month_index today - num_months < 12
  \/ 12 * MAXYEAR + 11 < month_index today - num_months ->
  calculate_monthly_trend fuel t today habit_name num_months
  = Some (Raise ValueError).
Proof.
  intros Hget Ht Hw.
  apply is_date_fields in Ht as Hf. destruct Hf as [Hy Hv].
  destruct (valid_date_fields _ Hv) as [Hm _].
  unfold calculate_monthly_trend. rewrite Hget.
  assert (Hfirst : mkdate (year today) (month today) 1
                   = month_of_index (month_index today))
    by (unfold month_index; symmetry; now apply month_of_index_fields).
  rewrite date_new_ok
    by (rewrite Hfirst; apply month_of_index_is_date;
        unfold month_index, MAXYEAR; lia).
  rewrite Hfirst. now rewrite rsub_months_raises.
Qed.

Lemma date_sub_unbounded (d : date) (n : Z) :
  Unbounded.date_sub d n = fromordinal (toordinal d - n).
Proof.
  reflexivity.
Qed.

End TrendsOutOfRange.

(* ================================================================== *)
(** * The three trends of the program *)
(* ================================================================== *)

Section Trends.
Import Exceptions Datetime Relativedelta HabitPy TrackerPy AnalysePy Props.

(** C5, as the code has it.  For an existing habit, a reference date and
    [num_days >= 1]: when the window starts no earlier than 1 January of
    year 1, that is [num_days] is at most the ordinal of the reference
    date, [calculate_daily_trend] returns exactly [num_days] entries
    with pairwise distinct keys; the entry at position [i] is the date
    [num_days - 1 - i] days before the reference date, so the keys are
    consecutive dates, oldest first, and the last one is the reference
    date; the value of an entry is 1 when its date is in the completion
    history and 0 otherwise.  For a larger [num_days] the call raises
    [OverflowError]. *)
Theorem calculate_daily_trend_spec (t : Tracker) (today : date)
    (habit_name : string) (num_days : Z) (h : Habit) :
  get_habit t habit_name = Some h ->
  is_date today = true ->
  1 <= num_days ->
  let history := get_completion_history t habit_name in
  (num_days <= toordinal today ->
   exists trend,
     calculate_daily_trend t today habit_name num_days = Ok trend
     /\ List.length trend = Z.to_nat num_days
     /\ NoDup (map fst trend)
     /\ (forall i, 0 <= i < num_days ->
         exists day v,
           nth_error trend (Z.to_nat i) = Some (day, v)
           /\ is_date day = true
           /\ toordinal day = toordinal today - (num_days - 1) + i
           /\ (In day history -> v = 1)
           /\ (~ In day history -> v = 0))
     /\ option_map fst (nth_error trend (Z.to_nat (num_days - 1)))
        = Some today)
  /\ (toordinal today < num_days ->
      calculate_daily_trend t today habit_name num_days
      = Raise OverflowError).
Proof.
  intros Hget Ht Hn history.
  pose proof (is_date_ordinal _ Ht) as Ho. split.
  - intros Hle.
    exists (Unbounded.calculate_daily_trend t today habit_name num_days).
    split; [apply calculate_daily_trend_ok; [exact Ht | lia]|].
    destruct (daily_trend_unbounded t today habit_name num_days h Hget
                (is_date_valid _ Ht) Hn) as [L [Nd [E Last]]].
    split; [exact L|]. split; [exact Nd|]. split; [|exact Last].
    intros i Hi. destruct (E i Hi) as [day [v [Hnth [Hv [Hd [H1 H0]]]]]].
    exists day, v. split; [exact Hnth|]. split; [|auto].
    rewrite <- (fromordinal_toordinal day Hv).
    apply fromordinal_is_date. lia.
  - intros Hgt. apply (calculate_daily_trend_raises _ _ _ _ h Hget). lia.
Qed.

Lemma calculate_daily_trend_spec_witness :
  let h := mkHabit "Stretch" "daily" 1 (Some (mkdate 2025 4 14)) 0 1 in
  let t := mkTracker [(1, h)] [(1, mkdate 2025 4 14)] in
  exists trend,
    calculate_daily_trend t (mkdate 2025 4 15) "Stretch" 3 = Ok trend
    /\ List.length trend = 3%nat.
Proof.
  intros h t.
  destruct (calculate_daily_trend_spec t (mkdate 2025 4 15) "Stretch" 3 h
              eq_refl eq_refl ltac:(lia)) as [Hok _].
  destruct Hok as [trend [E [L _]]]; [vm_compute; discriminate|].
  exists trend. split; [exact E | exact L].
Defined.

(** C5 as stated fails for a window that starts before 1 January of
    year 1: from 15 April 2025, whose ordinal is 739356, a window of
    739357 days raises [OverflowError]. *)
Lemma calculate_daily_trend_overflow :
  let h := mkHabit "Stretch" "daily" 0 None 0 0 in
  let t := mkTracker [(1, h)] [] in
  get_habit t "Stretch" = Some h
  /\ is_date (mkdate 2025 4 15) = true
  /\ toordinal (mkdate 2025 4 15) = 739356
  /\ calculate_daily_trend t (mkdate 2025 4 15) "Stretch" 739357
     = Raise OverflowError.
Proof.
  cbv zeta. repeat split; vm_compute; reflexivity.
Qed.







End Trends.

(* ================================================================== *)
(** * More on the trends *)
(* ================================================================== *)

Section TrendFacts.
Import Exceptions Datetime Relativedelta HabitPy TrackerPy AnalysePy Props
  TrackerOps Facts.

Lemma is_date_all_valid (l : list date) :
  Forall (fun c => is_date c = true) l ->
  Forall (fun c => valid_date c = true) l.
Proof.
  intros H. eapply Forall_impl; [|exact H]. intros c. apply is_date_valid.
Qed.

(** The weekly trend in days.  For an existing habit, when the day
    [7 * num_weeks] days before the reference date is a date, a week
    appears in the trend exactly when the history holds a completion of
    that week that is at most [7 * num_weeks] days old and not in the
    future; the key of a completion is the Monday on or before it, so
    two completions share a key exactly when they lie in the same week
    from Monday to Sunday; and a negative [num_weeks] gives the empty
    trend. *)
Theorem calculate_weekly_trend_in_days (t : Tracker) (today : date)
    (habit_name : string) (num_weeks : Z) (h : Habit) :
  get_habit t habit_name = Some h ->
  is_date today = true ->
  Forall (fun c => is_date c = true) (get_completion_history t habit_name) ->
  1 <= toordinal today - 7 * num_weeks <= _MAXORDINAL ->
  let history := get_completion_history t habit_name in
  exists trend,
    calculate_weekly_trend t today habit_name num_weeks = Ok trend
    /\ (forall k, In k (map fst trend)
                  <-> exists c, In c history
                                /\ 0 <= date_diff today c <= 7 * num_weeks
                                /\ week_start c = k)
    /\ (forall c, date_diff c (week_start c) = weekday c
                  /\ 0 <= weekday c <= 6
                  /\ weekday (week_start c) = 0)
    /\ (forall c1 c2, week_start c1 = week_start c2
                      <-> (toordinal c1 + 6) / 7 = (toordinal c2 + 6) / 7)
    /\ (num_weeks < 0 -> trend = []).
Proof.
  intros Hget Ht Hall Hw history.
  exists (Unbounded.calculate_weekly_trend t today habit_name num_weeks).
  split; [now apply calculate_weekly_trend_ok|].
  exact (weekly_trend_in_days_unbounded t today habit_name num_weeks h Hget
           (is_date_valid _ Ht) (is_date_all_valid _ Hall)).
Qed.

Lemma calculate_weekly_trend_in_days_witness :
  let h := mkHabit "Run" "weekly" 2 (Some (mkdate 2025 4 14)) 0 2 in
  let t := mkTracker [(1, h)] [(1, mkdate 2025 4 14); (1, mkdate 2025 4 7)] in
  exists trend,
    calculate_weekly_trend t (mkdate 2025 4 15) "Run" 1 = Ok trend
    /\ (In (mkdate 2025 4 14) (map fst trend)
        <-> exists c,
              In c (get_completion_history t "Run")
              /\ 0 <= date_diff (mkdate 2025 4 15) c <= 7 * 1
              /\ week_start c = mkdate 2025 4 14).
Proof.
  intros h t.
  destruct (calculate_weekly_trend_in_days t (mkdate 2025 4 15) "Run" 1 h)
    as [trend [E [Hkeys _]]];
    [reflexivity | reflexivity | repeat constructor
     | vm_compute; split; discriminate |].
  exists trend. split; [exact E | apply Hkeys].
Defined.

(** The values of the weekly trend add up to the number of completions
    that are at most [7 * num_weeks] days old and not in the future:
    each of them is counted in exactly one week. *)
Theorem calculate_weekly_trend_total (t : Tracker) (today : date)
    (habit_name : string) (num_weeks : Z) (h : Habit) :
  get_habit t habit_name = Some h ->
  is_date today = true ->
  Forall (fun c => is_date c = true) (get_completion_history t habit_name) ->
  1 <= toordinal today - 7 * num_weeks <= _MAXORDINAL ->
  exists trend,
    calculate_weekly_trend t today habit_name num_weeks = Ok trend
    /\ total trend
       = count (within_days today (7 * num_weeks))
               (get_completion_history t habit_name).
Proof.
  intros Hget Ht Hall Hw.
  exists (Unbounded.calculate_weekly_trend t today habit_name num_weeks).
  split; [now apply calculate_weekly_trend_ok|].
  exact (weekly_trend_total_unbounded t today habit_name num_weeks h Hget
           (is_date_valid _ Ht) (is_date_all_valid _ Hall)).
Qed.

Lemma calculate_weekly_trend_total_witness :
  let h := mkHabit "Run" "weekly" 2 (Some (mkdate 2025 4 14)) 0 2 in
  let t := mkTracker [(1, h)]
             [(1, mkdate 2025 4 14); (1, mkdate 2025 4 7);
              (1, mkdate 2025 1 1)] in
  exists trend,
    calculate_weekly_trend t (mkdate 2025 4 15) "Run" 4 = Ok trend
    /\ total trend = 2.
Proof.
  intros h t.
  destruct (calculate_weekly_trend_total t (mkdate 2025 4 15) "Run" 4 h)
    as [trend [E Htotal]];
    [reflexivity | reflexivity | repeat constructor
     | vm_compute; split; discriminate |].
  exists trend. split; [exact E|]. rewrite Htotal. vm_compute. reflexivity.
Defined.

(** The values of the monthly trend add up to the number of completions
    between the first day of the first month of the window and the
    reference date: every completion inside the window is counted in
    exactly one month, the test against the seeded months drops none. *)
Theorem calculate_monthly_trend_total (fuel : nat) (t : Tracker)
    (today : date) (habit_name : string) (num_months : Z) (h : Habit) :
  get_habit t habit_name = Some h ->
  is_date today = true ->
  Forall (fun c => is_date c = true) (get_completion_history t habit_name) ->
  month_index today + 1 <= 12 * MAXYEAR + 11 ->
  12 * MINYEAR <= month_index today - num_months ->
  0 <= num_months ->
  (Z.to_nat num_months + 1 <= fuel)%nat ->
  exists trend,
    calculate_monthly_trend fuel t today habit_name num_months
    = Some (Ok trend)
    /\ total trend
       = count (in_window (month_of_index (month_index today - num_months))
                          today)
               (get_completion_history t habit_name).
Proof.
  intros Hget Ht Hall Hend Hstart Hn Hfuel.
  destruct (monthly_trend_total_unbounded fuel t today habit_name num_months
              h Hget (is_date_valid _ Ht) Hn Hfuel (is_date_all_valid _ Hall))
    as [trend [E Htotal]].
  exists trend. split; [|exact Htotal].
  rewrite calculate_monthly_trend_ok;
    [now rewrite E | exact Ht | exact Hall | | exact Hend].
  unfold MINYEAR in Hstart. lia.
Qed.

Lemma calculate_monthly_trend_total_witness :
  let h := mkHabit "Read" "monthly" 0 None 0 0 in
  let t := mkTracker [(1, h)]
             [(1, mkdate 2025 4 16); (1, mkdate 2025 3 1);
              (1, mkdate 2024 12 31)] in
  exists trend,
    calculate_monthly_trend 5 t (mkdate 2025 4 15) "Read" 3 = Some (Ok trend)
    /\ total trend = 1.
Proof.
  intros h t.
  destruct (calculate_monthly_trend_total 5 t (mkdate 2025 4 15) "Read" 3 h)
    as [trend [E Htotal]];
    [reflexivity | reflexivity | repeat constructor
     | vm_compute; discriminate | vm_compute; discriminate
     | lia | cbn; lia |].
  exists trend. split; [exact E|]. rewrite Htotal. vm_compute. reflexivity.
Defined.

(** Recording a completion shows in the daily trend: for a habit that
    exists and a window that starts no earlier than 1 January of year 1,
    the trend computed right after [record_completion] ends with today's
    entry, and its value is 1. *)
Theorem record_then_daily_trend (t : Tracker) (today : date) (n : string)
    (h : Habit) (id : Z) (num_days : Z) :
  get_habit t n = Some h ->
  _get_habit_id t n = Some id ->
  id <> 0 ->
  is_date today = true ->
  1 <= num_days <= toordinal today ->
  let t' := fst (record_completion t today n) in
  exists trend,
    calculate_daily_trend t' today n num_days = Ok trend
    /\ nth_error trend (Z.to_nat (num_days - 1)) = Some (today, 1).
Proof.
  intros Hget Hid Hnz Ht Hn t'.
  pose proof (is_date_ordinal _ Ht) as Ho.
  exists (Unbounded.calculate_daily_trend t' today n num_days).
  split; [apply calculate_daily_trend_ok; [exact Ht | lia]|].
  apply (record_then_daily_trend_unbounded t today n h id num_days Hget Hid
           Hnz (is_date_valid _ Ht)).
  lia.
Qed.

Lemma record_then_daily_trend_witness :
  let h := mkHabit "Stretch" "daily" 0 None 0 0 in
  let t := mkTracker [(1, h)] [] in
  exists trend,
    calculate_daily_trend
      (fst (record_completion t (mkdate 2025 4 15) "Stretch"))
      (mkdate 2025 4 15) "Stretch" 7 = Ok trend
    /\ nth_error trend 6 = Some (mkdate 2025 4 15, 1).
Proof.
  intros h t.
  destruct (record_then_daily_trend t (mkdate 2025 4 15) "Stretch" h 1 7)
    as [trend [E Hlast]];
    [reflexivity | reflexivity | discriminate | reflexivity
     | vm_compute; split; discriminate |].
  exists trend. split; [exact E | exact Hlast].
Defined.

End TrendFacts.

(* ================================================================== *)
(** * The three views *)
(* ================================================================== *)

Section Views.
Import Exceptions Datetime Relativedelta HabitPy TrackerPy AnalysePy Props
  TrackerOps VisualizePy Facts.



End Views.
